(** * Heart-disease MLOps: preprocessing, training orchestration, serving

    A shallow embedding of [src/data/preprocessing.py], [src/models/train.py],
    [scripts/train_model.py] and [api/app.py].

    Conventions of the embedding.
    - Numbers are exact rationals ([Q]); a DataFrame cell is [option Q] with
      [None] standing for NaN.  Floating-point rounding is not modelled.
    - Python exceptions are values of [exn]; a fallible computation returns
      [result A].  The orchestrating script and the trainer thread a [World]
      (artifact files, started MLflow runs, log lines) through an exception
      monad; effects made before a raise persist, as in Python.
    - A Python [dict] whose iteration order matters ([ModelTrainer.results])
      is an insertion-ordered association list with unique keys; metric
      dictionaries and the artifact store are [gmap]s.
    - Library code that the repository calls but does not contain (the
      learners, cross validation, the train/test splitter, [np.sqrt], the
      pickler behind joblib) is taken through the interfaces [Numpy],
      [Estimators] and [Joblib]; the scikit-learn transformers and metrics
      that the claims reason about are written out following their documented
      behaviour, and so is the pickling of a preprocessor ([token_joblib]),
      on which the round trip through [save] and [load] is proved. *)

From Stdlib Require Import QArith Qround Lqa.
From stdpp Require Import gmap strings list fin_maps pretty.

Open Scope Q_scope.

(** ** Exceptions and the [result] monad *)

Inductive exn : Type :=
| ValueError (msg : string)
| KeyError (key : string)
| IndexError
| NotFittedError
| FileNotFoundError (path : string)
| EstimatorError (msg : string)
| HTTPException (status_code : Z) (detail : string).

Inductive result (A : Type) : Type :=
| Ok (a : A)
| Err (e : exn).
Arguments Ok {A} a.
Arguments Err {A} e.

#[export] Instance result_ret : MRet result := λ A a, Ok a.
#[export] Instance result_bind : MBind result := λ A B f m,
  match m with
  | Ok a => f a
  | Err e => Err e
  end.
#[export] Instance result_fmap : FMap result := λ A B f m,
  match m with
  | Ok a => Ok (f a)
  | Err e => Err e
  end.

Definition is_Ok {A} (r : result A) : Prop := ∃ a, r = Ok a.

Definition is_ok {A} (r : result A) : bool :=
  match r with Ok _ => true | Err _ => false end.

(** [mapM] for [result]: the first failure wins, as in a Python loop. *)
Fixpoint mapR {A B} (f : A → result B) (l : list A) : result (list B) :=
  match l with
  | [] => Ok []
  | x :: l' => y ← f x; ys ← mapR f l'; Ok (y :: ys)
  end.

(** ** Decidable order on [Q] *)

#[export] Instance Q_eq_dec : EqDecision Q.
Proof. solve_decision. Defined.

#[export] Instance Qeq_decision (x y : Q) : Decision (x == y) := Qeq_dec x y.
#[export] Instance Qle_decision (x y : Q) : Decision (x <= y) :=
  match Qlt_le_dec y x with
  | left H => right (Qlt_not_le _ _ H)
  | right H => left H
  end.
#[export] Instance Qlt_decision (x y : Q) : Decision (x < y) :=
  match Qlt_le_dec x y with
  | left H => left H
  | right H => right (Qle_not_lt _ _ H)
  end.

Definition Qnat (n : nat) : Q := inject_Z (Z.of_nat n).

Definition Qsum (l : list Q) : Q := foldr Qplus 0 l.

(** ** DataFrames *)

(** A cell is a number or NaN. *)
Abbreviation cell := (option Q) (only parsing).

(** A row carries its index label; [columns] names the positions of the
    cells.  [pd.read_csv] makes header names unique, so a name denotes the
    first position carrying it. *)
Record DataFrame : Type := mkDataFrame {
  columns : list string;
  rows : list (nat * list cell)
}.

(** [DataFrame.count(axis=1)] for one row: the number of non-NA cells. *)
Definition count_notna (r : list cell) : nat :=
  length (filter (λ c : cell, is_Some c) r).

(** [df.dropna(thresh=t)]: keep the rows with [count >= t]. *)
Definition dropna_thresh (thresh : Q) (df : DataFrame) : DataFrame :=
  {| columns := columns df;
     rows := filter (λ r, thresh <= Qnat (count_notna r.2)) (rows df) |}.

(** [clean_data], preprocessing.py lines 89-100 (the prints are dropped). *)
Definition clean_data (df : DataFrame) : DataFrame :=
  let threshold := Qnat (length (columns df)) * 0.5 in
  let df_clean := dropna_thresh threshold df in
  df_clean.

(** Position of a column name. *)
Fixpoint col_index (name : string) (cols : list string) : option nat :=
  match cols with
  | [] => None
  | c :: cols' =>
      if decide (c = name) then Some 0%nat else S <$> col_index name cols'
  end.

Definition delete_at {A} (i : nat) (l : list A) : list A :=
  take i l ++ drop (S i) l.

Definition cell_at (i : nat) (r : list cell) : cell := default None (r !! i).

(** [split_features_target], preprocessing.py lines 102-111:
    [df.drop(columns=[target_col])] and [df[target_col]]; both raise
    [KeyError] when the column is absent. *)
Definition split_features_target (df : DataFrame) (target_col : string)
  : result (DataFrame * list cell) :=
  match col_index target_col (columns df) with
  | None => Err (KeyError target_col)
  | Some i =>
      let X := {| columns := delete_at i (columns df);
                  rows := fmap (λ r, (r.1, delete_at i r.2)) (rows df) |} in
      let y := fmap (λ r, cell_at i r.2) (rows df) in
      Ok (X, y)
  end.

(** ** External numerics *)

(** [np.sqrt] on the rationals is supplied from outside: a square root is
    not rational in general. *)
Class Numpy : Type := { np_sqrt : Q → Q }.

(** ** scikit-learn transformers, following their documented behaviour *)

Fixpoint insert_sorted (x : Q) (l : list Q) : list Q :=
  match l with
  | [] => [x]
  | y :: l' => if decide (x <= y) then x :: l else y :: insert_sorted x l'
  end.

Definition sort_Q (l : list Q) : list Q := foldr insert_sorted [] l.

(** The non-NaN entries of a column. *)
Definition observed (col : list cell) : list Q := omap id col.

(** Median of the observed values: the middle element, or the mean of the
    two middle elements; NaN when nothing was observed. *)
Definition median (xs : list Q) : cell :=
  let s := sort_Q xs in
  let n := length s in
  if decide (n = 0%nat) then None
  else if Nat.odd n then s !! (n / 2)%nat
  else Some ((default 0 (s !! (n / 2 - 1)%nat) + default 0 (s !! (n / 2)%nat)) / 2).

Definition occurrences (x : Q) (xs : list Q) : nat :=
  length (filter (λ y, y == x) xs).

(** Most frequent observed value, the smallest one among ties; NaN when
    nothing was observed. *)
Definition most_frequent (xs : list Q) : cell :=
  foldr (λ x best,
           match best with
           | None => Some x
           | Some b =>
               if decide ((occurrences b xs < occurrences x xs)%nat ∨
                          (occurrences b xs = occurrences x xs ∧ x < b))
               then Some x else Some b
           end) None xs.

Inductive strategy : Type := Median | MostFrequent.

Definition statistic (s : strategy) (xs : list Q) : cell :=
  match s with
  | Median => median xs
  | MostFrequent => most_frequent xs
  end.

Record SimpleImputer : Type := mkSimpleImputer {
  imputer_strategy : strategy;
  statistics_ : list cell
}.

(** Column [j] of a matrix given by rows. *)
Definition column (j : nat) (M : list (list cell)) : list cell :=
  fmap (cell_at j) M.

Definition SimpleImputer_fit (s : strategy) (width : nat) (M : list (list cell))
  : SimpleImputer :=
  {| imputer_strategy := s;
     statistics_ := fmap (λ j, statistic s (observed (column j M))) (seq 0 width) |}.

Definition fill (m : Q) (c : cell) : cell :=
  match c with
  | None => Some m
  | Some v => Some v
  end.

(** [SimpleImputer.transform] on one row.  A column whose statistic is NaN
    (no observed value at fit time) is skipped: the output is narrower. *)
Fixpoint impute_row (stats : list cell) (r : list cell) : list cell :=
  match stats, r with
  | Some m :: stats', c :: r' => fill m c :: impute_row stats' r'
  | None :: stats', _ :: r' => impute_row stats' r'
  | _, _ => []
  end.

Record StandardScaler : Type := mkStandardScaler {
  mean_ : list Q;
  var_ : list Q;
  scale_ : list Q
}.

Definition mean (xs : list Q) : Q := Qsum xs / Qnat (length xs).

(** Population variance, as [StandardScaler] computes it. *)
Definition variance (xs : list Q) : Q :=
  let m := mean xs in
  Qsum (fmap (λ x, (x - m) * (x - m)) xs) / Qnat (length xs).

(** A zero scale is replaced by one: a constant feature is only centred. *)
Definition handle_zeros_in_scale (s : Q) : Q :=
  if decide (s == 0) then 1 else s.

(** [StandardScaler.fit]; NaN entries are disregarded. *)
Definition StandardScaler_fit `{Numpy} (width : nat) (M : list (list cell))
  : StandardScaler :=
  let cols := fmap (λ j, observed (column j M)) (seq 0 width) in
  {| mean_ := fmap mean cols;
     var_ := fmap variance cols;
     scale_ := fmap (λ xs, handle_zeros_in_scale (np_sqrt (variance xs))) cols |}.

(** [StandardScaler.transform] on one cell; NaN stays NaN. *)
Definition scale_cell (m s : Q) (c : cell) : cell :=
  (λ x, (x - m) / s) <$> c.

Fixpoint scale_row (means scales : list Q) (r : list cell) : list cell :=
  match means, scales, r with
  | m :: means', s :: scales', c :: r' =>
      scale_cell m s c :: scale_row means' scales' r'
  | _, _, _ => []
  end.

(** The fitted [ColumnTransformer] of [_create_pipeline]: the numerical
    pipeline (median imputer, then scaler) and the categorical pipeline
    (most-frequent imputer). *)
Record ColumnTransformer : Type := mkColumnTransformer {
  numerical_imputer : SimpleImputer;
  numerical_scaler : StandardScaler;
  categorical_imputer : SimpleImputer
}.

(** Positions of the configured columns in a frame; a missing name is an
    error. *)
Definition column_positions (names : list string) (df : DataFrame)
  : result (list nat) :=
  mapR (λ name,
          match col_index name (columns df) with
          | Some i => Ok i
          | None => Err (ValueError ("columns are missing: " +:+ name))
          end) names.

Definition pick (idx : list nat) (r : list cell) : list cell :=
  fmap (λ i, cell_at i r) idx.

(** scikit-learn refuses an array without samples. *)
Definition check_min_samples {A} (l : list A) : result () :=
  match l with
  | [] => Err (ValueError "Found array with 0 sample(s)")
  | _ => Ok ()
  end.

Definition n_valid (stats : list cell) : nat := count_notna stats.

(** [StandardScaler.fit] refuses an array without features: when numerical
    columns are configured, the imputer must have kept at least one of
    them.  (A transformer with an empty list of columns is skipped.) *)
Definition check_min_features (names : list string) (width : nat) : result () :=
  match names, width with
  | _ :: _, O => Err (ValueError "Found array with 0 feature(s)")
  | _, _ => Ok ()
  end.
Arguments check_min_features : simpl never.

Definition ColumnTransformer_fit `{Numpy}
    (numerical categorical : list string) (X : DataFrame)
  : result ColumnTransformer :=
  idxn ← column_positions numerical X;
  idxc ← column_positions categorical X;
  _ ← check_min_samples (rows X);
  let Xn := fmap (λ r, pick idxn r.2) (rows X) in
  let Xc := fmap (λ r, pick idxc r.2) (rows X) in
  let imputer_n := SimpleImputer_fit Median (length numerical) Xn in
  _ ← check_min_features numerical (n_valid (statistics_ imputer_n));
  let Xn' := fmap (impute_row (statistics_ imputer_n)) Xn in
  let scaler := StandardScaler_fit (n_valid (statistics_ imputer_n)) Xn' in
  let imputer_c := SimpleImputer_fit MostFrequent (length categorical) Xc in
  Ok {| numerical_imputer := imputer_n;
        numerical_scaler := scaler;
        categorical_imputer := imputer_c |}.

(** One row through the fitted transformer: numerical block, then
    categorical block. *)
Definition transform_row (ct : ColumnTransformer) (idxn idxc : list nat)
    (r : list cell) : list cell :=
  scale_row (mean_ (numerical_scaler ct)) (scale_ (numerical_scaler ct))
    (impute_row (statistics_ (numerical_imputer ct)) (pick idxn r))
  ++ impute_row (statistics_ (categorical_imputer ct)) (pick idxc r).

Definition ColumnTransformer_transform (ct : ColumnTransformer)
    (numerical categorical : list string) (X : DataFrame)
  : result (list (list cell)) :=
  idxn ← column_positions numerical X;
  idxc ← column_positions categorical X;
  _ ← check_min_samples (rows X);
  Ok (fmap (λ r, transform_row ct idxn idxc r.2) (rows X)).

(** [pd.DataFrame(values, columns=..., index=...)]: the shape of the values
    must agree with the column names. *)
Definition pd_DataFrame (values : list (list cell)) (cols : list string)
    (index : list nat) : result DataFrame :=
  if decide (Forall (λ r : list cell, length r = length cols) values)
  then Ok {| columns := cols; rows := zip index values |}
  else Err (ValueError "Shape of passed values does not match the columns").

(** ** [HeartDiseasePreprocessor], preprocessing.py lines 15-81 *)

Record HeartDiseasePreprocessor : Type := mkPreprocessor {
  numerical_features : list string;
  categorical_features : list string;
  (** [None] until [fit] has run. *)
  pipeline : option ColumnTransformer
}.

(** [__init__] with [_create_pipeline]: the schema and an unfitted pipeline. *)
Definition new_preprocessor : HeartDiseasePreprocessor :=
  {| numerical_features := ["age"; "trestbps"; "chol"; "thalach"; "oldpeak"];
     categorical_features :=
       ["sex"; "cp"; "fbs"; "restecg"; "exang"; "slope"; "ca"; "thal"];
     pipeline := None |}.

(** [fit]: returns the updated object ([return self]). *)
Definition fit `{Numpy} (self : HeartDiseasePreprocessor) (X : DataFrame)
  : result HeartDiseasePreprocessor :=
  ct ← ColumnTransformer_fit (numerical_features self)
         (categorical_features self) X;
  Ok {| numerical_features := numerical_features self;
        categorical_features := categorical_features self;
        pipeline := Some ct |}.

Definition transform (self : HeartDiseasePreprocessor) (X : DataFrame)
  : result DataFrame :=
  match pipeline self with
  | None => Err NotFittedError
  | Some ct =>
      X_transformed ← ColumnTransformer_transform ct (numerical_features self)
                        (categorical_features self) X;
      let feature_names := numerical_features self ++ categorical_features self in
      pd_DataFrame X_transformed feature_names (fmap fst (rows X))
  end.

Definition fit_transform `{Numpy} (self : HeartDiseasePreprocessor)
    (X : DataFrame) : result (HeartDiseasePreprocessor * DataFrame) :=
  self' ← fit self X;
  Xt ← transform self' X;
  Ok (self', Xt).

(** ** Models and the external estimators *)

(** A fitted classifier: labels and positive-class probabilities for the
    rows of a frame ([predict_proba(X)[:, 1]]). *)
Record Model : Type := mkModel {
  predict : DataFrame → result (list Q);
  predict_proba : DataFrame → result (list Q)
}.

Class Estimators : Type := {
  (** [LogisticRegression] with the configured parameters, then [fit(X, y)] *)
  LogisticRegression_fit : DataFrame → list cell → result Model;
  (** [RandomForestClassifier] with the configured parameters, then [fit(X, y)] *)
  RandomForestClassifier_fit : DataFrame → list cell → result Model;
  (** [cross_val_score(model, X, y, cv=k, scoring='roc_auc')] *)
  cross_val_score : Model → DataFrame → list cell → nat → result (list Q);
  (** The positions that [train_test_split] assigns to the training and to
      the test part, from the number of samples, [test_size],
      [random_state] and the stratification labels. *)
  split_positions : nat → Q → Z → list cell → result (list nat * list nat)
}.

(** Rows (or entries) at the given positions, in that order. *)
Definition take_positions {A} (idx : list nat) (l : list A) : list A :=
  omap (λ i, l !! i) idx.

Definition train_test_split `{Estimators} (X : DataFrame) (y : list cell)
    (test_size : Q) (random_state : Z)
  : result (DataFrame * DataFrame * list cell * list cell) :=
  '(train, test) ← split_positions (length (rows X)) test_size random_state y;
  Ok ({| columns := columns X; rows := take_positions train (rows X) |},
      {| columns := columns X; rows := take_positions test (rows X) |},
      take_positions train y,
      take_positions test y).

(** ** Artifacts, the world, and the effect monad *)

(** joblib pickles whole objects; the byte format is the library's. *)
Class Joblib : Type := {
  blob : Type;
  dumps_preprocessor : HeartDiseasePreprocessor → blob;
  loads_preprocessor : blob → result HeartDiseasePreprocessor;
  dumps_model : Model → blob;
  loads_model : blob → result Model
}.

Record World `{Joblib} : Type := mkWorld {
  (** parsed content of the CSV files, by path *)
  csv_files : gmap string DataFrame;
  (** joblib artifacts, by path *)
  files : gmap string blob;
  (** names of the MLflow runs started so far, oldest first *)
  mlflow_runs : list string;
  (** lines written with [logger.error] *)
  error_log : list string
}.

Record io `{Joblib} (A : Type) : Type := IO { run : World → result A * World }.
Arguments IO {_ _} _.
Arguments run {_ _} _ _.

#[export] Instance io_ret `{Joblib} : MRet io := λ A a, IO (λ w, (Ok a, w)).
#[export] Instance io_bind `{Joblib} : MBind io := λ A B f m,
  IO (λ w, match run m w with
           | (Ok a, w') => run (f a) w'
           | (Err e, w') => (Err e, w')
           end).

Definition lift `{Joblib} {A} (r : result A) : io A := IO (λ w, (r, w)).

Definition raise `{Joblib} {A} (e : exn) : io A := lift (Err e).

(** [try: body except Exception as e: handler(e)] *)
Definition try_except `{Joblib} {A} (body : io A) (handler : exn → io A) : io A :=
  IO (λ w, match run body w with
           | (Ok a, w') => (Ok a, w')
           | (Err e, w') => run (handler e) w'
           end).

Definition write_file `{Joblib} (path : string) (b : blob) : io () :=
  IO (λ w, (Ok (), {| csv_files := csv_files w;
                      files := <[path := b]> (files w);
                      mlflow_runs := mlflow_runs w;
                      error_log := error_log w |})).

Definition read_file `{Joblib} (path : string) : io blob :=
  IO (λ w, match files w !! path with
           | Some b => (Ok b, w)
           | None => (Err (FileNotFoundError path), w)
           end).

Definition mlflow_start_run `{Joblib} (run_name : string) : io () :=
  IO (λ w, (Ok (), {| csv_files := csv_files w;
                      files := files w;
                      mlflow_runs := mlflow_runs w ++ [run_name];
                      error_log := error_log w |})).

Definition logger_error `{Joblib} (line : string) : io () :=
  IO (λ w, (Ok (), {| csv_files := csv_files w;
                      files := files w;
                      mlflow_runs := mlflow_runs w;
                      error_log := error_log w ++ [line] |})).

(** [str(e)] *)
Definition exn_str (e : exn) : string :=
  match e with
  | ValueError msg => msg
  | KeyError key => "'" +:+ key +:+ "'"
  | IndexError => "index 0 is out of bounds"
  | NotFittedError => "This ColumnTransformer instance is not fitted yet"
  | FileNotFoundError path => "No such file or directory: '" +:+ path +:+ "'"
  | EstimatorError msg => msg
  | HTTPException status detail => pretty status +:+ ": " +:+ detail
  end.

(** [HeartDiseasePreprocessor.save], lines 73-76 *)
Definition save `{Joblib} (self : HeartDiseasePreprocessor) (path : string)
  : io () :=
  write_file path (dumps_preprocessor self).


(** [load_data], lines 83-87: [pd.read_csv] *)
Definition load_data `{Joblib} (file_path : string) : io DataFrame :=
  IO (λ w, match csv_files w !! file_path with
           | Some df => (Ok df, w)
           | None => (Err (FileNotFoundError file_path), w)
           end).

(** ** scikit-learn metrics, following their documented behaviour *)

Definition check_consistent_length {A B} (a : list A) (b : list B) : result () :=
  if decide (length a = length b) then Ok ()
  else Err (ValueError "Found input variables with inconsistent numbers of samples").

Definition check_no_nan (y : list cell) : result (list Q) :=
  mapR (λ c : cell,
          match c with
          | Some v => Ok v
          | None => Err (ValueError "Input contains NaN")
          end) y.

(** [np.unique]: the distinct values, each in lowest terms so that equal
    numbers are the same term (the order is not modelled; only the number
    of labels and membership are used). *)
Definition unique_labels (ys : list Q) : list Q := remove_dups (Qred <$> ys).

(** A number without fractional part. *)
Definition is_integral (q : Q) : Prop := inject_Z (Qfloor q) == q.

#[export] Instance is_integral_dec (q : Q) : Decision (is_integral q) :=
  Qeq_decision _ _.

(** [type_of_target] on a one-dimensional numeric array without NaN: a
    value with a fractional part makes the target continuous; otherwise
    more than two distinct values make it multiclass, and anything else,
    the empty array included, is binary. *)
Inductive target_type : Type := Continuous | Binary | Multiclass.

Definition type_of_target (ys : list Q) : target_type :=
  if decide (Forall is_integral ys) then
    if decide (length (unique_labels ys) ≤ 2)%nat then Binary else Multiclass
  else Continuous.

(** [_check_targets]: both arrays have the same length, [y_true] has no
    NaN, neither array is continuous; the common type is binary only when
    both arrays together hold at most two distinct values.  Returns the
    type and the pairs (true label, prediction). *)
Definition check_targets (y_true : list cell) (y_pred : list Q)
  : result (target_type * list (Q * Q)) :=
  _ ← check_consistent_length y_true y_pred;
  ys ← check_no_nan y_true;
  match type_of_target ys, type_of_target y_pred with
  | Continuous, Continuous => Err (ValueError "continuous is not supported")
  | Continuous, _ | _, Continuous =>
      Err (ValueError "Classification metrics can't handle a mix of binary and continuous targets")
  | Binary, Binary =>
      Ok (if decide (length (unique_labels (ys ++ y_pred)) ≤ 2)%nat
          then Binary else Multiclass, zip ys y_pred)
  | _, _ => Ok (Multiclass, zip ys y_pred)
  end.

(** [_check_set_wise_labels] with the defaults [average='binary'] and
    [pos_label=1]: the targets must be binary, and when two labels are
    present, [1] must be one of them. *)
Definition check_set_wise_labels (y_true : list cell) (y_pred : list Q)
  : result (list (Q * Q)) :=
  '(y_type, pairs) ← check_targets y_true y_pred;
  match y_type with
  | Binary =>
      let present_labels := unique_labels (pairs.*1 ++ pairs.*2) in
      if decide ((1 ∉ present_labels) ∧ (2 ≤ length present_labels)%nat)
      then Err (ValueError "pos_label=1 is not a valid label")
      else Ok pairs
  | _ => Err (ValueError "Target is multiclass but average='binary'")
  end.

(** [zero_division=0]: a quotient with zero denominator is [0]. *)
Definition safe_div (num den : Q) : Q :=
  if decide (den == 0) then 0 else num / den.

Definition true_positives (pairs : list (Q * Q)) : nat :=
  length (filter (λ p, p.1 == 1 ∧ p.2 == 1) pairs).
Definition predicted_positives (pairs : list (Q * Q)) : nat :=
  length (filter (λ p, p.2 == 1) pairs).
Definition actual_positives (pairs : list (Q * Q)) : nat :=
  length (filter (λ p, p.1 == 1) pairs).

(** [accuracy_score]: the mean of the hits, which is NaN for an array
    without samples. *)
Definition accuracy_score (y_true : list cell) (y_pred : list Q) : result cell :=
  '(_, pairs) ← check_targets y_true y_pred;
  Ok (match pairs with
      | [] => None
      | _ => Some (Qnat (length (filter (λ p, p.1 == p.2) pairs))
                   / Qnat (length pairs))
      end).

Definition precision_of (pairs : list (Q * Q)) : Q :=
  safe_div (Qnat (true_positives pairs)) (Qnat (predicted_positives pairs)).
Definition recall_of (pairs : list (Q * Q)) : Q :=
  safe_div (Qnat (true_positives pairs)) (Qnat (actual_positives pairs)).

Definition precision_score (y_true : list cell) (y_pred : list Q) : result Q :=
  pairs ← check_set_wise_labels y_true y_pred;
  Ok (precision_of pairs).

Definition recall_score (y_true : list cell) (y_pred : list Q) : result Q :=
  pairs ← check_set_wise_labels y_true y_pred;
  Ok (recall_of pairs).

Definition f1_score (y_true : list cell) (y_pred : list Q) : result Q :=
  pairs ← check_set_wise_labels y_true y_pred;
  let p := precision_of pairs in
  let r := recall_of pairs in
  Ok (safe_div (2 * p * r) (p + r)).

Definition Qmax_list (l : list Q) : Q :=
  foldr (λ x m, if decide (m < x) then x else m) (default 0 (head l)) l.

(** Area under the ROC curve as the fraction of (positive, negative) pairs
    ranked correctly, ties counting one half; the larger of the two labels
    is the positive one. *)
Definition auc_of (pairs : list (Q * Q)) : Q :=
  let pos_label := Qmax_list (pairs.*1) in
  let pos := (filter (λ p, p.1 == pos_label) pairs).*2 in
  let neg := (filter (λ p, ¬ p.1 == pos_label) pairs).*2 in
  Qsum (fmap (λ sp, Qsum (fmap (λ sn, if decide (sn < sp) then 1
                                     else if decide (sn == sp) then 1 / 2
                                     else 0) neg)) pos)
  / (Qnat (length pos) * Qnat (length neg)).

(** [roc_auc_score] with a one-dimensional score: [y_true] must be free of
    NaN and binary, and hold exactly two classes.  On a single class the
    function raises, which is the behaviour the specification records and
    that of the scikit-learn releases up to 1.3.2 at least; later releases
    warn and return NaN there instead, and are not what is modelled
    here. *)
Definition roc_auc_score (y_true : list cell) (y_score : list Q) : result Q :=
  ys ← check_no_nan y_true;
  match type_of_target ys with
  | Multiclass => Err (ValueError "multi_class must be in ('ovo', 'ovr')")
  | Continuous => Err (ValueError "continuous format is not supported")
  | Binary =>
      if decide (length (unique_labels ys) = 2%nat)
      then _ ← check_consistent_length ys y_score;
           Ok (auc_of (zip ys y_score))
      else Err (ValueError "Only one class present in y_true. ROC AUC score is not defined in that case.")
  end.

(** ** [ModelTrainer], train.py lines 20-182 *)

(** An insertion-ordered Python [dict]: assignment to an existing key keeps
    its position, a new key goes to the end. *)
Fixpoint dict_set {V} (k : string) (v : V) (d : list (string * V))
  : list (string * V) :=
  match d with
  | [] => [(k, v)]
  | (k', v') :: d' =>
      if decide (k' = k) then (k, v) :: d' else (k', v') :: dict_set k v d'
  end.

Fixpoint dict_get {V} (k : string) (d : list (string * V)) : result V :=
  match d with
  | [] => Err (KeyError k)
  | (k', v') :: d' => if decide (k' = k) then Ok v' else dict_get k d'
  end.

(** [d[key]] on a metric dictionary *)
Definition metric_get (key : string) (d : gmap string Q) : result Q :=
  match d !! key with
  | Some v => Ok v
  | None => Err (KeyError key)
  end.

Record ModelTrainer : Type := mkModelTrainer {
  models : list (string * Model);
  results : list (string * gmap string Q)
}.

(** [__init__]: both dictionaries start empty. *)
Definition new_trainer : ModelTrainer := {| models := []; results := [] |}.

(** [_calculate_metrics], lines 139-147: a dict display evaluates its
    values in order; a raise in any of them leaves no dict.  The accuracy
    is NaN only for arrays without samples, on which [roc_auc_score]
    raises, so that a dictionary, once built, holds numbers only (lemma
    [calculate_metrics_accuracy]). *)
Definition _calculate_metrics (y_true : list cell) (y_pred y_pred_proba : list Q)
  : result (gmap string Q) :=
  accuracy ← accuracy_score y_true y_pred;
  precision ← precision_score y_true y_pred;
  recall ← recall_score y_true y_pred;
  f1 ← f1_score y_true y_pred;
  roc_auc ← roc_auc_score y_true y_pred_proba;
  Ok (<["accuracy" := default 0 accuracy]> (<["precision" := precision]>
     (<["recall" := recall]> (<["f1_score" := f1]>
     (<["roc_auc" := roc_auc]> ∅))))).

Definition cv_folds : nat := 5.

(** The fallible steps between the start of the run and the recording,
    lines 41-59 and 90-108: fit, predict on the test split, compute the
    metrics, cross-validate on the training split. *)
Definition fit_and_evaluate `{Numpy} `{Estimators}
    (estimator_fit : DataFrame → list cell → result Model)
    (X_train : DataFrame) (y_train : list cell)
    (X_test : DataFrame) (y_test : list cell)
  : result (Model * gmap string Q) :=
  model ← estimator_fit X_train y_train;
  y_pred ← predict model X_test;
  y_pred_proba ← predict_proba model X_test;
  metrics ← _calculate_metrics y_test y_pred y_pred_proba;
  cv_scores ← cross_val_score model X_train y_train cv_folds;
  let metrics := <["cv_roc_auc_mean" := mean cv_scores]> metrics in
  let metrics := <["cv_roc_auc_std" := np_sqrt (variance cv_scores)]> metrics in
  Ok (model, metrics).

(** The body shared by [train_logistic_regression] (lines 36-77) and
    [train_random_forest] (lines 85-137): start the MLflow run, go through
    the steps above, and only then record model and metrics under the name.
    MLflow logging and the confusion-matrix plot do not touch the trainer. *)
Definition train_and_record `{Numpy} `{Estimators} `{Joblib}
    (run_name : string) (estimator_fit : DataFrame → list cell → result Model)
    (self : ModelTrainer) (X_train : DataFrame) (y_train : list cell)
    (X_test : DataFrame) (y_test : list cell)
  : io (ModelTrainer * (Model * gmap string Q)) :=
  _ ← mlflow_start_run run_name;
  '(model, metrics) ←
     lift (fit_and_evaluate estimator_fit X_train y_train X_test y_test);
  mret ({| models := dict_set run_name model (models self);
           results := dict_set run_name metrics (results self) |},
        (model, metrics)).

Definition train_logistic_regression `{Numpy} `{Estimators} `{Joblib} :=
  train_and_record "logistic_regression" LogisticRegression_fit.

Definition train_random_forest `{Numpy} `{Estimators} `{Joblib} :=
  train_and_record "random_forest" RandomForestClassifier_fit.

(** The loop of Python's [max(iterable, key=...)]: the key is computed for
    every item in order, and the running best changes only on a strictly
    larger key. *)
Fixpoint max_loop {A} (key : A → result Q) (best : A) (best_key : Q)
    (l : list A) : result A :=
  match l with
  | [] => Ok best
  | x :: l' =>
      k ← key x;
      if decide (best_key < k) then max_loop key x k l'
      else max_loop key best best_key l'
  end.

Definition py_max {A} (key : A → result Q) (l : list A) : result A :=
  match l with
  | [] => Err (ValueError "max() arg is an empty sequence")
  | x :: l' => k ← key x; max_loop key x k l'
  end.

(** [select_best_model], lines 167-177 *)
Definition select_best_model (self : ModelTrainer) (metric : string)
  : result (Model * string) :=
  best ← py_max (λ x, metric_get metric x.2) (results self);
  let best_model_name := best.1 in
  _ ← (m ← dict_get best_model_name (results self); metric_get metric m);
  model ← dict_get best_model_name (models self);
  Ok (model, best_model_name).

(** [save_model], lines 179-182 *)
Definition save_model `{Joblib} (model : Model) (model_path : string) : io () :=
  write_file model_path (dumps_model model).

(** ** Configuration, config.py *)

Definition raw_data_path : string := "data/raw/heart_disease_with_headers.csv".
Definition test_size : Q := 0.2.
Definition random_state : Z := 42.
Definition model_path : string := "models/best_model.pkl".
Definition preprocessor_path : string := "models/preprocessor.pkl".

(** ** The training script, scripts/train_model.py lines 30-97 *)

(** Steps 5 and 6, lines 57-93: split, train both candidates, select and
    save the best model. *)
Definition split_train_select `{Numpy} `{Estimators} `{Joblib}
    (X_transformed : DataFrame) (y : list cell) : io bool :=
  '(X_train, X_test, y_train, y_test) ←
     lift (train_test_split X_transformed y test_size random_state);
  let trainer := new_trainer in
  '(trainer, _) ← train_logistic_regression trainer X_train y_train X_test y_test;
  '(trainer, _) ← train_random_forest trainer X_train y_train X_test y_test;
  '(best_model, best_model_name) ← lift (select_best_model trainer "roc_auc");
  _ ← save_model best_model model_path;
  mret true.

(** Steps 1 to 4, lines 37-55, followed by the steps above. *)
Definition main_body `{Numpy} `{Estimators} `{Joblib} : io bool :=
  df ← load_data raw_data_path;
  let df_clean := clean_data df in
  '(X, y) ← lift (split_features_target df_clean "target");
  let preprocessor := new_preprocessor in
  '(preprocessor, X_transformed) ← lift (fit_transform preprocessor X);
  _ ← save preprocessor preprocessor_path;
  split_train_select X_transformed y.

Definition main `{Numpy} `{Estimators} `{Joblib} : io bool :=
  try_except main_body
    (λ e, _ ← logger_error ("Training failed: " +:+ exn_str e); raise e).

(** ** The serving adapter, api/app.py *)

Module App.

(** The request schema, lines 69-82; the field domains are enforced by the
    framework before [predict] runs and play no role in it. *)
Record HeartDiseaseInput : Type := mkInput {
  age : Z; sex : Z; cp : Z; trestbps : Z; chol : Z; fbs : Z; restecg : Z;
  thalach : Z; exang : Z; oldpeak : Q; slope : Z; ca : Z; thal : Z
}.

(** The response schema, lines 106-111 *)
Record PredictionResponse : Type := mkResponse {
  prediction : Z;
  probability : Q;
  risk_level : string;
  message : string;
  timestamp : string
}.

(** The module globals [model] and [preprocessor]; [None] when the startup
    load failed. *)
Record Globals : Type := mkGlobals {
  model : option Model;
  preprocessor : option HeartDiseasePreprocessor
}.

Definition MODEL_PATH : string := "models/best_model.pkl".
Definition PREPROCESSOR_PATH : string := "models/preprocessor.pkl".

(** Startup load, lines 58-65: any failure leaves both globals [None]. *)
Definition startup `{Joblib} : io Globals :=
  try_except
    (b ← read_file MODEL_PATH;
     model ← lift (loads_model b);
     b' ← read_file PREPROCESSOR_PATH;
     preprocessor ← lift (loads_preprocessor b');
     mret {| model := Some model; preprocessor := Some preprocessor |})
    (λ e, _ ← logger_error ("Error loading model: " +:+ exn_str e);
          mret {| model := None; preprocessor := None |}).

(** [pd.DataFrame([input_data.model_dump()])]: one row, index [0]. *)
Definition input_frame (i : HeartDiseaseInput) : DataFrame :=
  {| columns := ["age"; "sex"; "cp"; "trestbps"; "chol"; "fbs"; "restecg";
                 "thalach"; "exang"; "oldpeak"; "slope"; "ca"; "thal"];
     rows := [(0%nat,
               [Some (inject_Z (age i)); Some (inject_Z (sex i));
                Some (inject_Z (cp i)); Some (inject_Z (trestbps i));
                Some (inject_Z (chol i)); Some (inject_Z (fbs i));
                Some (inject_Z (restecg i)); Some (inject_Z (thalach i));
                Some (inject_Z (exang i)); Some (oldpeak i);
                Some (inject_Z (slope i)); Some (inject_Z (ca i));
                Some (inject_Z (thal i))])] |}.

(** Risk banding, lines 168-174 *)
Definition risk_band (probability : Q) : string :=
  if decide (probability < 0.3) then "Low"
  else if decide (probability < 0.7) then "Medium"
  else "High".

(** [x[0]] *)
Definition first {A} (l : list A) : result A :=
  match l with
  | [] => Err IndexError
  | x :: _ => Ok x
  end.

(** [int(x)]: truncation towards zero *)
Definition int (x : Q) : Z := Z.quot (Qnum x) (Z.pos (Qden x)).

(** The statements inside [try:], lines 144-191; the Prometheus gauges and
    counters and the info log lines are not modelled. *)
Definition predict_try (g : Globals) (input_data : HeartDiseaseInput)
    (now : string) : result PredictionResponse :=
  match model g, preprocessor g with
  | Some model, Some preprocessor =>
      let input_df := input_frame input_data in
      input_processed ← transform preprocessor input_df;
      predictions ← predict model input_processed;
      prediction ← first predictions;
      probabilities ← predict_proba model input_processed;
      probability ← first probabilities;
      let risk_level := risk_band probability in
      Ok {| prediction := int prediction;
            probability := probability;
            risk_level := risk_level;
            message := "Heart disease " +:+
                       (if decide (prediction == 1) then "detected"
                        else "not detected");
            timestamp := now |}
  | _, _ => Err (HTTPException 503 "Model not available")
  end.

(** [predict], lines 139-195: [except Exception] catches every exception
    raised inside [try:], the [HTTPException] of line 150 included, and
    raises status 500 in its place. *)
Definition predict (g : Globals) (input_data : HeartDiseaseInput)
    (now : string) : result PredictionResponse :=
  match predict_try g input_data now with
  | Ok response => Ok response
  | Err e => Err (HTTPException 500 ("Prediction failed: " +:+ exn_str e))
  end.

End App.

(** ** A concrete square root

    Used to run the embedding on the sample data of the test suite. *)

(** A rational upper approximation of the square root (one Newton step
    from [1]), exact at [0] and [1]. *)
Definition approx_sqrt (v : Q) : Q :=
  if decide (v == 0) then 0 else (1 + v) / 2.

Definition toy_numpy : Numpy := {| np_sqrt := approx_sqrt |}.

(** ** joblib's pickling *)

(** [joblib.dump] pickles the object it is given: the pickle records the
    attributes of the object one after the other, each list with its
    length, each number as it is stored (so that a number, NaN included,
    is read back bit for bit) and each nested estimator with its own
    attributes; [joblib.load] rebuilds the object from such a stream and
    raises when the stream is not the pickle of an object of the expected
    shape.  [token] is an item of the stream, [token_dumps] writes the
    pickle of a preprocessor (feature lists, then the fitted pipeline if
    there is one: imputer statistics, scaler means, variances and scales),
    [token_loads] reads one back; a classifier is pickled as one opaque
    item. *)
Inductive token : Type :=
| TLen (n : nat)
| TStr (s : string)
| TNum (q : Q)
| TNaN
| TStrategy (s : strategy)
| TModel (m : Model).

Definition dump_strs (l : list string) : list token :=
  TLen (length l) :: fmap TStr l.
Definition dump_nums (l : list Q) : list token :=
  TLen (length l) :: fmap TNum l.
Definition dump_cell (c : cell) : token :=
  match c with Some q => TNum q | None => TNaN end.
Definition dump_imputer (i : SimpleImputer) : list token :=
  TStrategy (imputer_strategy i) :: TLen (length (statistics_ i))
  :: fmap dump_cell (statistics_ i).

Definition token_dumps (p : HeartDiseasePreprocessor) : list token :=
  dump_strs (numerical_features p) ++ dump_strs (categorical_features p) ++
  match pipeline p with
  | None => [TLen 0]
  | Some ct =>
      TLen 1 :: dump_imputer (numerical_imputer ct) ++
      dump_nums (mean_ (numerical_scaler ct)) ++
      dump_nums (var_ (numerical_scaler ct)) ++
      dump_nums (scale_ (numerical_scaler ct)) ++
      dump_imputer (categorical_imputer ct)
  end.

Definition parser (A : Type) : Type := list token → option (A * list token).

Definition p_len : parser nat := λ ts,
  match ts with TLen n :: ts' => Some (n, ts') | _ => None end.
Definition p_str : parser string := λ ts,
  match ts with TStr s :: ts' => Some (s, ts') | _ => None end.
Definition p_num : parser Q := λ ts,
  match ts with TNum q :: ts' => Some (q, ts') | _ => None end.
Definition p_cell : parser cell := λ ts,
  match ts with
  | TNum q :: ts' => Some (Some q, ts')
  | TNaN :: ts' => Some (None, ts')
  | _ => None
  end.
Definition p_strategy : parser strategy := λ ts,
  match ts with TStrategy s :: ts' => Some (s, ts') | _ => None end.

Fixpoint p_many {A} (p : parser A) (n : nat) : parser (list A) := λ ts,
  match n with
  | O => Some ([], ts)
  | S n' =>
      '(x, ts1) ← p ts;
      '(xs, ts2) ← p_many p n' ts1;
      Some (x :: xs, ts2)
  end.

Definition p_list {A} (p : parser A) : parser (list A) := λ ts,
  '(n, ts1) ← p_len ts; p_many p n ts1.

Definition p_imputer : parser SimpleImputer := λ ts,
  '(s, ts1) ← p_strategy ts;
  '(stats, ts2) ← p_list p_cell ts1;
  Some ({| imputer_strategy := s; statistics_ := stats |}, ts2).

Definition p_pipeline : parser (option ColumnTransformer) := λ ts,
  '(fitted, ts0) ← p_len ts;
  match fitted with
  | O => Some (None, ts0)
  | _ =>
      '(ni, ts1) ← p_imputer ts0;
      '(means, ts2) ← p_list p_num ts1;
      '(vars, ts3) ← p_list p_num ts2;
      '(scales, ts4) ← p_list p_num ts3;
      '(ci, ts5) ← p_imputer ts4;
      Some (Some {| numerical_imputer := ni;
                    numerical_scaler :=
                      {| mean_ := means; var_ := vars; scale_ := scales |};
                    categorical_imputer := ci |}, ts5)
  end.

Definition token_loads (ts : list token) : result HeartDiseasePreprocessor :=
  match
    '(num, ts1) ← p_list p_str ts;
    '(cat, ts2) ← p_list p_str ts1;
    '(pl, ts3) ← p_pipeline ts2;
    match ts3 with
    | [] => Some {| numerical_features := num;
                    categorical_features := cat;
                    pipeline := pl |}
    | _ => None
    end
  with
  | Some p => Ok p
  | None => Err (ValueError "unpickling failed")
  end.

(** joblib, with these pickles as artifacts. *)
Definition token_joblib : Joblib :=
  {| blob := list token;
     dumps_preprocessor := token_dumps;
     loads_preprocessor := token_loads;
     dumps_model := λ m, [TModel m];
     loads_model := λ ts,
       match ts with
       | [TModel m] => Ok m
       | _ => Err (ValueError "unpickling failed")
       end |}.

(** ** Concrete estimators and sample data *)

(** A rule on the first (scaled) feature, standing in for a fitted
    classifier. *)
Definition rule_model : Model :=
  {| predict := λ X,
       Ok (fmap (λ r, if decide (0 < default 0 (cell_at 0 r.2)) then 1 else 0)
             (rows X));
     predict_proba := λ X,
       Ok (fmap (λ r, if decide (0 < default 0 (cell_at 0 r.2)) then 3 / 4
                     else 1 / 4) (rows X)) |}.

Definition working_fit : DataFrame → list cell → result Model :=
  λ _ _, Ok rule_model.
Definition failing_fit : DataFrame → list cell → result Model :=
  λ _ _, Err (EstimatorError "did not converge").

(** A splitter that holds out the last [ceil (n * test_size)] positions. *)
Definition holdout_last (n : nat) (test_size : Q) (random_state : Z)
    (stratify : list cell) : result (list nat * list nat) :=
  let n_test := Z.to_nat (Qceiling (Qnat n * test_size)) in
  Ok (seq 0 (n - n_test), seq (n - n_test) n_test).

Definition toy_estimators
    (lr rf : DataFrame → list cell → result Model) : Estimators :=
  {| LogisticRegression_fit := lr;
     RandomForestClassifier_fit := rf;
     cross_val_score := λ _ _ _ k, Ok (replicate k (4 / 5));
     split_positions := holdout_last |}.

(** The sample of tests/test_preprocessing.py, extended to ten subjects;
    two cells are missing. *)
Definition sample_columns : list string :=
  ["age"; "sex"; "cp"; "trestbps"; "chol"; "fbs"; "restecg"; "thalach";
   "exang"; "oldpeak"; "slope"; "ca"; "thal"; "target"].

Definition sample_rows : list (nat * list cell) :=
  imap (λ i r, (i, r))
  [ [Some 63; Some 1; Some 3; Some 145; Some 233; Some 1; Some 0; Some 150;
     Some 0; Some 2.3; Some 0; Some 0; Some 1; Some 1];
    [Some 37; Some 1; Some 2; Some 130; Some 250; Some 0; Some 1; Some 187;
     Some 0; Some 3.5; Some 0; Some 0; Some 2; Some 1];
    [Some 41; Some 0; Some 1; Some 130; Some 204; Some 0; Some 0; Some 172;
     Some 0; Some 1.4; Some 2; Some 0; Some 2; Some 0];
    [Some 56; Some 1; Some 1; Some 120; Some 236; Some 0; Some 1; Some 178;
     Some 0; Some 0.8; Some 2; Some 0; Some 2; Some 0];
    [Some 57; Some 0; Some 0; Some 120; Some 354; Some 0; Some 1; Some 163;
     Some 1; Some 0.6; Some 2; Some 0; Some 2; Some 0];
    [Some 57; Some 1; Some 0; Some 140; None; Some 0; Some 1; Some 148;
     Some 0; Some 0.4; Some 1; Some 0; Some 1; Some 0];
    [Some 56; Some 0; Some 1; Some 140; Some 294; Some 0; Some 0; Some 153;
     Some 0; Some 1.3; Some 1; Some 0; Some 2; Some 1];
    [Some 44; Some 1; Some 1; Some 120; Some 263; Some 0; Some 1; Some 173;
     Some 0; Some 0; Some 2; None; Some 3; Some 1];
    [Some 52; Some 1; Some 2; Some 172; Some 199; Some 1; Some 1; Some 162;
     Some 0; Some 0.5; Some 2; Some 0; Some 3; Some 1];
    [Some 57; Some 1; Some 2; Some 150; Some 168; Some 0; Some 1; Some 174;
     Some 0; Some 1.6; Some 2; Some 0; Some 2; Some 0] ].

Definition sample_frame : DataFrame :=
  {| columns := sample_columns; rows := sample_rows |}.

(** The same table with the age of the last subject changed. *)
Definition sample_frame' : DataFrame :=
  {| columns := sample_columns;
     rows := alter (λ r, (r.1, <[0%nat := Some 77]> r.2)) 9%nat sample_rows |}.

Definition world_with `{Joblib} (df : DataFrame) : World :=
  {| csv_files := {[ raw_data_path := df ]};
     files := ∅;
     mlflow_runs := [];
     error_log := [] |}.

(** A classifier that ignores its input. *)
Definition constant_model (label probability : Q) : Model :=
  {| predict := λ X, Ok (fmap (λ _, label) (rows X));
     predict_proba := λ X, Ok (fmap (λ _, probability) (rows X)) |}.

(** Two recorded results, [A] with [roc_auc] 0.81 and [B] with 0.89. *)
Definition trainer_A_B : ModelTrainer :=
  {| models := [("A", rule_model); ("B", constant_model 1 0.9)];
     results := [("A", {[ "roc_auc" := 0.81 ]});
                 ("B", {[ "roc_auc" := 0.89 ]})] |}.

(** Two recorded results of which only the first carries [roc_auc]. *)
Definition trainer_mixed : ModelTrainer :=
  {| models := [("A", rule_model); ("B", constant_model 1 0.9)];
     results := [("A", {[ "roc_auc" := 0.81 ]});
                 ("B", {[ "accuracy" := 0.9 ]})] |}.

(** The feature table of the sample. *)
Definition sample_features : DataFrame :=
  match split_features_target (clean_data sample_frame) "target" with
  | Ok (X, _) => X
  | Err _ => sample_frame
  end.

(** A request-shaped batch of two rows with missing cells: age and ca in
    the first row, chol and thal in the second. *)
Definition batch_with_missing : DataFrame :=
  {| columns := ["age"; "sex"; "cp"; "trestbps"; "chol"; "fbs"; "restecg";
                 "thalach"; "exang"; "oldpeak"; "slope"; "ca"; "thal"];
     rows := [(0%nat, [None; Some 1; Some 3; Some 145; Some 233; Some 1;
                       Some 0; Some 150; Some 0; Some 2.3; Some 0; None;
                       Some 1]);
              (1%nat, [Some 50; Some 0; Some 2; Some 120; None; Some 0;
                       Some 1; Some 160; Some 0; Some 1; Some 1; Some 0;
                       None])] |}.

(** A training table in which the column ca was never observed. *)
Definition sample_without_ca : DataFrame :=
  {| columns := columns sample_features;
     rows := fmap (λ r, (r.1, <[11%nat := None]> r.2)) (rows sample_features) |}.

(** ** The other endpoints and scripts *)

(** The report of [health_check], api/app.py lines 125-136.  The status
    tests the truth value of both globals; a loaded estimator or
    preprocessor object is true, [None] is false. *)
Record HealthReport : Type := mkHealthReport {
  health_status : string;
  model_status : string;
  preprocessor_status : string;
  health_timestamp : string
}.

Definition health_check (g : App.Globals) (now : string) : HealthReport :=
  let model_status :=
    if App.model g is Some _ then "loaded" else "not loaded" in
  let preprocessor_status :=
    if App.preprocessor g is Some _ then "loaded" else "not loaded" in
  {| health_status :=
       match App.model g, App.preprocessor g with
       | Some _, Some _ => "healthy"
       | _, _ => "unhealthy"
       end;
     model_status := model_status;
     preprocessor_status := preprocessor_status;
     health_timestamp := now |}.

(** The script at the end of train.py, lines 186-218: the same steps as
    [main] without any handler, and the preprocessor is saved last. *)
Definition train_script `{Numpy} `{Estimators} `{Joblib} : io () :=
  df ← load_data raw_data_path;
  let df_clean := clean_data df in
  '(X, y) ← lift (split_features_target df_clean "target");
  let preprocessor := new_preprocessor in
  '(preprocessor, X_transformed) ← lift (fit_transform preprocessor X);
  '(X_train, X_test, y_train, y_test) ←
     lift (train_test_split X_transformed y test_size random_state);
  let trainer := new_trainer in
  '(trainer, _) ← train_logistic_regression trainer X_train y_train X_test y_test;
  '(trainer, _) ← train_random_forest trainer X_train y_train X_test y_test;
  '(best_model, best_model_name) ← lift (select_best_model trainer "roc_auc");
  _ ← save_model best_model model_path;
  save preprocessor preprocessor_path.

(** ** Further sample data *)

(** The example request of the schema, api/app.py lines 86-100. *)
Definition example_request : App.HeartDiseaseInput :=
  {| App.age := 63; App.sex := 1; App.cp := 3; App.trestbps := 145;
     App.chol := 233; App.fbs := 1; App.restecg := 0; App.thalach := 150;
     App.exang := 0; App.oldpeak := 2.3; App.slope := 0; App.ca := 0;
     App.thal := 1 |}.


Definition age_sex_preprocessor : HeartDiseasePreprocessor :=
  {| numerical_features := ["age"];
     categorical_features := ["sex"];
     pipeline := None |}.

(** A scaled feature table of four subjects and their labels. *)
Definition four_scaled : DataFrame :=
  {| columns := ["age"];
     rows := [(0%nat, [Some 1]); (1%nat, [Some (-1)]);
              (2%nat, [Some (1 / 2)]); (3%nat, [Some (-2)])] |}.
Definition four_labels : list cell := [Some 1; Some 0; Some 0; Some 0].

(** ** Notions used in the statements *)

(** The world once a run named [run_name] was started. *)
Definition started `{Joblib} (run_name : string) (w : World) : World :=
  {| csv_files := csv_files w;
     files := files w;
     mlflow_runs := mlflow_runs w ++ [run_name];
     error_log := error_log w |}.

(** The world once the preprocessor artifact was written. *)
Definition with_preprocessor `{Joblib} (p : HeartDiseasePreprocessor)
    (w : World) : World :=
  {| csv_files := csv_files w;
     files := <[preprocessor_path := dumps_preprocessor p]> (files w);
     mlflow_runs := mlflow_runs w;
     error_log := error_log w |}.

(** The two dictionaries of a trainer have the same keys, each once. *)
Definition trainer_wf (t : ModelTrainer) : Prop :=
  (models t).*1 = (results t).*1 ∧ NoDup (results t).*1.

(** A label column with a single class. *)
Definition single_class (y_true : list cell) : Prop :=
  ∃ c, y_true ≠ [] ∧ Forall (λ y : cell, ∃ v, y = Some v ∧ v == c) y_true.

(** Labels on which the binary scores are defined: integers, at most two
    distinct ones over both arrays, [1] among them if there are two. *)
Definition binary_targets (ys y_pred : list Q) : Prop :=
  Forall is_integral ys ∧ Forall is_integral y_pred ∧
  (length (unique_labels (ys ++ y_pred)) ≤ 2)%nat ∧
  (1 ∈ unique_labels (ys ++ y_pred) ∨
   (length (unique_labels (ys ++ y_pred)) < 2)%nat).

(** Two tables agree on a column name: both have it, with the same cells. *)
Definition same_column (name : string) (X X' : DataFrame) : Prop :=
  ∃ pos pos',
    col_index name (columns X) = Some pos ∧
    col_index name (columns X') = Some pos' ∧
    (λ r : nat * list cell, cell_at pos r.2) <$> rows X
    = (λ r : nat * list cell, cell_at pos' r.2) <$> rows X'.

(** A value between 0 and 1. *)
Definition unit_interval (x : Q) : Prop := 0 <= x ∧ x <= 1.

(** * Properties *)

(** ** The effect monad *)

Lemma run_bind `{Joblib} {A B} (m : io A) (f : A → io B) (w : World) :
  run (m ≫= f) w =
  match run m w with
  | (Ok a, w') => run (f a) w'
  | (Err e, w') => (Err e, w')
  end.
Proof. reflexivity. Qed.

Lemma run_lift `{Joblib} {A} (r : result A) (w : World) :
  run (lift r) w = (r, w).
Proof. reflexivity. Qed.

Lemma run_try_except `{Joblib} {A} (body : io A) (handler : exn → io A) w :
  run (try_except body handler) w =
  match run body w with
  | (Ok a, w') => (Ok a, w')
  | (Err e, w') => run (handler e) w'
  end.
Proof. reflexivity. Qed.

(** ** Cleaning *)

Lemma half_threshold (n c : nat) :
  Qnat n * 0.5 <= Qnat c ↔ (n ≤ 2 * c)%nat.
Proof.
  unfold Qnat, Qle, Qmult, inject_Z. simpl. lia.
Qed.

Lemma clean_data_rows (df : DataFrame) :
  rows (clean_data df) =
  filter (λ r, (length (columns df) ≤ 2 * count_notna r.2)%nat) (rows df).
Proof.
  unfold clean_data, dropna_thresh. simpl.
  apply list_filter_iff. intros r. apply half_threshold.
Qed.

(** ** Risk banding *)

Lemma risk_band_cases (p : Q) :
  (p < 0.3 ∧ App.risk_band p = "Low") ∨
  (0.3 <= p ∧ p < 0.7 ∧ App.risk_band p = "Medium") ∨
  (0.7 <= p ∧ App.risk_band p = "High").
Proof.
  unfold App.risk_band.
  destruct (decide (p < 0.3)) as [H1|H1]; [left; done|].
  apply Qnot_lt_le in H1.
  destruct (decide (p < 0.7)) as [H2|H2]; [right; left; done|].
  apply Qnot_lt_le in H2. right; right; done.
Qed.

(** C9.  The risk band is a function of the probability alone with the
    boundaries as stated: below 0.3 it is "Low", from 0.3 (inclusive) to 0.7
    (exclusive) it is "Medium", from 0.7 (inclusive) on it is "High"; so 0.29
    is "Low", 0.30 and 0.69 are "Medium", 0.70 is "High".  Equal
    probabilities get the same band, and every response of [predict]
    carries the band of its own probability. *)
Theorem risk_band_boundaries (p : Q) :
  (App.risk_band p = "Low" ↔ p < 0.3) ∧
  (App.risk_band p = "Medium" ↔ 0.3 <= p ∧ p < 0.7) ∧
  (App.risk_band p = "High" ↔ 0.7 <= p) ∧
  (App.risk_band 0.29 = "Low" ∧ App.risk_band 0.30 = "Medium" ∧
   App.risk_band 0.69 = "Medium" ∧ App.risk_band 0.70 = "High") ∧
  (∀ q, p == q → App.risk_band p = App.risk_band q) ∧
  (∀ g i now r, App.predict g i now = Ok r →
     App.risk_level r = App.risk_band (App.probability r)).
Proof.
  repeat split; try reflexivity.
  - intros E. destruct (risk_band_cases p) as [[? E']|[(?&?&E')|[? E']]];
      rewrite E' in E; done.
  - intros Hp. destruct (risk_band_cases p) as [[? E']|[(?&?&E')|[? E']]];
      try done; lra.
  - destruct (risk_band_cases p) as [[? E']|[(?&?&E')|[? E']]];
      rewrite E' in H; done.
  - destruct (risk_band_cases p) as [[? E']|[(?&?&E')|[? E']]];
      rewrite E' in H; done.
  - intros [H1 H2]. destruct (risk_band_cases p) as [[? E']|[(?&?&E')|[? E']]];
      try done; lra.
  - intros E. destruct (risk_band_cases p) as [[? E']|[(?&?&E')|[? E']]];
      rewrite E' in E; done.
  - intros Hp. destruct (risk_band_cases p) as [[? E']|[(?&?&E')|[? E']]];
      try done; lra.
  - intros q Hq. unfold App.risk_band.
    repeat case_decide; try reflexivity; lra.
  - intros g i now r. unfold App.predict, App.predict_try.
    destruct (App.model g), (App.preprocessor g); try discriminate.
    destruct (transform _ _); simpl; try discriminate.
    destruct (predict _ _); simpl; try discriminate.
    destruct (App.first _); simpl; try discriminate.
    destruct (predict_proba _ _); simpl; try discriminate.
    destruct (App.first _); simpl; try discriminate.
    intros [= <-]. reflexivity.
Qed.

(** ** Serving *)

(** C8.  With the model or the preprocessor not loaded, [predict] raises
    the 503 exception inside its own [try] block, where [except Exception]
    catches it: the caller receives status 500 whose detail quotes the 503,
    not the "service unavailable" status that line 150 and the test suite
    intend. *)
Theorem predict_unavailable_surfaces_as_500
    (m : option Model) (p : option HeartDiseasePreprocessor)
    (input_data : App.HeartDiseaseInput) (now : string) :
  App.predict {| App.model := None; App.preprocessor := p |} input_data now
    = Err (HTTPException 500 "Prediction failed: 503: Model not available") ∧
  App.predict {| App.model := m; App.preprocessor := None |} input_data now
    = Err (HTTPException 500 "Prediction failed: 503: Model not available").
Proof.
  split.
  - reflexivity.
  - unfold App.predict, App.predict_try. simpl. destruct m; reflexivity.
Qed.

(** Without the model artifact the startup load fails, both globals are
    left [None], and every request is then answered as above. *)
Lemma startup_without_model `{Joblib} (w : World)
    (input_data : App.HeartDiseaseInput) (now : string) :
  files w !! App.MODEL_PATH = None →
  ∃ w',
    run App.startup w
      = (Ok {| App.model := None; App.preprocessor := None |}, w') ∧
    App.predict {| App.model := None; App.preprocessor := None |} input_data now
      = Err (HTTPException 500 "Prediction failed: 503: Model not available").
Proof.
  intros Hmissing. eexists. split; [|reflexivity].
  unfold App.startup. rewrite run_try_except, run_bind.
  unfold read_file at 1. cbn [run]. rewrite Hmissing. reflexivity.
Qed.

(** ** Persistence *)

Lemma run_save `{Joblib} (p : HeartDiseasePreprocessor) (path : string) w :
  run (save p path) w =
  (Ok (), {| csv_files := csv_files w;
             files := <[path := dumps_preprocessor p]> (files w);
             mlflow_runs := mlflow_runs w;
             error_log := error_log w |}).
Proof. reflexivity. Qed.


(** ** Metric evaluation *)

Lemma mapR_Err_ValueError {A B} (f : A → result B) (l : list A) (e : exn) :
  (∀ x e', f x = Err e' → ∃ msg, e' = ValueError msg) →
  mapR f l = Err e → ∃ msg, e = ValueError msg.
Proof.
  intros Hf. induction l as [|x l IH]; simpl; [discriminate|].
  destruct (f x) as [y|e'] eqn:Hx; simpl.
  - destruct (mapR f l) as [ys|e'']; simpl; [discriminate|].
    intros [= <-]. by apply IH.
  - intros [= <-]. by eapply Hf.
Qed.

Lemma check_no_nan_Ok (y : list cell) (ys : list Q) :
  check_no_nan y = Ok ys → y = fmap Some ys.
Proof.
  unfold check_no_nan.
  revert ys. induction y as [|c y IH]; intros ys; simpl.
  - intros [= <-]. reflexivity.
  - destruct c as [v|]; simpl; [|discriminate].
    destruct (mapR _ y) as [ys'|e]; simpl; [|discriminate].
    intros [= <-]. simpl. f_equal. apply IH. reflexivity.
Qed.

Lemma check_no_nan_Some (ys : list Q) : check_no_nan (Some <$> ys) = Ok ys.
Proof.
  unfold check_no_nan. induction ys as [|y ys IH]; [done|].
  rewrite fmap_cons. simpl. rewrite IH. reflexivity.
Qed.

Lemma check_no_nan_Err (y : list cell) (e : exn) :
  check_no_nan y = Err e → ∃ msg, e = ValueError msg.
Proof.
  apply mapR_Err_ValueError. intros [v|] e'; [discriminate|].
  intros [= <-]. by eexists.
Qed.

Lemma single_class_labels (y_true : list cell) :
  single_class y_true →
  ∃ c ys, y_true = Some <$> ys ∧ ys ≠ [] ∧ Forall (λ v, v == c) ys.
Proof.
  intros (c & Hne & Hall). exists c.
  induction Hall as [|y l (v & -> & Hv) Hall IH].
  - done.
  - destruct l as [|y' l].
    + exists [v]. repeat split; [done|]. by constructor.
    + destruct IH as (ys & Hys & _ & Hc); [done|].
      exists (v :: ys). rewrite Hys. repeat split; [done|]. by constructor.
Qed.

(** *** Labels *)

Lemma is_integral_proper (x y : Q) : x == y → is_integral x → is_integral y.
Proof.
  unfold is_integral. intros Hxy Hx.
  by rewrite <- (Qfloor_comp _ _ Hxy), <- Hxy.
Qed.

Lemma unique_labels_NoDup (ys : list Q) : NoDup (unique_labels ys).
Proof. apply NoDup_remove_dups. Qed.

Lemma unique_labels_elem_of (q : Q) (ys : list Q) :
  q ∈ unique_labels ys ↔ ∃ y, y ∈ ys ∧ y == q ∧ Qred q = q.
Proof.
  unfold unique_labels. rewrite elem_of_remove_dups, list_elem_of_fmap. split.
  - intros (y & -> & Hy). exists y. split; [done|].
    split; [symmetry; apply Qred_correct|].
    apply Qred_complete, Qred_correct.
  - intros (y & Hy & Hyq & Hq). exists y. split; [|done].
    rewrite <- Hq. symmetry. by apply Qred_complete.
Qed.

Lemma one_elem_of_unique_labels (ys : list Q) :
  1 ∈ unique_labels ys ↔ Exists (λ y, y == 1) ys.
Proof.
  rewrite unique_labels_elem_of, Exists_exists. split.
  - intros (y & Hy & H1 & _). eauto.
  - intros (y & Hy & H1). eauto.
Qed.

Lemma unique_labels_subset (ys zs : list Q) :
  (∀ y, y ∈ ys → ∃ z, z ∈ zs ∧ z == y) →
  (length (unique_labels ys) ≤ length (unique_labels zs))%nat.
Proof.
  intros Hsub. apply submseteq_length, NoDup_submseteq.
  - apply unique_labels_NoDup.
  - intros q (y & Hy & Hyq & Hq)%unique_labels_elem_of.
    destruct (Hsub y Hy) as (z & Hz & Hzy).
    apply unique_labels_elem_of. exists z. repeat split; [done| |done].
    by rewrite Hzy.
Qed.

Lemma unique_labels_app_l (ys ps : list Q) :
  (length (unique_labels ys) ≤ length (unique_labels (ys ++ ps)))%nat.
Proof.
  apply unique_labels_subset. intros y Hy. exists y.
  split; [apply elem_of_app; by left|reflexivity].
Qed.

Lemma unique_labels_app_r (ys ps : list Q) :
  (length (unique_labels ps) ≤ length (unique_labels (ys ++ ps)))%nat.
Proof.
  apply unique_labels_subset. intros y Hy. exists y.
  split; [apply elem_of_app; by right|reflexivity].
Qed.

(** Predictions among the labels of [y_true] add no label, and conversely
    when the number of labels does not grow. *)
Lemma unique_labels_app_same (ys ps : list Q) :
  length (unique_labels (ys ++ ps)) = length (unique_labels ys) ↔
  Forall (λ p, Exists (λ y, y == p) ys) ps.
Proof.
  split.
  - intros Hlen. apply Forall_forall. intros p Hp.
    assert (unique_labels ys ⊆+ unique_labels (ys ++ ps)) as Hsub.
    { apply NoDup_submseteq; [apply unique_labels_NoDup|].
      intros q (y & Hy & Hyq & Hq)%unique_labels_elem_of.
      apply unique_labels_elem_of. exists y.
      repeat split; [apply elem_of_app; by left|done..]. }
    apply submseteq_length_Permutation in Hsub; [|lia].
    assert (Qred p ∈ unique_labels ys) as Hin.
    { rewrite Hsub. apply unique_labels_elem_of. exists p.
      repeat split; [apply elem_of_app; by right| |].
      - symmetry. apply Qred_correct.
      - apply Qred_complete, Qred_correct. }
    apply unique_labels_elem_of in Hin as (y & Hy & Hyq & _).
    apply Exists_exists. exists y. split; [done|].
    rewrite Hyq. apply Qred_correct.
  - intros Hall. apply Nat.le_antisymm; [|apply unique_labels_app_l].
    apply unique_labels_subset. intros y [Hy|Hy]%elem_of_app.
    + exists y. split; [done|reflexivity].
    + rewrite Forall_forall in Hall.
      destruct (proj1 (Exists_exists _ _) (Hall y Hy)) as (z & Hz & Hzy). eauto.
Qed.

Lemma remove_dups_replicate `{EqDecision A} (n : nat) (x : A) :
  remove_dups (replicate (S n) x) = [x].
Proof.
  induction n as [|n IH]; [reflexivity|].
  change (replicate (S (S n)) x) with (x :: replicate (S n) x).
  cbn [remove_dups]. rewrite IH.
  destruct (decide_rel elem_of x (replicate (S n) x)) as [|Hx]; [done|].
  destruct Hx. simpl. by left.
Qed.

Lemma unique_labels_constant (c : Q) (ys : list Q) :
  ys ≠ [] → Forall (λ v, v == c) ys → unique_labels ys = [Qred c].
Proof.
  intros Hne Hall. unfold unique_labels.
  assert (Qred <$> ys = replicate (length ys) (Qred c)) as ->.
  { clear Hne. induction Hall as [|y l Hy _ IH]; [done|].
    rewrite fmap_cons, IH, (Qred_complete _ _ Hy). reflexivity. }
  destruct ys as [|y ys]; [done|]. apply remove_dups_replicate.
Qed.

(** *** The target checks *)

Lemma type_of_target_Continuous (ys : list Q) :
  type_of_target ys = Continuous ↔ ¬ Forall is_integral ys.
Proof.
  unfold type_of_target. case_decide; [|done].
  case_decide; split; done.
Qed.

Lemma type_of_target_Binary (ys : list Q) :
  type_of_target ys = Binary ↔
  Forall is_integral ys ∧ (length (unique_labels ys) ≤ 2)%nat.
Proof.
  unfold type_of_target. case_decide; [|split; [done|tauto]].
  case_decide; split; try done; tauto.
Qed.

Lemma check_targets_Ok (y_true : list cell) (y_pred : list Q)
    (t : target_type) (pairs : list (Q * Q)) :
  check_targets y_true y_pred = Ok (t, pairs) ↔
  length y_pred = length y_true ∧
  ∃ ys, y_true = Some <$> ys ∧ pairs = zip ys y_pred ∧
    Forall is_integral ys ∧ Forall is_integral y_pred ∧
    t = (if decide (length (unique_labels (ys ++ y_pred)) ≤ 2)%nat
         then Binary else Multiclass).
Proof.
  unfold check_targets, check_consistent_length. split.
  - case_decide as Hlen; simpl; [|discriminate].
    destruct (check_no_nan y_true) as [ys|] eqn:E; simpl; [|discriminate].
    apply check_no_nan_Ok in E.
    destruct (type_of_target ys) eqn:Et, (type_of_target y_pred) eqn:Ep;
      try discriminate; intros [= <- <-]; (split; [done|]); exists ys;
      (split; [done|]); (split; [done|]).
    + apply type_of_target_Binary in Et as [? _].
      apply type_of_target_Binary in Ep as [? _]. done.
    + apply type_of_target_Binary in Et as [? _].
      assert (Forall is_integral y_pred) as Hp.
      { destruct (decide (Forall is_integral y_pred)); [done|].
        apply type_of_target_Continuous in n. congruence. }
      split; [done|]. split; [done|].
      rewrite decide_False; [done|].
      pose proof (unique_labels_app_r ys y_pred).
      unfold type_of_target in Ep. rewrite decide_True in Ep by done.
      case_decide; [discriminate|]. lia.
    + apply type_of_target_Binary in Ep as [? _].
      assert (Forall is_integral ys) as Hy.
      { destruct (decide (Forall is_integral ys)); [done|].
        apply type_of_target_Continuous in n. congruence. }
      split; [done|]. split; [done|].
      rewrite decide_False; [done|].
      pose proof (unique_labels_app_l ys y_pred).
      unfold type_of_target in Et. rewrite decide_True in Et by done.
      case_decide; [discriminate|]. lia.
    + assert (Forall is_integral ys) as Hy.
      { destruct (decide (Forall is_integral ys)); [done|].
        apply type_of_target_Continuous in n. congruence. }
      assert (Forall is_integral y_pred) as Hp.
      { destruct (decide (Forall is_integral y_pred)); [done|].
        apply type_of_target_Continuous in n. congruence. }
      split; [done|]. split; [done|].
      rewrite decide_False; [done|].
      pose proof (unique_labels_app_l ys y_pred).
      unfold type_of_target in Et. rewrite decide_True in Et by done.
      case_decide; [discriminate|]. lia.
  - intros (Hlen & ys & -> & -> & Hy & Hp & ->).
    rewrite length_fmap in Hlen. rewrite length_fmap, decide_True by done.
    simpl. rewrite check_no_nan_Some. simpl.
    pose proof (unique_labels_app_l ys y_pred).
    pose proof (unique_labels_app_r ys y_pred).
    destruct (decide (length (unique_labels (ys ++ y_pred)) ≤ 2)%nat).
    + rewrite (proj2 (type_of_target_Binary ys)) by (split; [done|lia]).
      rewrite (proj2 (type_of_target_Binary y_pred)) by (split; [done|lia]).
      reflexivity.
    + destruct (type_of_target ys) eqn:Et;
        [by apply type_of_target_Continuous in Et|..];
        (destruct (type_of_target y_pred) eqn:Ep;
           [by apply type_of_target_Continuous in Ep|..]);
        reflexivity.
Qed.

Lemma check_targets_Err (y_true : list cell) (y_pred : list Q) (e : exn) :
  check_targets y_true y_pred = Err e → ∃ msg, e = ValueError msg.
Proof.
  unfold check_targets, check_consistent_length.
  case_decide; simpl; [|intros [= <-]; by eexists].
  destruct (check_no_nan y_true) as [ys|e'] eqn:E; simpl;
    [|intros [= <-]; by eapply check_no_nan_Err].
  destruct (type_of_target ys), (type_of_target y_pred);
    try discriminate; intros [= <-]; by eexists.
Qed.

Lemma check_set_wise_labels_Ok (y_true : list cell) (y_pred : list Q)
    (pairs : list (Q * Q)) :
  check_set_wise_labels y_true y_pred = Ok pairs ↔
  length y_pred = length y_true ∧
  ∃ ys, y_true = Some <$> ys ∧ pairs = zip ys y_pred ∧ binary_targets ys y_pred.
Proof.
  unfold check_set_wise_labels, binary_targets. split.
  - destruct (check_targets y_true y_pred) as [[t pairs']|] eqn:E; simpl;
      [|discriminate].
    apply check_targets_Ok in E as (Hlen & ys & -> & -> & Hy & Hp & ->).
    rewrite length_fmap in Hlen.
    rewrite fst_zip, snd_zip by lia.
    case_decide as Hbin; [|discriminate].
    case_decide as Hpos; [discriminate|].
    intros [= <-]. split; [by rewrite length_fmap|]. exists ys.
    repeat split; try done.
    destruct (decide (1 ∈ unique_labels (ys ++ y_pred))); [by left|].
    right. apply Nat.lt_nge. intros Hge. apply Hpos. done.
  - intros (Hlen & ys & -> & -> & Hy & Hp & Hbin & Hpos).
    rewrite length_fmap in Hlen.
    rewrite (proj2 (check_targets_Ok (Some <$> ys) y_pred Binary (zip ys y_pred))).
    + simpl. rewrite fst_zip, snd_zip by lia.
      rewrite decide_False; [done|]. intros [Hno Hge].
      destruct Hpos as [H1|Hlt]; [done|lia].
    + split; [by rewrite length_fmap|]. exists ys.
      repeat split; try done. by rewrite decide_True.
Qed.

Lemma check_set_wise_labels_Err (y_true : list cell) (y_pred : list Q) (e : exn) :
  check_set_wise_labels y_true y_pred = Err e → ∃ msg, e = ValueError msg.
Proof.
  unfold check_set_wise_labels.
  destruct (check_targets y_true y_pred) as [[t pairs]|e'] eqn:E; simpl;
    [|intros [= <-]; by eapply check_targets_Err].
  destruct t; try (intros [= <-]; by eexists).
  case_decide; [intros [= <-]; by eexists|discriminate].
Qed.

(** The three binary scores are defined on the same inputs. *)
Lemma binary_scores_Ok (y_true : list cell) (y_pred : list Q) :
  (is_Ok (precision_score y_true y_pred) ↔ is_Ok (check_set_wise_labels y_true y_pred)) ∧
  (is_Ok (recall_score y_true y_pred) ↔ is_Ok (check_set_wise_labels y_true y_pred)) ∧
  (is_Ok (f1_score y_true y_pred) ↔ is_Ok (check_set_wise_labels y_true y_pred)).
Proof.
  unfold precision_score, recall_score, f1_score.
  destruct (check_set_wise_labels y_true y_pred) as [pairs|e]; simpl.
  - repeat split; intros _; by eexists.
  - repeat split; intros [? [=]].
Qed.

Lemma accuracy_score_Ok (y_true : list cell) (y_pred : list Q) (a : cell) :
  accuracy_score y_true y_pred = Ok a ↔
  length y_pred = length y_true ∧
  ∃ ys, y_true = Some <$> ys ∧
    Forall is_integral ys ∧ Forall is_integral y_pred ∧
    a = match zip ys y_pred with
        | [] => None
        | pairs => Some (Qnat (length (filter (λ p, p.1 == p.2) pairs))
                         / Qnat (length pairs))
        end.
Proof.
  unfold accuracy_score. split.
  - destruct (check_targets y_true y_pred) as [[t pairs]|] eqn:E; simpl;
      [|discriminate].
    apply check_targets_Ok in E as (Hlen & ys & -> & -> & Hy & Hp & _).
    intros [= <-]. split; [done|]. exists ys. repeat split; try done.
    by destruct (zip ys y_pred).
  - intros (Hlen & ys & -> & Hy & Hp & ->).
    erewrite (proj2 (check_targets_Ok (Some <$> ys) y_pred _ (zip ys y_pred))).
    + simpl. by destruct (zip ys y_pred).
    + split; [done|]. exists ys. repeat split; done.
Qed.

Lemma accuracy_score_Err (y_true : list cell) (y_pred : list Q) (e : exn) :
  accuracy_score y_true y_pred = Err e → ∃ msg, e = ValueError msg.
Proof.
  unfold accuracy_score.
  destruct (check_targets y_true y_pred) as [[t pairs]|e'] eqn:E; simpl;
    [discriminate|intros [= <-]; by eapply check_targets_Err].
Qed.

Lemma roc_auc_score_Ok (y_true : list cell) (y_score : list Q) (a : Q) :
  roc_auc_score y_true y_score = Ok a ↔
  ∃ ys, y_true = Some <$> ys ∧ Forall is_integral ys ∧
    length (unique_labels ys) = 2%nat ∧ length y_score = length y_true ∧
    a = auc_of (zip ys y_score).
Proof.
  unfold roc_auc_score, check_consistent_length. split.
  - destruct (check_no_nan y_true) as [ys|] eqn:E; simpl; [|discriminate].
    apply check_no_nan_Ok in E.
    destruct (type_of_target ys) eqn:Et; try discriminate.
    apply type_of_target_Binary in Et as [Hy _].
    case_decide as H2; [|discriminate].
    case_decide as Hlen; simpl; [|discriminate].
    intros [= <-]. exists ys. subst. rewrite length_fmap. done.
  - intros (ys & -> & Hy & H2 & Hlen & ->). rewrite length_fmap in Hlen.
    rewrite check_no_nan_Some. simpl.
    rewrite (proj2 (type_of_target_Binary ys)) by (split; [done|lia]).
    rewrite !decide_True by done. reflexivity.
Qed.

Lemma roc_auc_score_Err (y_true : list cell) (y_score : list Q) (e : exn) :
  roc_auc_score y_true y_score = Err e → ∃ msg, e = ValueError msg.
Proof.
  unfold roc_auc_score, check_consistent_length.
  destruct (check_no_nan y_true) as [ys|e'] eqn:E; simpl;
    [|intros [= <-]; by eapply check_no_nan_Err].
  destruct (type_of_target ys); try (intros [= <-]; by eexists).
  case_decide; [|intros [= <-]; by eexists].
  case_decide; simpl; [discriminate|intros [= <-]; by eexists].
Qed.

Lemma calculate_metrics_Err (y_true : list cell) (y_pred y_pred_proba : list Q)
    (e : exn) :
  _calculate_metrics y_true y_pred y_pred_proba = Err e →
  ∃ msg, e = ValueError msg.
Proof.
  unfold _calculate_metrics, precision_score, recall_score, f1_score.
  destruct (accuracy_score y_true y_pred) as [a|e1] eqn:E1; simpl;
    [|intros [= <-]; by eapply accuracy_score_Err].
  destruct (check_set_wise_labels y_true y_pred) as [pairs|e2] eqn:E2; simpl;
    [|intros [= <-]; by eapply check_set_wise_labels_Err].
  destruct (roc_auc_score y_true y_pred_proba) as [r|e3] eqn:E3; simpl;
    [discriminate|intros [= <-]; by eapply roc_auc_score_Err].
Qed.

(** A dictionary that [_calculate_metrics] returns holds the accuracy as a
    number: the arrays then have samples. *)
Lemma calculate_metrics_accuracy (y_true : list cell)
    (y_pred y_pred_proba : list Q) (metrics : gmap string Q) :
  _calculate_metrics y_true y_pred y_pred_proba = Ok metrics →
  ∃ a, accuracy_score y_true y_pred = Ok (Some a) ∧
       metrics !! "accuracy" = Some a.
Proof.
  unfold _calculate_metrics, precision_score, recall_score, f1_score.
  destruct (accuracy_score y_true y_pred) as [a|] eqn:Ea; simpl; [|discriminate].
  destruct (check_set_wise_labels y_true y_pred) as [pairs|]; simpl;
    [|discriminate].
  destruct (roc_auc_score y_true y_pred_proba) as [auc|] eqn:Er; simpl;
    [|discriminate].
  intros [= <-].
  apply accuracy_score_Ok in Ea as (Hlen & ys & -> & _ & _ & ->).
  apply roc_auc_score_Ok in Er as (ys' & Heq & _ & H2 & _).
  apply (inj (fmap Some)) in Heq as <-.
  destruct ys as [|y ys]; [discriminate H2|].
  destruct y_pred as [|q y_pred]; [discriminate Hlen|].
  eexists. split; [reflexivity|]. by rewrite lookup_insert_eq.
Qed.

(** On a single class [roc_auc_score] raises; the message is the one
    about the single class when the label is an integer. *)
Lemma roc_auc_score_single_class (y_true : list cell) (y_score : list Q) :
  single_class y_true →
  (∃ msg, roc_auc_score y_true y_score = Err (ValueError msg)) ∧
  ((∀ v, Some v ∈ y_true → is_integral v) →
   roc_auc_score y_true y_score =
   Err (ValueError "Only one class present in y_true. ROC AUC score is not defined in that case.")).
Proof.
  intros (c & ys & -> & Hne & Hall)%single_class_labels.
  pose proof (unique_labels_constant c ys Hne Hall) as Hu.
  assert (∀ a, roc_auc_score (Some <$> ys) y_score ≠ Ok a) as Hno.
  { intros a (ys' & Heq & _ & H2 & _)%roc_auc_score_Ok.
    apply (inj (fmap Some)) in Heq as <-. by rewrite Hu in H2. }
  split.
  - destruct (roc_auc_score (Some <$> ys) y_score) as [a|e] eqn:E;
      [by destruct (Hno a)|].
    destruct (roc_auc_score_Err _ _ _ E) as [msg ->]. by eexists.
  - intros Hint. unfold roc_auc_score. rewrite check_no_nan_Some. simpl.
    rewrite (proj2 (type_of_target_Binary ys)).
    + rewrite Hu. reflexivity.
    + rewrite Hu. split; [|simpl; lia]. apply Forall_forall. intros v Hv.
      apply Hint. by apply list_elem_of_fmap_2.
Qed.

(** C4, as the code has it.  When [y_true] holds a single class,
    [roc_auc_score] raises [ValueError], and so does [_calculate_metrics],
    whatever the predictions: the raise inside the dict display aborts the
    whole evaluation and no metric is returned.  This is so also when the
    four other metrics are computable on the same input, which is exactly
    when the predictions have the length of [y_true] and the labels are
    integers, at most two distinct ones over both arrays, with [1] among
    them if there are two; the exception is then the one of
    [roc_auc_score] about the single class. *)
Theorem single_class_aborts_metric_evaluation
    (y_true : list cell) (y_pred y_pred_proba : list Q) :
  single_class y_true →
  let one_class :=
    ValueError "Only one class present in y_true. ROC AUC score is not defined in that case." in
  let others_computable :=
    (∃ a, accuracy_score y_true y_pred = Ok (Some a)) ∧
    is_Ok (precision_score y_true y_pred) ∧
    is_Ok (recall_score y_true y_pred) ∧
    is_Ok (f1_score y_true y_pred) in
  (∃ msg, roc_auc_score y_true y_pred_proba = Err (ValueError msg)) ∧
  (∃ msg, _calculate_metrics y_true y_pred y_pred_proba = Err (ValueError msg)) ∧
  (others_computable ↔
   length y_pred = length y_true ∧
   ∃ ys, y_true = Some <$> ys ∧ binary_targets ys y_pred) ∧
  (others_computable →
   roc_auc_score y_true y_pred_proba = Err one_class ∧
   _calculate_metrics y_true y_pred y_pred_proba = Err one_class).
Proof.
  intros Hs one_class others_computable. subst others_computable.
  destruct (roc_auc_score_single_class y_true y_pred_proba Hs)
    as [[msg Hroc] Hone].
  assert (∃ msg, _calculate_metrics y_true y_pred y_pred_proba
                 = Err (ValueError msg)) as Hcalc.
  { destruct (_calculate_metrics y_true y_pred y_pred_proba) as [m|e] eqn:E.
    - unfold _calculate_metrics in E. rewrite Hroc in E.
      destruct (accuracy_score _ _); simpl in E; [|discriminate].
      destruct (precision_score _ _); simpl in E; [|discriminate].
      destruct (recall_score _ _); simpl in E; [|discriminate].
      destruct (f1_score _ _); simpl in E; discriminate.
    - destruct (calculate_metrics_Err _ _ _ _ E) as [msg' ->]. by eexists. }
  assert ((∃ a, accuracy_score y_true y_pred = Ok (Some a)) ∧
          is_Ok (precision_score y_true y_pred) ∧
          is_Ok (recall_score y_true y_pred) ∧
          is_Ok (f1_score y_true y_pred) ↔
          length y_pred = length y_true ∧
          ∃ ys, y_true = Some <$> ys ∧ binary_targets ys y_pred) as Hiff.
  { destruct (binary_scores_Ok y_true y_pred) as (Hp & Hr & Hf).
    rewrite Hp, Hr, Hf. split.
    - intros (_ & [pairs Hpairs] & _).
      apply check_set_wise_labels_Ok in Hpairs as (Hlen & ys & -> & _ & Hbin).
      eauto.
    - intros (Hlen & ys & -> & Hbin).
      assert (is_Ok (check_set_wise_labels (Some <$> ys) y_pred)) as Hok.
      { exists (zip ys y_pred). apply check_set_wise_labels_Ok. eauto. }
      split; [|done].
      destruct Hs as (c & Hne & _). destruct Hbin as (Hy & Hpr & _).
      rewrite length_fmap in Hlen.
      destruct ys as [|y ys]; [done|]. destruct y_pred as [|p y_pred]; [done|].
      eexists. apply accuracy_score_Ok. split; [by rewrite length_fmap|].
      exists (y :: ys). repeat split; done. }
  split; [by eexists|]. split; [done|]. split; [done|].
  intros Hothers. pose proof Hothers as ((a & Ha) & [p Hp] & [r Hr] & [f Hf]).
  apply Hiff in Hothers as (Hlen & ys & -> & Hy & _).
  assert (roc_auc_score (Some <$> ys) y_pred_proba = Err one_class) as Hroc1.
  { apply Hone. intros v (y & [= <-] & Hv)%list_elem_of_fmap.
    rewrite Forall_forall in Hy. by apply Hy. }
  split; [done|].
  unfold _calculate_metrics. rewrite Ha, Hp, Hr, Hf, Hroc1. reflexivity.
Qed.

Lemma single_class_aborts_metric_evaluation_witness :
  (∃ msg, roc_auc_score [Some 1; Some 1] [0.9; 0.4] = Err (ValueError msg)) ∧
  (∃ msg, _calculate_metrics [Some 1; Some 1] [1; 0] [0.9; 0.4]
          = Err (ValueError msg)).
Proof.
  destruct (single_class_aborts_metric_evaluation
              [Some 1; Some 1] [1; 0] [0.9; 0.4]) as (H1 & H2 & _).
  - exists 1. split; [discriminate|].
    repeat constructor; eexists; (split; [reflexivity|reflexivity]).
  - split; [exact H1|exact H2].
Defined.

(** C4 fails as stated: on single-class labels the four other metrics are
    each computable, but the evaluator returns none of them. *)
Lemma single_class_returns_no_metric :
  accuracy_score [Some 1; Some 1] [1; 0] = Ok (Some (1 # 2)) ∧
  is_Ok (precision_score [Some 1; Some 1] [1; 0]) ∧
  is_Ok (recall_score [Some 1; Some 1] [1; 0]) ∧
  is_Ok (f1_score [Some 1; Some 1] [1; 0]) ∧
  ¬ is_Ok (_calculate_metrics [Some 1; Some 1] [1; 0] [0.9; 0.4]).
Proof.
  split; [reflexivity|].
  split; [eexists; reflexivity|].
  split; [eexists; reflexivity|].
  split; [eexists; reflexivity|].
  intros [m Hm]. vm_compute in Hm. discriminate Hm.
Qed.

(** The other metrics are not always computable on a single class: with
    three labels over both arrays the binary scores raise, and a prediction
    with a fractional part makes even the accuracy raise. *)
Example single_class_other_metrics_may_raise :
  ¬ is_Ok (precision_score [Some 2; Some 2] [1; 0]) ∧
  is_Ok (accuracy_score [Some 2; Some 2] [1; 0]) ∧
  ¬ is_Ok (accuracy_score [Some 1; Some 1] [0.5; 0.5]).
Proof.
  split; [intros [m Hm]; vm_compute in Hm; discriminate Hm|].
  split; [eexists; reflexivity|].
  intros [m Hm]. vm_compute in Hm. discriminate Hm.
Qed.

(** Any two integer labels that include [1] are accepted. *)
Example calculate_metrics_labels_one_two :
  is_Ok (_calculate_metrics [Some 1; Some 2; Some 1] [1; 1; 1] [0.9; 0.2; 0.8]).
Proof. eexists. vm_compute. reflexivity. Qed.

(** ** Model selection *)

Section Selection.

Context {A : Type} (key : A → result Q) (k : A → Q).

(** The running maximum of [max]: the result is the first item whose key
    is maximal. *)
Lemma max_loop_first_maximal (l : list A) (best : A) :
  Forall (λ x, key x = Ok (k x)) l →
  ∃ b, max_loop key best (k best) l = Ok b ∧
    (b = best ∧ Forall (λ x, k x <= k best) l ∨
     ∃ pre post, l = pre ++ b :: post ∧ k best < k b ∧
       Forall (λ x, k x < k b) pre ∧ Forall (λ x, k x <= k b) post).
Proof.
  intros Hall. revert best.
  induction Hall as [|x l Hx _ IH]; intros best; simpl.
  - exists best. split; [done|]. left. done.
  - rewrite Hx. simpl. case_decide as Hlt.
    + destruct (IH x) as (b & -> & Hb). exists b. split; [done|]. right.
      destruct Hb as [[-> Hle]|(pre & post & -> & Hxb & Hpre & Hpost)].
      * exists [], l. done.
      * exists (x :: pre), post. repeat split; try done.
        -- lra.
        -- constructor; [done|]. eapply Forall_impl; [exact Hpre|]. simpl. done.
    + apply Qnot_lt_le in Hlt.
      destruct (IH best) as (b & -> & Hb). exists b. split; [done|].
      destruct Hb as [[-> Hle]|(pre & post & -> & Hxb & Hpre & Hpost)].
      * left. split; [done|]. constructor; done.
      * right. exists (x :: pre), post. repeat split; try done.
        constructor; [lra|done].
Qed.

Lemma py_max_first_maximal (l : list A) :
  l ≠ [] → Forall (λ x, key x = Ok (k x)) l →
  ∃ b pre post, py_max key l = Ok b ∧ l = pre ++ b :: post ∧
    Forall (λ x, k x < k b) pre ∧ Forall (λ x, k x <= k b) post.
Proof.
  intros Hne Hall. destruct Hall as [|x l Hx Hall]; [done|]. simpl.
  rewrite Hx. simpl.
  destruct (max_loop_first_maximal l x Hall) as (b & -> & Hb).
  destruct Hb as [[-> Hle]|(pre & post & -> & Hxb & Hpre & Hpost)].
  - exists x, [], l. done.
  - exists b, (x :: pre), post. repeat split; try done.
    constructor; done.
Qed.

(** A key that raises on some item makes [max] raise the first such
    exception. *)
Lemma max_loop_key_error (l : list A) (best : A) (bk : Q) :
  Exists (λ x, ¬ is_Ok (key x)) l →
  ∃ x e, x ∈ l ∧ key x = Err e ∧ max_loop key best bk l = Err e.
Proof.
  intros Hex. revert best bk.
  induction l as [|x l IH]; intros best bk; [by apply Exists_nil in Hex|].
  simpl. destruct (key x) as [q|e] eqn:Hx; simpl.
  - apply Exists_cons in Hex as [Hbad|Hex]; [destruct Hbad; by eexists|].
    case_decide.
    + destruct (IH Hex x q) as (x' & e & ? & ? & ->).
      exists x', e. split; [by right|done].
    + destruct (IH Hex best bk) as (x' & e & ? & ? & ->).
      exists x', e. split; [by right|done].
  - exists x, e. split; [by left|done].
Qed.

Lemma py_max_key_error (l : list A) :
  Exists (λ x, ¬ is_Ok (key x)) l →
  ∃ x e, x ∈ l ∧ key x = Err e ∧ py_max key l = Err e.
Proof.
  intros Hex. destruct l as [|x l]; [by apply Exists_nil in Hex|].
  simpl. destruct (key x) as [q|e] eqn:Hx; simpl.
  - apply Exists_cons in Hex as [Hbad|Hex]; [destruct Hbad; by eexists|].
    destruct (max_loop_key_error l x q Hex) as (x' & e & ? & ? & ->).
    exists x', e. split; [by right|done].
  - exists x, e. split; [by left|done].
Qed.

End Selection.

Lemma dict_get_app_fresh {V} (k : string) (v : V) (pre post : list (string * V)) :
  k ∉ pre.*1 → dict_get k (pre ++ (k, v) :: post) = Ok v.
Proof.
  induction pre as [|[k' v'] pre IH]; intros Hk.
  - simpl. rewrite decide_True; done.
  - rewrite fmap_cons, not_elem_of_cons in Hk. destruct Hk as [Hne Hk].
    simpl. rewrite decide_False by done. by apply IH.
Qed.

Lemma dict_get_elem_of {V} (k : string) (d : list (string * V)) :
  k ∈ d.*1 → ∃ v, dict_get k d = Ok v ∧ (k, v) ∈ d.
Proof.
  induction d as [|[k' v'] d IH]; intros Hk; [by apply elem_of_nil in Hk|].
  rewrite fmap_cons in Hk. simpl. case_decide as Hkk.
  - subst. exists v'. split; [done|]. by left.
  - apply elem_of_cons in Hk as [Hk|Hk]; [done|].
    destruct (IH Hk) as (v & -> & Hin).
    exists v. split; [done|]. by right.
Qed.

Lemma metric_get_key (metric : string) (r : string * gmap string Q) :
  is_Some (r.2 !! metric) →
  metric_get metric r.2 = Ok (default 0 (r.2 !! metric)).
Proof. intros [v Hv]. unfold metric_get. rewrite Hv. reflexivity. Qed.

Lemma metric_get_missing (metric : string) (m : gmap string Q) :
  ¬ is_Ok (metric_get metric m) ↔ m !! metric = None.
Proof.
  unfold metric_get. destruct (m !! metric); split; try done.
  - intros H. destruct H. by eexists.
  - intros _ [? ?]. done.
Qed.

(** What [select_best_model] returns on a well-formed trainer whose results
    all carry the metric. *)
Lemma select_best_model_spec (t : ModelTrainer) (metric : string) :
  results t ≠ [] → trainer_wf t →
  Forall (λ r, is_Some (r.2 !! metric)) (results t) →
  ∃ model name m v pre post,
    select_best_model t metric = Ok (model, name) ∧
    results t = pre ++ (name, m) :: post ∧
    m !! metric = Some v ∧
    dict_get name (models t) = Ok model ∧
    Forall (λ r, ∃ v', r.2 !! metric = Some v' ∧ v' < v) pre ∧
    Forall (λ r, ∃ v', r.2 !! metric = Some v' ∧ v' <= v) post.
Proof.
  intros Hne [Hkeys Hnodup] Hall.
  destruct (py_max_first_maximal (λ x, metric_get metric x.2)
              (λ x, default 0 (x.2 !! metric)) (results t) Hne)
    as ([name m] & pre & post & Hmax & Hsplit & Hpre & Hpost).
  { eapply Forall_impl; [exact Hall|]. intros r. apply metric_get_key. }
  assert (is_Some (m !! metric)) as [v Hv].
  { rewrite Forall_forall in Hall. apply (Hall (name, m)).
    rewrite Hsplit. set_solver. }
  assert (dict_get name (results t) = Ok m) as Hget.
  { rewrite Hsplit. apply dict_get_app_fresh.
    rewrite Hsplit, fmap_app, NoDup_app in Hnodup.
    destruct Hnodup as (_ & Hfresh & _). intros Hin.
    apply (Hfresh _ Hin). simpl. by left. }
  destruct (dict_get_elem_of name (models t)) as (model & Hmodel & _).
  { rewrite Hkeys, Hsplit, fmap_app. set_solver. }
  exists model, name, m, v, pre, post.
  split.
  { unfold select_best_model. rewrite Hmax. simpl. rewrite Hget. simpl.
    unfold metric_get. rewrite Hv. simpl. rewrite Hmodel. reflexivity. }
  repeat split; try done.
  - rewrite Forall_forall in Hall, Hpre. apply Forall_forall. intros r Hr.
    destruct (Hall r) as [v' Hv']; [rewrite Hsplit; set_solver|].
    exists v'. split; [done|]. specialize (Hpre r Hr). simpl in Hpre.
    rewrite Hv', Hv in Hpre. exact Hpre.
  - rewrite Forall_forall in Hall, Hpost. apply Forall_forall. intros r Hr.
    destruct (Hall r) as [v' Hv']; [rewrite Hsplit; set_solver|].
    exists v'. split; [done|]. specialize (Hpost r Hr). simpl in Hpost.
    rewrite Hv', Hv in Hpost. exact Hpost.
Qed.

(** C3.  On a non-empty collection of recorded results that all carry the
    metric, [select_best_model] returns the name whose recorded value is
    maximal together with the model recorded under that name; every result
    recorded earlier has a strictly smaller value, so among equal maxima the
    first one in recording order is returned. *)
Theorem select_best_model_first_maximum (t : ModelTrainer) (metric : string) :
  results t ≠ [] → trainer_wf t →
  Forall (λ r, is_Some (r.2 !! metric)) (results t) →
  ∃ model name m v pre post,
    select_best_model t metric = Ok (model, name) ∧
    dict_get name (models t) = Ok model ∧
    results t = pre ++ (name, m) :: post ∧
    m !! metric = Some v ∧
    (∀ r v', r ∈ results t → r.2 !! metric = Some v' → v' <= v) ∧
    (∀ r v', r ∈ pre → r.2 !! metric = Some v' → v' < v).
Proof.
  intros Hne Hwf Hall.
  destruct (select_best_model_spec t metric Hne Hwf Hall)
    as (model & name & m & v & pre & post & Hsel & Hsplit & Hv & Hmodel
        & Hpre & Hpost).
  exists model, name, m, v, pre, post. repeat split; try done.
  - intros r v' Hr Hv'. rewrite Hsplit in Hr.
    rewrite Forall_forall in Hpre, Hpost.
    apply elem_of_app in Hr as [Hr|Hr].
    + destruct (Hpre r Hr) as (v'' & Hv'' & Hlt).
      rewrite Hv' in Hv''. injection Hv'' as <-. lra.
    + apply elem_of_cons in Hr as [->|Hr].
      * simpl in Hv'. rewrite Hv in Hv'. injection Hv' as <-. lra.
      * destruct (Hpost r Hr) as (v'' & Hv'' & Hle).
        rewrite Hv' in Hv''. injection Hv'' as <-. exact Hle.
  - intros r v' Hr Hv'. rewrite Forall_forall in Hpre.
    destruct (Hpre r Hr) as (v'' & Hv'' & Hlt).
    rewrite Hv' in Hv''. injection Hv'' as <-. exact Hlt.
Qed.

Lemma select_best_model_first_maximum_witness :
  ∃ model name m v pre post,
    select_best_model trainer_A_B "roc_auc" = Ok (model, name) ∧
    dict_get name (models trainer_A_B) = Ok model ∧
    results trainer_A_B = pre ++ (name, m) :: post ∧
    m !! "roc_auc" = Some v ∧
    (∀ r v', r ∈ results trainer_A_B → r.2 !! "roc_auc" = Some v' → v' <= v) ∧
    (∀ r v', r ∈ pre → r.2 !! "roc_auc" = Some v' → v' < v).
Proof.
  apply (select_best_model_first_maximum trainer_A_B "roc_auc").
  - discriminate.
  - split; [reflexivity|]. apply (bool_decide_unpack _). vm_compute. reflexivity.
  - repeat constructor; eexists; vm_compute; reflexivity.
Defined.

(** The example of the specification: with [A] at 0.81 and [B] at 0.89,
    selection by [roc_auc] returns [B] and its model. *)
Example select_best_model_A_B :
  select_best_model trainer_A_B "roc_auc" = Ok (constant_model 1 0.9, "B").
Proof. vm_compute. reflexivity. Qed.

(** A tie goes to the result recorded first. *)
Example select_best_model_tie :
  select_best_model
    {| models := [("A", rule_model); ("B", constant_model 1 0.9)];
       results := [("A", {[ "roc_auc" := 0.89 ]});
                   ("B", {[ "roc_auc" := 0.89 ]})] |} "roc_auc"
  = Ok (rule_model, "A").
Proof. vm_compute. reflexivity. Qed.

Lemma results_carry_or_miss (metric : string)
    (rs : list (string * gmap string Q)) :
  Forall (λ r, is_Some (r.2 !! metric)) rs ∨
  Exists (λ r, r.2 !! metric = None) rs.
Proof.
  induction rs as [|r rs [IH|IH]].
  - left. constructor.
  - destruct (r.2 !! metric) as [v|] eqn:E.
    + left. constructor; [by eexists|done].
    + right. by left.
  - right. by right.
Qed.

Lemma select_best_model_missing (t : ModelTrainer) (metric : string) :
  Exists (λ r, r.2 !! metric = None) (results t) →
  select_best_model t metric = Err (KeyError metric).
Proof.
  intros Hex.
  destruct (py_max_key_error (λ x, metric_get metric x.2) (results t))
    as (x & e & _ & Hx & Hmax).
  { eapply Exists_impl; [exact Hex|]. intros r. apply metric_get_missing. }
  unfold select_best_model. rewrite Hmax. simpl.
  unfold metric_get in Hx. destruct (x.2 !! metric); [discriminate|].
  by injection Hx as <-.
Qed.

(** C5, as the code has it.  Without any recorded result [max] raises its
    [ValueError]; with results, selection raises [KeyError] for the metric
    exactly when at least one recorded result lacks it, and succeeds
    exactly when every recorded result carries it. *)
Theorem select_best_model_failures (t : ModelTrainer) (metric : string) :
  trainer_wf t →
  (results t = [] →
   select_best_model t metric = Err (ValueError "max() arg is an empty sequence")) ∧
  (results t ≠ [] →
   (select_best_model t metric = Err (KeyError metric) ↔
    Exists (λ r, r.2 !! metric = None) (results t)) ∧
   (is_Ok (select_best_model t metric) ↔
    Forall (λ r, is_Some (r.2 !! metric)) (results t))).
Proof.
  intros Hwf. split.
  - intros Hnil. unfold select_best_model. rewrite Hnil. reflexivity.
  - intros Hne. split; split.
    + intros Herr. destruct (results_carry_or_miss metric (results t))
        as [Hall|Hex]; [|done].
      destruct (select_best_model_spec t metric Hne Hwf Hall)
        as (? & ? & ? & ? & ? & ? & Hsel & _).
      rewrite Hsel in Herr. discriminate.
    + apply select_best_model_missing.
    + intros [r Hok]. destruct (results_carry_or_miss metric (results t))
        as [Hall|Hex]; [done|].
      rewrite (select_best_model_missing _ _ Hex) in Hok. discriminate.
    + intros Hall.
      destruct (select_best_model_spec t metric Hne Hwf Hall)
        as (model & name & ? & ? & ? & ? & Hsel & _).
      by eexists.
Qed.

Lemma select_best_model_failures_witness :
  (results trainer_mixed = [] →
   select_best_model trainer_mixed "roc_auc"
   = Err (ValueError "max() arg is an empty sequence")) ∧
  (results trainer_mixed ≠ [] →
   (select_best_model trainer_mixed "roc_auc" = Err (KeyError "roc_auc") ↔
    Exists (λ r, r.2 !! "roc_auc" = None) (results trainer_mixed)) ∧
   (is_Ok (select_best_model trainer_mixed "roc_auc") ↔
    Forall (λ r, is_Some (r.2 !! "roc_auc")) (results trainer_mixed))).
Proof.
  apply (select_best_model_failures trainer_mixed "roc_auc").
  split; [reflexivity|]. apply (bool_decide_unpack _). vm_compute. reflexivity.
Defined.

(** C5 fails as stated: one recorded result carries [roc_auc], another does
    not, and selection raises [KeyError] instead of succeeding. *)
Lemma select_best_model_partial_metric :
  Exists (λ r, is_Some (r.2 !! "roc_auc")) (results trainer_mixed) ∧
  select_best_model trainer_mixed "roc_auc" = Err (KeyError "roc_auc") ∧
  ¬ is_Ok (select_best_model trainer_mixed "roc_auc").
Proof.
  split; [left; eexists; vm_compute; reflexivity|].
  split; [vm_compute; reflexivity|].
  intros [r Hr]. vm_compute in Hr. discriminate Hr.
Qed.

(** ** The trainer *)

Lemma run_train_and_record `{Numpy} `{Estimators} `{Joblib}
    (run_name : string) (estimator_fit : DataFrame → list cell → result Model)
    (self : ModelTrainer) X_train y_train X_test y_test (w : World) :
  run (train_and_record run_name estimator_fit self X_train y_train X_test y_test) w =
  (match fit_and_evaluate estimator_fit X_train y_train X_test y_test with
   | Ok (model, metrics) =>
       Ok ({| models := dict_set run_name model (models self);
              results := dict_set run_name metrics (results self) |},
           (model, metrics))
   | Err e => Err e
   end, started run_name w).
Proof.
  unfold train_and_record. rewrite run_bind. simpl.
  destruct (fit_and_evaluate _ _ _ _ _) as [[model metrics]|e]; reflexivity.
Qed.

Lemma dict_set_keys {V} (k : string) (v : V) (d : list (string * V)) :
  (dict_set k v d).*1 = if decide (k ∈ d.*1) then d.*1 else d.*1 ++ [k].
Proof.
  induction d as [|[k' v'] d IH]; [reflexivity|].
  cbn [dict_set]. rewrite fmap_cons. cbn [fst].
  destruct (decide (k' = k)) as [->|Hk].
  - rewrite fmap_cons. cbn [fst]. rewrite decide_True; [done|]. by left.
  - rewrite fmap_cons, IH. cbn [fst]. destruct (decide (k ∈ d.*1)) as [Hin|Hout].
    + rewrite decide_True; [done|]. by right.
    + rewrite decide_False; [done|]. intros Hin.
      apply elem_of_cons in Hin as [->|Hin]; done.
Qed.

(** Recording keeps the two dictionaries of the trainer aligned. *)
Lemma train_and_record_wf `{Numpy} `{Estimators} `{Joblib}
    run_name estimator_fit self X_train y_train X_test y_test w t r :
  trainer_wf self →
  (run (train_and_record run_name estimator_fit self
          X_train y_train X_test y_test) w).1 = Ok (t, r) →
  trainer_wf t.
Proof.
  intros [Hkeys Hnodup]. rewrite run_train_and_record. simpl.
  destruct (fit_and_evaluate _ _ _ _ _) as [[model metrics]|e]; [|discriminate].
  intros [= <- _]. unfold trainer_wf. simpl. rewrite !dict_set_keys, Hkeys.
  split; [done|]. case_decide; [done|].
  apply NoDup_app. split; [done|]. split.
  - intros x Hx Hx'. apply list_elem_of_singleton in Hx'. by subst.
  - apply NoDup_singleton.
Qed.

(** Every recorded result carries the same seven metrics. *)
Lemma fit_and_evaluate_metric_names `{Numpy} `{Estimators}
    estimator_fit X_train y_train X_test y_test model metrics (name : string) :
  fit_and_evaluate estimator_fit X_train y_train X_test y_test
    = Ok (model, metrics) →
  is_Some (metrics !! name) ↔
  name ∈ ["accuracy"; "precision"; "recall"; "f1_score"; "roc_auc";
          "cv_roc_auc_mean"; "cv_roc_auc_std"].
Proof.
  unfold fit_and_evaluate, _calculate_metrics.
  destruct (estimator_fit _ _); simpl; [|discriminate].
  destruct (predict _ _); simpl; [|discriminate].
  destruct (predict_proba _ _); simpl; [|discriminate].
  destruct (accuracy_score _ _); simpl; [|discriminate].
  destruct (precision_score _ _); simpl; [|discriminate].
  destruct (recall_score _ _); simpl; [|discriminate].
  destruct (f1_score _ _); simpl; [|discriminate].
  destruct (roc_auc_score _ _); simpl; [|discriminate].
  destruct (cross_val_score _ _ _ _); simpl; [|discriminate].
  intros [= _ <-].
  rewrite !lookup_insert_is_Some, lookup_empty, !elem_of_cons, elem_of_nil.
  split.
  - intros Hn. repeat (destruct Hn as [Hn|[_ Hn]]; [subst; tauto|]).
    destruct (is_Some_None Hn).
  - intros Hn.
    repeat (destruct Hn as [->|Hn];
            [repeat first [left; reflexivity | right; split; [discriminate|]]|]).
    done.
Qed.

(** ** The training script *)

Lemma run_main `{Numpy} `{Estimators} `{Joblib} (w : World) :
  run main w =
  match run main_body w with
  | (Ok b, w') => (Ok b, w')
  | (Err e, w') =>
      (Err e, {| csv_files := csv_files w';
                 files := files w';
                 mlflow_runs := mlflow_runs w';
                 error_log := error_log w' ++ ["Training failed: " +:+ exn_str e] |})
  end.
Proof.
  unfold main. rewrite run_try_except.
  destruct (run main_body w) as [[b|e] w']; reflexivity.
Qed.

(** Steps 1 to 4 on a readable, well-formed input leave the fitted
    preprocessor in the artifact store and hand the transformed table on. *)
Lemma run_main_body `{Numpy} `{Estimators} `{Joblib}
    (w : World) (df X : DataFrame) (y : list cell)
    (p : HeartDiseasePreprocessor) (Xt : DataFrame) :
  csv_files w !! raw_data_path = Some df →
  split_features_target (clean_data df) "target" = Ok (X, y) →
  fit_transform new_preprocessor X = Ok (p, Xt) →
  run main_body w = run (split_train_select Xt y) (with_preprocessor p w).
Proof.
  intros Hcsv Hsplit Hfit. unfold main_body.
  rewrite run_bind. unfold load_data at 1. cbn [run]. rewrite Hcsv.
  rewrite run_bind, run_lift, Hsplit.
  rewrite run_bind, run_lift, Hfit.
  rewrite run_bind, run_save. reflexivity.
Qed.

(** Steps 5 and 6, outcome by outcome. *)
Lemma run_split_train_select `{Numpy} `{Estimators} `{Joblib}
    (Xt : DataFrame) (y : list cell) (w : World) :
  run (split_train_select Xt y) w =
  match train_test_split Xt y test_size random_state with
  | Err e => (Err e, w)
  | Ok (X_train, X_test, y_train, y_test) =>
      let w1 := started "logistic_regression" w in
      match fit_and_evaluate LogisticRegression_fit X_train y_train X_test y_test with
      | Err e => (Err e, w1)
      | Ok (m1, ms1) =>
          let w2 := started "random_forest" w1 in
          match fit_and_evaluate RandomForestClassifier_fit
                  X_train y_train X_test y_test with
          | Err e => (Err e, w2)
          | Ok (m2, ms2) =>
              let trainer :=
                {| models := dict_set "random_forest" m2
                               (dict_set "logistic_regression" m1 []);
                   results := dict_set "random_forest" ms2
                                (dict_set "logistic_regression" ms1 []) |} in
              match select_best_model trainer "roc_auc" with
              | Err e => (Err e, w2)
              | Ok (best_model, _) =>
                  (Ok true,
                   {| csv_files := csv_files w2;
                      files := <[model_path := dumps_model best_model]> (files w2);
                      mlflow_runs := mlflow_runs w2;
                      error_log := error_log w2 |})
              end
          end
      end
  end.
Proof.
  unfold split_train_select. rewrite run_bind, run_lift.
  destruct (train_test_split _ _ _ _) as [[[[X_train X_test] y_train] y_test]|e];
    [|reflexivity].
  rewrite run_bind. unfold train_logistic_regression.
  rewrite run_train_and_record.
  destruct (fit_and_evaluate LogisticRegression_fit _ _ _ _) as [[m1 ms1]|e];
    [|reflexivity].
  rewrite run_bind. unfold train_random_forest.
  rewrite run_train_and_record.
  destruct (fit_and_evaluate RandomForestClassifier_fit _ _ _ _) as [[m2 ms2]|e];
    [|reflexivity].
  rewrite run_bind, run_lift. cbn [models results new_trainer].
  destruct (select_best_model _ _) as [[best_model best_name]|e];
    reflexivity.
Qed.

Lemma train_outcome `{Numpy} `{Estimators} `{Joblib}
    run_name estimator_fit self X_train y_train X_test y_test (w : World) :
  (run (train_and_record run_name estimator_fit self
          X_train y_train X_test y_test) w).1 =
  (λ '(model, metrics),
     ({| models := dict_set run_name model (models self);
         results := dict_set run_name metrics (results self) |},
      (model, metrics)))
  <$> fit_and_evaluate estimator_fit X_train y_train X_test y_test.
Proof.
  rewrite run_train_and_record. simpl.
  destruct (fit_and_evaluate _ _ _ _ _) as [[model metrics]|e]; reflexivity.
Qed.

(** C2, as the code has it.  Once the data is prepared and split, a raise
    in the training of either candidate leaves that candidate unrecorded
    and propagates out of the script: the run fails with that exception,
    which is logged and re-raised, no model artifact is written, and the
    random forest is started only if the logistic regression succeeded. *)
Theorem failing_model_fails_the_run `{Numpy} `{Estimators} `{Joblib}
    (w : World) (df X : DataFrame) (y : list cell)
    (p : HeartDiseasePreprocessor) (Xt X_train X_test : DataFrame)
    (y_train y_test : list cell) (e : exn) :
  csv_files w !! raw_data_path = Some df →
  split_features_target (clean_data df) "target" = Ok (X, y) →
  fit_transform new_preprocessor X = Ok (p, Xt) →
  train_test_split Xt y test_size random_state
    = Ok (X_train, X_test, y_train, y_test) →
  (run (train_logistic_regression new_trainer X_train y_train X_test y_test) w).1
    = Err e ∨
  (∃ t r,
     (run (train_logistic_regression new_trainer X_train y_train X_test y_test) w).1
       = Ok (t, r) ∧
     (run (train_random_forest t X_train y_train X_test y_test) w).1 = Err e) →
  (run main w).1 = Err e ∧
  error_log (run main w).2 = error_log w ++ ["Training failed: " +:+ exn_str e] ∧
  files (run main w).2 !! model_path = files w !! model_path ∧
  mlflow_runs (run main w).2 =
    mlflow_runs w ++
    (if is_ok (run (train_logistic_regression new_trainer
                      X_train y_train X_test y_test) w).1
     then ["logistic_regression"; "random_forest"]
     else ["logistic_regression"]).
Proof.
  intros Hcsv Hsplit Hfit Htts Hfail.
  rewrite run_main, (run_main_body w df X y p Xt) by done.
  rewrite run_split_train_select, Htts. cbn zeta.
  unfold train_logistic_regression, train_random_forest in *.
  rewrite !train_outcome in *.
  assert (∀ fs : gmap string blob,
            <[preprocessor_path := dumps_preprocessor p]> fs !! model_path
            = fs !! model_path) as Hother.
  { intros fs. apply lookup_insert_ne. discriminate. }
  destruct Hfail as [Hlr|(t & r & Hlr & Hrf)].
  - destruct (fit_and_evaluate LogisticRegression_fit _ _ _ _)
      as [[m1 ms1]|e1]; [discriminate|].
    injection Hlr as ->. simpl. rewrite Hother. done.
  - destruct (fit_and_evaluate LogisticRegression_fit _ _ _ _)
      as [[m1 ms1]|e1]; [|discriminate].
    rewrite train_outcome in Hrf.
    destruct (fit_and_evaluate RandomForestClassifier_fit _ _ _ _)
      as [[m2 ms2]|e2]; [discriminate|].
    injection Hrf as ->. simpl. rewrite Hother, <- (assoc_L (++)). done.
Qed.

Lemma failing_model_fails_the_run_witness :
  let w := @world_with token_joblib sample_frame in
  let out := @run token_joblib _
               (@main toy_numpy (toy_estimators failing_fit working_fit)
                  token_joblib) w in
  out.1 = Err (EstimatorError "did not converge") ∧
  @error_log token_joblib out.2 = ["Training failed: did not converge"] ∧
  @files token_joblib out.2 !! model_path = None ∧
  @mlflow_runs token_joblib out.2 = ["logistic_regression"].
Proof.
  intros w out.
  edestruct (@failing_model_fails_the_run toy_numpy
               (toy_estimators failing_fit working_fit) token_joblib w)
    as (R1 & R2 & R3 & R4).
  - reflexivity.
  - vm_compute. reflexivity.
  - vm_compute. reflexivity.
  - vm_compute. reflexivity.
  - left. reflexivity.
  - split; [exact R1|]. split; [exact R2|]. split; [exact R3|]. exact R4.
Defined.

(** C2 fails as stated, on the sample with the hold-out splitter.  When the
    logistic regression raises, the random forest, which trains fine on the
    same data, is never started; when the logistic regression succeeds and
    the random forest raises, the run fails although one model
    succeeded. *)
Lemma failing_model_aborts_the_run :
  let w := @world_with token_joblib sample_frame in
  let all_work := @run token_joblib _
        (@main toy_numpy (toy_estimators working_fit working_fit) token_joblib) w in
  let lr_fails := @run token_joblib _
        (@main toy_numpy (toy_estimators failing_fit working_fit) token_joblib) w in
  let rf_fails := @run token_joblib _
        (@main toy_numpy (toy_estimators working_fit failing_fit) token_joblib) w in
  (all_work.1 = Ok true ∧
   @mlflow_runs token_joblib all_work.2 = ["logistic_regression"; "random_forest"]) ∧
  (lr_fails.1 = Err (EstimatorError "did not converge") ∧
   @mlflow_runs token_joblib lr_fails.2 = ["logistic_regression"]) ∧
  (rf_fails.1 = Err (EstimatorError "did not converge") ∧
   @mlflow_runs token_joblib rf_fails.2 = ["logistic_regression"; "random_forest"]).
Proof.
  intros w all_work lr_fails rf_fails.
  repeat split; vm_compute; reflexivity.
Qed.

Lemma fit_transform_Ok `{Numpy} (X Xt : DataFrame)
    (self p : HeartDiseasePreprocessor) :
  fit_transform self X = Ok (p, Xt) ↔ fit self X = Ok p ∧ transform p X = Ok Xt.
Proof.
  unfold fit_transform. destruct (fit self X) as [p'|e]; simpl.
  - destruct (transform p' X) as [Xt'|e] eqn:E; simpl.
    + split; [intros [= <- <-]; done|]. intros [[= <-] Ht].
      rewrite E in Ht. by injection Ht as <-.
    + split; [discriminate|]. intros [[= <-] Ht]. rewrite E in Ht. discriminate.
  - split; [discriminate|]. intros [? _]. discriminate.
Qed.

(** Whatever happens in steps 5 and 6, the artifact written in step 4 is
    the preprocessor fitted on the whole cleaned feature table. *)
Lemma main_saves_fitted_preprocessor `{Numpy} `{Estimators} `{Joblib}
    (w : World) (df X : DataFrame) (y : list cell)
    (p : HeartDiseasePreprocessor) (Xt : DataFrame) :
  csv_files w !! raw_data_path = Some df →
  split_features_target (clean_data df) "target" = Ok (X, y) →
  fit_transform new_preprocessor X = Ok (p, Xt) →
  files (run main w).2 !! preprocessor_path = Some (dumps_preprocessor p).
Proof.
  intros Hcsv Hsplit Hfit.
  rewrite run_main, (run_main_body w df X y p Xt) by done.
  rewrite run_split_train_select.
  destruct (train_test_split _ _ _ _) as [[[[X_train X_test] y_train] y_test]|e];
    [|apply lookup_insert_eq].
  cbn zeta.
  destruct (fit_and_evaluate LogisticRegression_fit _ _ _ _) as [[m1 ms1]|e];
    [|apply lookup_insert_eq].
  destruct (fit_and_evaluate RandomForestClassifier_fit _ _ _ _) as [[m2 ms2]|e];
    [|apply lookup_insert_eq].
  destruct (select_best_model _ _) as [[best_model best_name]|e];
    [|apply lookup_insert_eq].
  simpl. rewrite lookup_insert_ne by discriminate. apply lookup_insert_eq.
Qed.

Lemma take_positions_elem_of {A} (idx : list nat) (l : list A) (x : A) :
  x ∈ take_positions idx l → x ∈ l.
Proof.
  unfold take_positions. rewrite list_elem_of_omap.
  intros (i & _ & Hi). by eapply list_elem_of_lookup_2.
Qed.

Lemma transform_index (p : HeartDiseasePreprocessor) (X Xt : DataFrame) :
  transform p X = Ok Xt → (rows Xt).*1 = (rows X).*1.
Proof.
  unfold transform. destruct (pipeline p) as [ct|]; [|discriminate].
  unfold ColumnTransformer_transform.
  destruct (column_positions (numerical_features p) X); simpl; [|discriminate].
  destruct (column_positions (categorical_features p) X); simpl; [|discriminate].
  destruct (check_min_samples (rows X)); simpl; [|discriminate].
  unfold pd_DataFrame. case_decide; [|discriminate].
  intros [= <-]. simpl. apply fst_zip. rewrite !length_fmap. done.
Qed.

(** C1, as the code has it.  The statistics are learned by [fit] on every
    row of the cleaned feature table, before the table is split: the
    artifact that the script writes is that preprocessor whatever the
    splitter and the learners do, and every row of the test split is one of
    the rows produced by [fit_transform] on the table that was fitted. *)
Theorem preprocessor_is_fitted_before_the_split
    `{Numpy} `{Estimators} `{Joblib}
    (w : World) (df X : DataFrame) (y : list cell)
    (p : HeartDiseasePreprocessor) (Xt : DataFrame) :
  csv_files w !! raw_data_path = Some df →
  split_features_target (clean_data df) "target" = Ok (X, y) →
  fit_transform new_preprocessor X = Ok (p, Xt) →
  fit new_preprocessor X = Ok p ∧
  files (run main w).2 !! preprocessor_path = Some (dumps_preprocessor p) ∧
  (rows Xt).*1 = (rows X).*1 ∧
  ∀ X_train X_test y_train y_test,
    train_test_split Xt y test_size random_state
      = Ok (X_train, X_test, y_train, y_test) →
    ∀ r, r ∈ rows X_test → r ∈ rows Xt.
Proof.
  intros Hcsv Hsplit Hfit.
  pose proof Hfit as [Hp Ht]%fit_transform_Ok.
  split; [exact Hp|].
  split; [by eapply main_saves_fitted_preprocessor|].
  split; [by eapply transform_index|].
  intros X_train X_test y_train y_test. unfold train_test_split.
  destruct (split_positions _ _ _ _) as [[train test]|e]; simpl; [|discriminate].
  intros [= _ <- _ _] r. simpl. apply take_positions_elem_of.
Qed.

Lemma preprocessor_is_fitted_before_the_split_witness :
  let w := @world_with token_joblib sample_frame in
  ∃ X y p Xt,
    split_features_target (clean_data sample_frame) "target" = Ok (X, y) ∧
    @fit toy_numpy new_preprocessor X = Ok p ∧
    @files token_joblib
      (@run token_joblib _
         (@main toy_numpy (toy_estimators working_fit working_fit) token_joblib)
         w).2 !! preprocessor_path = Some (token_dumps p) ∧
    (rows Xt).*1 = (rows X).*1.
Proof.
  intros w.
  edestruct (@preprocessor_is_fitted_before_the_split toy_numpy
               (toy_estimators working_fit working_fit) token_joblib w)
    as (R1 & R2 & R3 & _).
  - reflexivity.
  - vm_compute. reflexivity.
  - vm_compute. reflexivity.
  - eexists _, _, _, _. split; [vm_compute; reflexivity|].
    split; [exact R1|]. split; [exact R2|exact R3].
Defined.

(** C1 fails as stated, on the sample with the hold-out splitter: the two
    tables have the same labels, get the same split (positions 0 to 7 for
    training, 8 and 9 for the test) and agree on every training row; they
    differ in the age of the last subject, a test row, and the fitted mean
    of age differs, hence so do the fitted preprocessors and the artifacts
    that the script writes. *)
Lemma test_rows_influence_the_fitted_state :
  ∃ X1 X2 y train test,
    split_features_target (clean_data sample_frame) "target" = Ok (X1, y) ∧
    split_features_target (clean_data sample_frame') "target" = Ok (X2, y) ∧
    holdout_last (length (rows X1)) test_size random_state y = Ok (train, test) ∧
    holdout_last (length (rows X2)) test_size random_state y = Ok (train, test) ∧
    take_positions train (rows X1) = take_positions train (rows X2) ∧
    take_positions test (rows X1) ≠ take_positions test (rows X2) ∧
    @fit toy_numpy new_preprocessor X1 ≠ @fit toy_numpy new_preprocessor X2 ∧
    @files token_joblib
      (@run token_joblib _
         (@main toy_numpy (toy_estimators working_fit working_fit) token_joblib)
         (@world_with token_joblib sample_frame)).2 !! preprocessor_path
    ≠ @files token_joblib
      (@run token_joblib _
         (@main toy_numpy (toy_estimators working_fit working_fit) token_joblib)
         (@world_with token_joblib sample_frame')).2 !! preprocessor_path.
Proof.
  eexists _, _, _, _, _.
  split; [vm_compute; reflexivity|].
  split; [vm_compute; reflexivity|].
  split; [vm_compute; reflexivity|].
  split; [vm_compute; reflexivity|].
  split; [vm_compute; reflexivity|].
  split; [intros Heq; vm_compute in Heq; discriminate Heq|].
  split.
  - intros Heq.
    apply (f_equal (λ r : result HeartDiseasePreprocessor,
                      match r with
                      | Ok p => (λ ct, mean_ (numerical_scaler ct)) <$> pipeline p
                      | Err _ => None
                      end)) in Heq.
    vm_compute in Heq. discriminate Heq.
  - intros Heq.
    apply (f_equal (λ b : option (list token), (λ ts, ts !! 24%nat) <$> b)) in Heq.
    vm_compute in Heq. discriminate Heq.
Qed.

(** C10.  [clean_data] keeps the columns and retains exactly the rows in
    which at least half of the table's columns are non-missing (a row with
    exactly half is kept); the retained rows are the original rows, cells
    and index labels untouched, in their original order; and in the script
    the preprocessor is fitted on the table cleaned this way. *)
Theorem clean_data_keeps_half_observed_rows (df : DataFrame) :
  columns (clean_data df) = columns df ∧
  rows (clean_data df) =
    filter (λ r, (length (columns df) ≤ 2 * count_notna r.2)%nat) (rows df) ∧
  rows (clean_data df) `sublist_of` rows df ∧
  (∀ r, r ∈ rows (clean_data df) ↔
        r ∈ rows df ∧ (length (columns df) ≤ 2 * count_notna r.2)%nat) ∧
  (∀ (N : Numpy) (E : Estimators) (J : Joblib) (w : World) X y p Xt,
     csv_files w !! raw_data_path = Some df →
     split_features_target (clean_data df) "target" = Ok (X, y) →
     fit_transform new_preprocessor X = Ok (p, Xt) →
     (rows X).*1 = (rows (clean_data df)).*1 ∧
     files (run main w).2 !! preprocessor_path = Some (dumps_preprocessor p)).
Proof.
  split; [reflexivity|].
  split; [apply clean_data_rows|].
  split; [rewrite clean_data_rows; apply sublist_filter|].
  split.
  - intros r. rewrite clean_data_rows, list_elem_of_filter. tauto.
  - intros N E J w X y p Xt Hcsv Hsplit Hfit. split.
    + unfold split_features_target in Hsplit.
      destruct (col_index _ _); [|discriminate].
      injection Hsplit as <- _. simpl. rewrite <- list_fmap_compose.
      apply list_fmap_ext. done.
    + by eapply main_saves_fitted_preprocessor.
Qed.

(** On the sample nothing is dropped; a row observed in only six of
    fourteen columns is dropped, one observed in seven is kept. *)
Example clean_data_sample :
  rows (clean_data sample_frame) = rows sample_frame ∧
  rows (clean_data {| columns := sample_columns;
                      rows := [(0%nat, replicate 6 (Some 1) ++ replicate 8 None);
                               (1%nat, replicate 7 (Some 1) ++ replicate 7 None)] |})
  = [(1%nat, replicate 7 (Some 1) ++ replicate 7 None)].
Proof. split; vm_compute; reflexivity. Qed.

(** ** Preprocessing *)

(** ** Statistics *)

Lemma Qsum_cons (x : Q) (l : list Q) : Qsum (x :: l) = x + Qsum l.
Proof. reflexivity. Qed.



Lemma Qnat_pos (n : nat) : n ≠ 0%nat → 0 < Qnat n.
Proof.
  intros Hn. unfold Qnat, Qlt, inject_Z. simpl. lia.
Qed.






Lemma insert_sorted_length (x : Q) (l : list Q) :
  length (insert_sorted x l) = S (length l).
Proof.
  induction l as [|y l IH]; simpl; [done|]. case_decide; simpl; lia.
Qed.

Lemma sort_Q_length (l : list Q) : length (sort_Q l) = length l.
Proof.
  induction l as [|x l IH]; [done|].
  change (sort_Q (x :: l)) with (insert_sorted x (sort_Q l)).
  by rewrite insert_sorted_length, IH.
Qed.


Lemma median_is_Some (xs : list Q) : xs ≠ [] → is_Some (median xs).
Proof.
  intros Hne. unfold median. rewrite sort_Q_length.
  case_decide as Hn; [by destruct xs|].
  destruct (Nat.odd (length xs)); [|done].
  apply lookup_lt_is_Some_2. rewrite sort_Q_length. apply Nat.div_lt; lia.
Qed.

Lemma foldr_is_Some (f : Q → cell → cell) (l : list Q) :
  (∀ x b, is_Some (f x b)) → l ≠ [] → is_Some (foldr f None l).
Proof. intros Hf Hne. destruct l as [|x l]; [done|]. apply Hf. Qed.

Lemma most_frequent_is_Some (xs : list Q) : xs ≠ [] → is_Some (most_frequent xs).
Proof.
  intros Hne. unfold most_frequent. apply foldr_is_Some; [|done].
  intros x [b|]; [case_decide|]; done.
Qed.

(** ** Rows through the imputer and the scaler *)

Lemma mapR_length {A B} (f : A → result B) (l : list A) (l' : list B) :
  mapR f l = Ok l' → length l' = length l.
Proof.
  revert l'. induction l as [|x l IH]; intros l'; simpl.
  - by intros [= <-].
  - destruct (f x); simpl; [|discriminate].
    destruct (mapR f l); simpl; [|discriminate].
    intros [= <-]. simpl. f_equal. by apply IH.
Qed.

Lemma column_positions_length (names : list string) (df : DataFrame) idx :
  column_positions names df = Ok idx → length idx = length names.
Proof. apply mapR_length. Qed.

Lemma pick_length (idx : list nat) (r : list cell) :
  length (pick idx r) = length idx.
Proof. unfold pick. apply length_fmap. Qed.

Lemma pick_lookup (idx : list nat) (r : list cell) (j pos : nat) :
  idx !! j = Some pos → pick idx r !! j = Some (cell_at pos r).
Proof. intros Hj. unfold pick. rewrite list_lookup_fmap, Hj. reflexivity. Qed.

Lemma n_valid_cons (s : cell) (stats : list cell) :
  n_valid (s :: stats) = ((if s is Some _ then 1 else 0) + n_valid stats)%nat.
Proof.
  unfold n_valid, count_notna. rewrite filter_cons.
  destruct s; [rewrite decide_True by done|rewrite decide_False by by intros []];
    reflexivity.
Qed.

Lemma n_valid_le (stats : list cell) : (n_valid stats ≤ length stats)%nat.
Proof. unfold n_valid, count_notna. apply length_filter. Qed.

Lemma n_valid_all (stats : list cell) :
  n_valid stats = length stats → Forall (λ c : cell, is_Some c) stats.
Proof.
  induction stats as [|s stats IH]; [constructor|].
  rewrite n_valid_cons. pose proof (n_valid_le stats). simpl.
  destruct s; [|lia]. intros Hn. constructor; [done|]. apply IH. lia.
Qed.

Lemma impute_row_length_le (stats r : list cell) :
  (length (impute_row stats r) ≤ n_valid stats)%nat.
Proof.
  revert r. induction stats as [|s stats IH]; intros r; [simpl; lia|].
  rewrite n_valid_cons. destruct s, r; simpl; try lia.
  - specialize (IH r). lia.
  - apply IH.
Qed.

Lemma impute_row_length (stats r : list cell) :
  Forall (λ c : cell, is_Some c) stats → length r = length stats →
  length (impute_row stats r) = length stats.
Proof.
  intros Hall. revert r.
  induction Hall as [|s stats [m ->] _ IH]; intros [|c r]; simpl; try done.
  intros [= Hlen]. f_equal. by apply IH.
Qed.

Lemma impute_row_lookup (stats r : list cell) (j : nat) (m : Q) (c : cell) :
  Forall (λ c : cell, is_Some c) stats →
  stats !! j = Some (Some m) → r !! j = Some c →
  impute_row stats r !! j = Some (fill m c).
Proof.
  intros Hall. revert r j.
  induction Hall as [|s stats [m' ->] _ IH]; intros [|c' r] [|j]; simpl;
    try done.
  - by intros [= ->] [= ->].
  - apply IH.
Qed.


Lemma scale_row_length_le (means scales : list Q) (r : list cell) :
  (length (scale_row means scales r) ≤ length r)%nat.
Proof.
  revert scales r. induction means as [|m means IH]; intros [|s scales] [|c r];
    simpl; try lia.
  specialize (IH scales r). lia.
Qed.

Lemma scale_row_lookup (means scales : list Q) (r : list cell) j m s c :
  means !! j = Some m → scales !! j = Some s → r !! j = Some c →
  scale_row means scales r !! j = Some (scale_cell m s c).
Proof.
  revert scales r j.
  induction means as [|m' means IH]; intros [|s' scales] [|c' r] [|j]; simpl;
    try done.
  - by intros [= ->] [= ->] [= ->].
  - apply IH.
Qed.


Lemma zip_fst_fmap {A B C} (g : A * B → C) (l : list (A * B)) :
  zip (l.*1) (g <$> l) = (λ x, (x.1, g x)) <$> l.
Proof. induction l as [|x l IH]; simpl; [done|]. by f_equal. Qed.

Lemma observed_fill (med : Q) (cs : list cell) :
  observed (fill med <$> cs) = default med <$> cs.
Proof.
  unfold observed. induction cs as [|[v|] cs IH]; simpl; [done|..];
    by f_equal.
Qed.

Lemma observed_elem_of (x : Q) (cs : list cell) :
  x ∈ observed cs ↔ Some x ∈ cs.
Proof.
  unfold observed. rewrite list_elem_of_omap. split.
  - intros (c & Hc & Hx). simpl in Hx. by subst.
  - intros Hx. by exists (Some x).
Qed.


Lemma fill_default (m : Q) (c : cell) : fill m c = Some (default m c).
Proof. by destruct c. Qed.

Lemma imputed_column (stats : list cell) (M : list (list cell)) j med :
  Forall (λ c : cell, is_Some c) stats →
  Forall (λ r, length r = length stats) M →
  stats !! j = Some (Some med) →
  column j (impute_row stats <$> M) = fill med <$> column j M.
Proof.
  intros Hall HM Hj. unfold column. rewrite <- !list_fmap_compose.
  apply Forall_fmap_ext. eapply Forall_impl; [exact HM|].
  intros r Hr. unfold compose, cell_at.
  destruct (lookup_lt_is_Some_2 r j) as [c Hc].
  { rewrite Hr. by eapply lookup_lt_Some. }
  pose proof (impute_row_lookup _ _ _ _ _ Hall Hj Hc) as E.
  rewrite E, Hc. reflexivity.
Qed.

(** The shape check of [pd.DataFrame] passes only if no column was
    skipped by an imputer. *)
Lemma transform_row_shape (ct : ColumnTransformer) (idxn idxc : list nat)
    (r : list cell) (n c : nat) :
  length (statistics_ (numerical_imputer ct)) = n →
  length (statistics_ (categorical_imputer ct)) = c →
  length (transform_row ct idxn idxc r) = (n + c)%nat →
  Forall (λ c : cell, is_Some c) (statistics_ (numerical_imputer ct)) ∧
  Forall (λ c : cell, is_Some c) (statistics_ (categorical_imputer ct)) ∧
  length (scale_row (mean_ (numerical_scaler ct)) (scale_ (numerical_scaler ct))
            (impute_row (statistics_ (numerical_imputer ct)) (pick idxn r))) = n.
Proof.
  intros Hn Hc. unfold transform_row. rewrite length_app.
  pose proof (scale_row_length_le (mean_ (numerical_scaler ct))
                (scale_ (numerical_scaler ct))
                (impute_row (statistics_ (numerical_imputer ct)) (pick idxn r))).
  pose proof (impute_row_length_le (statistics_ (numerical_imputer ct)) (pick idxn r)).
  pose proof (impute_row_length_le (statistics_ (categorical_imputer ct)) (pick idxc r)).
  pose proof (n_valid_le (statistics_ (numerical_imputer ct))).
  pose proof (n_valid_le (statistics_ (categorical_imputer ct))).
  intros Hlen. split; [apply n_valid_all; lia|]. split; [apply n_valid_all; lia|lia].
Qed.

Lemma n_valid_of_all (stats : list cell) :
  Forall (λ c : cell, is_Some c) stats → n_valid stats = length stats.
Proof.
  induction 1 as [|s stats [m ->] _ IH]; [done|].
  rewrite n_valid_cons, IH. reflexivity.
Qed.

Section Fitted.

Context `{Numpy}.
Context (self : HeartDiseasePreprocessor) (X_train : DataFrame).
Context (p : HeartDiseasePreprocessor).
Hypothesis Hfit : fit self X_train = Ok p.

(** What [fit] stores. *)
Lemma fit_state :
  ∃ tn tc,
    column_positions (numerical_features self) X_train = Ok tn ∧
    column_positions (categorical_features self) X_train = Ok tc ∧
    rows X_train ≠ [] ∧
    numerical_features p = numerical_features self ∧
    categorical_features p = categorical_features self ∧
    let Mn := (λ r : nat * list cell, pick tn r.2) <$> rows X_train in
    let Mc := (λ r : nat * list cell, pick tc r.2) <$> rows X_train in
    let statsn := (λ j, median (observed (column j Mn)))
                    <$> seq 0 (length (numerical_features self)) in
    let cols := (λ j, observed (column j (impute_row statsn <$> Mn)))
                  <$> seq 0 (n_valid statsn) in
    pipeline p =
      Some {| numerical_imputer :=
                {| imputer_strategy := Median; statistics_ := statsn |};
              numerical_scaler :=
                {| mean_ := mean <$> cols;
                   var_ := variance <$> cols;
                   scale_ := (λ xs, handle_zeros_in_scale (np_sqrt (variance xs)))
                               <$> cols |};
              categorical_imputer :=
                {| imputer_strategy := MostFrequent;
                   statistics_ := (λ j, most_frequent (observed (column j Mc)))
                                    <$> seq 0 (length (categorical_features self)) |} |}.
Proof.
  unfold fit, ColumnTransformer_fit in Hfit.
  destruct (column_positions (numerical_features self) X_train) as [tn|];
    simpl in Hfit; [|discriminate].
  destruct (column_positions (categorical_features self) X_train) as [tc|];
    simpl in Hfit; [|discriminate].
  destruct (rows X_train) as [|r0 rs] eqn:Hrows; simpl in Hfit; [discriminate|].
  destruct (check_min_features _ _) as [[]|]; simpl in Hfit; [|discriminate].
  injection Hfit as <-. exists tn, tc. repeat split; try done.
Qed.

End Fitted.

Lemma mapR_lookup {A B} (f : A → result B) (l : list A) (l' : list B) j x :
  mapR f l = Ok l' → l !! j = Some x → ∃ y, f x = Ok y ∧ l' !! j = Some y.
Proof.
  revert l' j. induction l as [|a l IH]; intros l' j; simpl; [done|].
  destruct (f a) as [b|] eqn:Hb; simpl; [|discriminate].
  destruct (mapR f l) as [bs|]; simpl; [|discriminate].
  intros [= <-]. destruct j as [|j]; simpl.
  - intros [= <-]. eauto.
  - by apply IH.
Qed.

Lemma mapR_is_Ok {A B} (f : A → result B) (l : list A) :
  Forall (λ x, is_Ok (f x)) l → is_Ok (mapR f l).
Proof.
  induction 1 as [|x l [y Hy] _ [ys IH]]; simpl; [by eexists|].
  rewrite Hy. simpl. rewrite IH. simpl. by eexists.
Qed.

Lemma column_positions_lookup (names : list string) (df : DataFrame) idx j name :
  column_positions names df = Ok idx → names !! j = Some name →
  ∃ pos, col_index name (columns df) = Some pos ∧ idx !! j = Some pos.
Proof.
  intros Hidx Hj. destruct (mapR_lookup _ _ _ _ _ Hidx Hj) as (pos & Hpos & Hl).
  exists pos. split; [|done].
  destruct (col_index name (columns df)); [by injection Hpos as ->|discriminate].
Qed.

Lemma column_positions_is_Ok (names : list string) (df : DataFrame) :
  (∀ name, name ∈ names → is_Some (col_index name (columns df))) →
  is_Ok (column_positions names df).
Proof.
  intros Hall. apply mapR_is_Ok, Forall_forall. intros name Hname.
  destruct (Hall name Hname) as [pos ->]. by eexists.
Qed.

Lemma column_of_picks (idx : list nat) (rs : list (nat * list cell)) j pos :
  idx !! j = Some pos →
  column j ((λ r : nat * list cell, pick idx r.2) <$> rs)
  = (λ r : nat * list cell, cell_at pos r.2) <$> rs.
Proof.
  intros Hj. unfold column. rewrite <- list_fmap_compose.
  apply list_fmap_ext. intros i r _. unfold compose, cell_at at 1.
  by rewrite (pick_lookup _ _ _ _ Hj).
Qed.

Lemma observed_nonempty (cs : list cell) :
  Exists (λ c : cell, is_Some c) cs → observed cs ≠ [].
Proof.
  intros (c & Hc & [x ->])%Exists_exists Hnil.
  apply observed_elem_of in Hc. rewrite Hnil in Hc. by apply elem_of_nil in Hc.
Qed.

Lemma scale_row_length (means scales : list Q) (r : list cell) :
  length means = length r → length scales = length r →
  length (scale_row means scales r) = length r.
Proof.
  revert scales r. induction means as [|m means IH]; intros [|s scales] [|c r];
    simpl; try done.
  intros [= Hm] [= Hs]. f_equal. by apply IH.
Qed.

(** Statistics exist for every configured column that was observed at
    least once in the training table. *)
Lemma observed_columns_have_statistics (s : strategy) (names : list string)
    (X_train : DataFrame) (idx : list nat) :
  column_positions names X_train = Ok idx →
  (∀ name, name ∈ names →
     ∃ pos, col_index name (columns X_train) = Some pos ∧
       Exists (λ r, is_Some (cell_at pos r.2)) (rows X_train)) →
  Forall (λ c : cell, is_Some c)
    ((λ j, statistic s (observed (column j
        ((λ r : nat * list cell, pick idx r.2) <$> rows X_train))))
     <$> seq 0 (length names)).
Proof.
  intros Hidx Hobs. apply Forall_fmap, Forall_forall. intros j Hj.
  apply elem_of_seq in Hj as [_ Hj]. simpl in Hj |- *.
  destruct (lookup_lt_is_Some_2 names j Hj) as [name Hname].
  destruct (column_positions_lookup _ _ _ _ _ Hidx Hname) as (pos & Hpos & Hl).
  destruct (Hobs name) as (pos' & Hpos' & Hex); [by eapply list_elem_of_lookup_2|].
  rewrite Hpos in Hpos'. injection Hpos' as <-.
  rewrite (column_of_picks _ _ _ _ Hl).
  assert (observed ((λ r : nat * list cell, cell_at pos r.2) <$> rows X_train) ≠ [])
    as Hne.
  { apply observed_nonempty. by apply Exists_fmap. }
  destruct s; [by apply median_is_Some|by apply most_frequent_is_Some].
Qed.

Lemma transform_returns `{Numpy} (self : HeartDiseasePreprocessor)
    (X_train : DataFrame) (p : HeartDiseasePreprocessor) (X : DataFrame) :
  fit self X_train = Ok p →
  (∀ name, name ∈ numerical_features self ++ categorical_features self →
     ∃ pos, col_index name (columns X_train) = Some pos ∧
       Exists (λ r, is_Some (cell_at pos r.2)) (rows X_train)) →
  (∀ name, name ∈ numerical_features self ++ categorical_features self →
     is_Some (col_index name (columns X))) →
  rows X ≠ [] →
  is_Ok (transform p X).
Proof.
  intros Hfit Hobs Hcols Hrows.
  destruct (fit_state self X_train p Hfit)
    as (tn & tc & Htn & Htc & Htrain & Hnum & Hcat & Hp).
  cbv zeta in Hp.
  pose proof (observed_columns_have_statistics Median _ _ _ Htn) as Hvn.
  pose proof (observed_columns_have_statistics MostFrequent _ _ _ Htc) as Hvc.
  simpl in Hvn, Hvc.
  set (statsn := (λ j, median _) <$> seq 0 _) in *.
  set (statsc := (λ j, most_frequent _) <$> seq 0 _) in *.
  assert (Forall (λ c : cell, is_Some c) statsn) as Hn.
  { apply Hvn. intros name Hname. apply Hobs, elem_of_app. by left. }
  assert (Forall (λ c : cell, is_Some c) statsc) as Hc.
  { apply Hvc. intros name Hname. apply Hobs, elem_of_app. by right. }
  clear Hvn Hvc.
  destruct (column_positions_is_Ok (numerical_features p) X) as [idxn Hidxn].
  { rewrite Hnum. intros name Hname. apply Hcols, elem_of_app. by left. }
  destruct (column_positions_is_Ok (categorical_features p) X) as [idxc Hidxc].
  { rewrite Hcat. intros name Hname. apply Hcols, elem_of_app. by right. }
  unfold transform. rewrite Hp. unfold ColumnTransformer_transform.
  rewrite Hidxn, Hidxc. simpl.
  assert (check_min_samples (rows X) = Ok ()) as -> by (by destruct (rows X)).
  simpl.
  unfold pd_DataFrame. rewrite decide_True; [by eexists|].
  apply column_positions_length in Hidxn, Hidxc.
  assert (length statsn = length (numerical_features p)) as Hlenn.
  { unfold statsn. by rewrite length_fmap, length_seq, Hnum. }
  assert (length statsc = length (categorical_features p)) as Hlenc.
  { unfold statsc. by rewrite length_fmap, length_seq, Hcat. }
  apply Forall_fmap, Forall_forall. intros r _. simpl.
  unfold transform_row. simpl. rewrite !length_app.
  rewrite scale_row_length.
  - rewrite !impute_row_length; rewrite ?pick_length; lia || done.
  - rewrite impute_row_length; rewrite ?pick_length; [|done|lia].
    rewrite length_fmap, length_fmap, length_seq. by apply n_valid_of_all.
  - rewrite impute_row_length; rewrite ?pick_length; [|done|lia].
    rewrite length_fmap, length_fmap, length_seq. by apply n_valid_of_all.
Qed.



Lemma sample_features_observed (name : string) :
  name ∈ numerical_features new_preprocessor
         ++ categorical_features new_preprocessor →
  ∃ pos, col_index name (columns sample_features) = Some pos ∧
    Exists (λ r, is_Some (cell_at pos r.2)) (rows sample_features).
Proof.
  intros Hname. simpl in Hname.
  repeat (apply elem_of_cons in Hname as [->|Hname];
          [eexists; split; [reflexivity|];
           apply Exists_cons_hd; eexists; vm_compute; reflexivity|]).
  by apply elem_of_nil in Hname.
Qed.

Lemma batch_has_columns (name : string) :
  name ∈ numerical_features new_preprocessor
         ++ categorical_features new_preprocessor →
  is_Some (col_index name (columns batch_with_missing)).
Proof.
  intros Hname. simpl in Hname.
  repeat (apply elem_of_cons in Hname as [->|Hname];
          [eexists; reflexivity|]).
  by apply elem_of_nil in Hname.
Qed.


(** On the sample: the batch comes back complete; the imputed age is the
    learned median 56 scaled with mean 52 and the stand-in scale 32.4, and
    the imputed ca and thal are the learned modes 0 and 2. *)
Example transform_batch_with_missing :
  match @fit toy_numpy new_preprocessor sample_features with
  | Ok p =>
      match transform p batch_with_missing with
      | Ok out =>
          Forall (λ r, Forall (λ c : cell, is_Some c) r.2) (rows out) ∧
          (∃ v, (rows out !! 0%nat) ≫= (λ r, r.2 !! 0%nat) = Some (Some v) ∧
                v == (56 - 52) / 32.4) ∧
          (rows out !! 0%nat) ≫= (λ r, r.2 !! 11%nat) = Some (Some 0) ∧
          (rows out !! 1%nat) ≫= (λ r, r.2 !! 12%nat) = Some (Some 2)
      | Err _ => False
      end
  | Err _ => False
  end.
Proof.
  vm_compute. split; [|split; [|split]].
  - repeat constructor; eexists; reflexivity.
  - eexists. split; [reflexivity|]. reflexivity.
  - reflexivity.
  - reflexivity.
Qed.

(** A column never observed at fit time is skipped by its imputer, and
    building the output frame then raises: [fit] succeeds, [transform]
    returns nothing. *)
Example transform_after_unobserved_column :
  match @fit toy_numpy new_preprocessor sample_without_ca with
  | Ok p =>
      transform p batch_with_missing
      = Err (ValueError "Shape of passed values does not match the columns")
  | Err _ => False
  end.
Proof. vm_compute. reflexivity. Qed.

(** A constant training column gets scale one: a missing value becomes
    zero, an observed value is only centred (age 63 against the constant 50
    gives 13), it is not forced to zero. *)
Example constant_column_is_centred :
  let X_train := {| columns := columns sample_features;
                    rows := fmap (λ r, (r.1, <[0%nat := Some 50]> r.2))
                              (rows sample_features) |} in
  let X := {| columns := columns sample_features;
              rows := take 1 (rows sample_features) |} in
  match @fit toy_numpy new_preprocessor X_train with
  | Ok p =>
      match transform p batch_with_missing, transform p X with
      | Ok out, Ok out' =>
          (∃ v, (rows out !! 0%nat) ≫= (λ r, r.2 !! 0%nat) = Some (Some v) ∧
                v == 0) ∧
          (∃ v, (rows out' !! 0%nat) ≫= (λ r, r.2 !! 0%nat) = Some (Some v) ∧
                v == 13)
      | _, _ => False
      end
  | Err _ => False
  end.
Proof.
  vm_compute. split; eexists; (split; [reflexivity|reflexivity]).
Qed.

(** ** The unpickler reads back what the pickler wrote *)




#[local] Arguments dump_imputer : simpl never.





(** * Further properties of the code *)

(** ** Splitting features and target *)

Lemma col_index_None (name : string) (cols : list string) :
  col_index name cols = None ↔ name ∉ cols.
Proof.
  induction cols as [|c cols IH]; simpl.
  - split; [intros _; apply not_elem_of_nil|done].
  - rewrite not_elem_of_cons. case_decide as Hc.
    + split; [done|]. intros [Hne _]. by subst.
    + destruct (col_index name cols); simpl.
      * split; [done|]. intros [_ Hn]. by apply IH in Hn.
      * split; [|done]. intros _. split; [done|]. by apply IH.
Qed.

Lemma col_index_Some (name : string) (cols : list string) (i : nat) :
  col_index name cols = Some i →
  cols !! i = Some name ∧ name ∉ take i cols.
Proof.
  revert i. induction cols as [|c cols IH]; intros i; simpl; [done|].
  case_decide as Hc.
  - intros [= <-]. subst. split; [done|]. apply not_elem_of_nil.
  - destruct (col_index name cols) as [j|]; simpl; [|done].
    intros [= <-]. destruct (IH j eq_refl) as [Hj Hpre]. split; [done|].
    simpl. rewrite not_elem_of_cons. done.
Qed.

Lemma delete_at_lookup_lt {A} (i k : nat) (l : list A) :
  (k < i)%nat → (i < length l)%nat → delete_at i l !! k = l !! k.
Proof.
  intros Hk Hi. unfold delete_at.
  rewrite lookup_app_l by (rewrite length_take; lia).
  by rewrite lookup_take_lt.
Qed.

Lemma delete_at_lookup_ge {A} (i k : nat) (l : list A) :
  (i ≤ k)%nat → (i < length l)%nat → delete_at i l !! k = l !! S k.
Proof.
  intros Hk Hi. unfold delete_at.
  rewrite lookup_app_r by (rewrite length_take; lia).
  rewrite length_take, lookup_drop. f_equal. lia.
Qed.

Lemma delete_at_length {A} (i : nat) (l : list A) :
  (i < length l)%nat → length (delete_at i l) = (length l - 1)%nat.
Proof.
  intros Hi. unfold delete_at. rewrite length_app, length_take, length_drop. lia.
Qed.

Lemma delete_at_NoDup (i : nat) (name : string) (cols : list string) :
  NoDup cols → cols !! i = Some name → name ∉ delete_at i cols.
Proof.
  intros Hnd Hi Hin. unfold delete_at in Hin.
  rewrite <- (take_drop_middle cols i name Hi) in Hnd.
  apply NoDup_app in Hnd as (_ & Hdisj & Hnd').
  apply NoDup_cons in Hnd' as [Hnotin _].
  apply elem_of_app in Hin as [Hin|Hin]; [|done].
  apply (Hdisj _ Hin). by left.
Qed.

(** X1.  [split_features_target] raises [KeyError] exactly when the
    target column is absent; otherwise the feature table keeps the index
    and the number of rows, each of its rows is the original row without
    the target cell, the label column has one entry per row, holding that
    cell, and with unique column names the target is no longer a column. *)
Theorem split_features_target_shape (df : DataFrame) (target_col : string) :
  (target_col ∉ columns df →
   split_features_target df target_col = Err (KeyError target_col)) ∧
  (target_col ∈ columns df →
   ∃ X y i,
     split_features_target df target_col = Ok (X, y) ∧
     columns df !! i = Some target_col ∧
     columns X = delete_at i (columns df) ∧
     length (columns X) = (length (columns df) - 1)%nat ∧
     (rows X).*1 = (rows df).*1 ∧
     length y = length (rows df) ∧
     (∀ k label r, rows df !! k = Some (label, r) →
        rows X !! k = Some (label, delete_at i r) ∧
        y !! k = Some (cell_at i r)) ∧
     (NoDup (columns df) → target_col ∉ columns X)).
Proof.
  unfold split_features_target. split.
  - intros Hout. apply col_index_None in Hout. by rewrite Hout.
  - intros Hin. destruct (col_index target_col (columns df)) as [i|] eqn:Hi.
    2: { apply col_index_None in Hi. done. }
    apply col_index_Some in Hi as [Hi _].
    eexists _, _, i. split; [reflexivity|]. simpl.
    split; [done|]. split; [done|].
    split; [apply delete_at_length; by eapply lookup_lt_Some|].
    split; [rewrite <- list_fmap_compose; by apply list_fmap_ext|].
    split; [by rewrite length_fmap|].
    split.
    + intros k label r Hk. rewrite !list_lookup_fmap, Hk. done.
    + intros Hnd. by eapply delete_at_NoDup.
Qed.

(** ** Cleaning twice *)

(** X2.  [clean_data] is idempotent: cleaning an already cleaned table
    drops nothing more. *)
Theorem clean_data_idempotent (df : DataFrame) :
  clean_data (clean_data df) = clean_data df.
Proof.
  unfold clean_data, dropna_thresh. simpl. f_equal.
  rewrite list_filter_filter. apply list_filter_iff. intros r. tauto.
Qed.

(** ** Column positions and the failures of [fit] *)

Lemma column_positions_Ok_iff (names : list string) (df : DataFrame) :
  is_Ok (column_positions names df) ↔ ∀ name, name ∈ names → name ∈ columns df.
Proof.
  split.
  - intros [idx Hidx] name Hname.
    apply list_elem_of_lookup in Hname as [j Hj].
    destruct (column_positions_lookup _ _ _ _ _ Hidx Hj) as (pos & Hpos & _).
    destruct (decide (name ∈ columns df)) as [|Hout]; [done|].
    apply col_index_None in Hout. congruence.
  - intros Hall. apply column_positions_is_Ok. intros name Hname.
    destruct (col_index name (columns df)) eqn:E; [done|].
    apply col_index_None in E. destruct E. by apply Hall.
Qed.

Lemma column_positions_Err (names : list string) (df : DataFrame) (e : exn) :
  column_positions names df = Err e → ∃ msg, e = ValueError msg.
Proof.
  apply mapR_Err_ValueError. intros name e'.
  destruct (col_index name (columns df)); [discriminate|].
  intros [= <-]. by eexists.
Qed.

Lemma fit_raises_ValueError `{Numpy} (self : HeartDiseasePreprocessor)
    (X : DataFrame) (e : exn) :
  fit self X = Err e → ∃ msg, e = ValueError msg.
Proof.
  unfold fit, ColumnTransformer_fit.
  destruct (column_positions (numerical_features self) X) as [tn|e1] eqn:E1;
    simpl; [|intros [= <-]; by eapply column_positions_Err].
  destruct (column_positions (categorical_features self) X) as [tc|e2] eqn:E2;
    simpl; [|intros [= <-]; by eapply column_positions_Err].
  destruct (rows X); simpl; [intros [= <-]; by eexists|].
  unfold check_min_features.
  destruct (numerical_features self), (n_valid _); simpl; try discriminate.
  intros [= <-]. by eexists.
Qed.

(** ** Rows are transformed one by one *)

Lemma transform_rows (p : HeartDiseasePreprocessor) (X out : DataFrame) :
  transform p X = Ok out →
  ∃ ct idxn idxc,
    pipeline p = Some ct ∧
    column_positions (numerical_features p) X = Ok idxn ∧
    column_positions (categorical_features p) X = Ok idxc ∧
    rows X ≠ [] ∧
    columns out = numerical_features p ++ categorical_features p ∧
    rows out = (λ r, (r.1, transform_row ct idxn idxc r.2)) <$> rows X ∧
    Forall (λ r, length (transform_row ct idxn idxc r.2)
                 = length (numerical_features p ++ categorical_features p))
      (rows X).
Proof.
  unfold transform. destruct (pipeline p) as [ct|]; [|discriminate].
  unfold ColumnTransformer_transform.
  destruct (column_positions (numerical_features p) X) as [idxn|];
    simpl; [|discriminate].
  destruct (column_positions (categorical_features p) X) as [idxc|];
    simpl; [|discriminate].
  destruct (rows X) as [|r0 rs] eqn:HX; simpl; [discriminate|].
  unfold pd_DataFrame. case_decide as Hshape; [|discriminate].
  intros [= <-]. exists ct, idxn, idxc. repeat split; try done.
  - simpl. f_equal.
    apply (zip_fst_fmap (λ r, transform_row ct idxn idxc r.2)).
  - change (Forall (λ r0 : list cell, length r0
                = length (numerical_features p ++ categorical_features p))
             ((λ r : nat * list cell, transform_row ct idxn idxc r.2)
                <$> (r0 :: rs))) in Hshape.
    by rewrite Forall_fmap in Hshape.
Qed.

(** X4.  [transform] works row by row: the output row of a batch at some
    position is exactly what [transform] returns for that row alone, so
    no row influences another row's output. *)
Theorem transform_row_by_row (p : HeartDiseasePreprocessor)
    (X out : DataFrame) (i label : nat) (r : list cell) :
  transform p X = Ok out →
  rows X !! i = Some (label, r) →
  ∃ r',
    rows out !! i = Some (label, r') ∧
    transform p {| columns := columns X; rows := [(label, r)] |}
    = Ok {| columns := columns out; rows := [(label, r')] |}.
Proof.
  intros Hout Hi.
  destruct (transform_rows p X out Hout)
    as (ct & idxn & idxc & Hp & Hn & Hc & _ & Hcols & Hrows & Hshape).
  exists (transform_row ct idxn idxc r). split.
  - rewrite Hrows, list_lookup_fmap, Hi. reflexivity.
  - rewrite Forall_lookup in Hshape. specialize (Hshape i _ Hi). simpl in Hshape.
    unfold transform. rewrite Hp. unfold ColumnTransformer_transform.
    change (column_positions (numerical_features p)
              {| columns := columns X; rows := [(label, r)] |})
      with (column_positions (numerical_features p) X).
    change (column_positions (categorical_features p)
              {| columns := columns X; rows := [(label, r)] |})
      with (column_positions (categorical_features p) X).
    rewrite Hn, Hc. simpl. unfold pd_DataFrame.
    rewrite decide_True by (by repeat constructor). by rewrite Hcols.
Qed.

Lemma transform_row_by_row_witness :
  ∃ p out label r r',
    @fit toy_numpy new_preprocessor sample_features = Ok p ∧
    transform p batch_with_missing = Ok out ∧
    rows batch_with_missing !! 1%nat = Some (label, r) ∧
    rows out !! 1%nat = Some (label, r') ∧
    transform p {| columns := columns batch_with_missing; rows := [(label, r)] |}
    = Ok {| columns := columns out; rows := [(label, r')] |}.
Proof.
  destruct (@fit toy_numpy new_preprocessor sample_features) as [p|e] eqn:Hfit;
    [|vm_compute in Hfit; discriminate Hfit].
  destruct (transform p batch_with_missing) as [out|e] eqn:Hout.
  2: { vm_compute in Hfit. injection Hfit as <-.
       vm_compute in Hout. discriminate Hout. }
  destruct (rows batch_with_missing !! 1%nat) as [[label r]|] eqn:Hi;
    [|discriminate Hi].
  destruct (transform_row_by_row p batch_with_missing out 1 label r Hout Hi)
    as (r' & Hr' & Hone).
  exists p, out, label, r, r'.
  split; [reflexivity|]. split; [exact Hout|]. split; [reflexivity|].
  split; [exact Hr'|exact Hone].
Defined.

Lemma transform_raises_ValueError (p : HeartDiseasePreprocessor)
    (X : DataFrame) (e : exn) :
  is_Some (pipeline p) → transform p X = Err e → ∃ msg, e = ValueError msg.
Proof.
  intros [ct Hp]. unfold transform. rewrite Hp.
  unfold ColumnTransformer_transform.
  destruct (column_positions (numerical_features p) X) as [idxn|e1] eqn:E1;
    simpl; [|intros [= <-]; by eapply column_positions_Err].
  destruct (column_positions (categorical_features p) X) as [idxc|e2] eqn:E2;
    simpl; [|intros [= <-]; by eapply column_positions_Err].
  destruct (rows X); simpl; [intros [= <-]; by eexists|].
  unfold pd_DataFrame. case_decide; [discriminate|].
  intros [= <-]. by eexists.
Qed.

(** ** The scaling law *)


Lemma Qsum_scale {A} (c : Q) (f : A → Q) (l : list A) :
  Qsum ((λ x, f x * c) <$> l) == Qsum (f <$> l) * c.
Proof.
  induction l as [|x l IH]; [unfold Qsum; simpl; ring|].
  rewrite !fmap_cons, !Qsum_cons, IH. ring.
Qed.

Lemma Qnat_S (n : nat) : Qnat (S n) == 1 + Qnat n.
Proof. unfold Qnat, Qeq, Qplus, inject_Z. simpl. lia. Qed.

Lemma Qsum_shift (m : Q) (l : list Q) :
  Qsum ((λ x, x - m) <$> l) == Qsum l - Qnat (length l) * m.
Proof.
  induction l as [|x l IH]; [unfold Qsum, Qnat; simpl; ring|].
  rewrite fmap_cons, !Qsum_cons, IH. cbn [length]. rewrite Qnat_S. ring.
Qed.

Lemma mean_times_length (l : list Q) :
  l ≠ [] → Qnat (length l) * mean l == Qsum l.
Proof.
  intros Hne. unfold mean.
  assert (0 < Qnat (length l)) by (apply Qnat_pos; by destruct l).
  field. lra.
Qed.

(** Centring a column on its mean and dividing by any scale gives a
    column of mean zero. *)
Lemma standardized_mean (s : Q) (l : list Q) :
  l ≠ [] → mean ((λ x, (x - mean l) / s) <$> l) == 0.
Proof.
  intros Hne. unfold mean at 1. rewrite length_fmap.
  assert (Qsum ((λ x, (x - mean l) / s) <$> l) == 0) as ->.
  { unfold Qdiv. rewrite (Qsum_scale (/ s) (λ x, x - mean l)).
    rewrite Qsum_shift, mean_times_length by done. ring. }
  unfold Qdiv. ring.
Qed.


(** The numerical block of [fit_transform]: column [j] of the output holds
    the imputed training column, centred on its mean and divided by its
    scale. *)
Lemma fit_transform_numerical_column `{Numpy} (self p : HeartDiseasePreprocessor)
    (X Xt : DataFrame) (j : nat) (name : string) :
  fit_transform self X = Ok (p, Xt) →
  numerical_features self !! j = Some name →
  ∃ pos med col ct,
    col_index name (columns X) = Some pos ∧
    median (observed ((λ r : nat * list cell, cell_at pos r.2) <$> rows X))
      = Some med ∧
    col = default med <$> ((λ r : nat * list cell, cell_at pos r.2) <$> rows X) ∧
    col ≠ [] ∧
    pipeline p = Some ct ∧
    mean_ (numerical_scaler ct) !! j = Some (mean col) ∧
    var_ (numerical_scaler ct) !! j = Some (variance col) ∧
    column j (rows Xt).*2 =
      (λ x, Some ((x - mean col)
                  / handle_zeros_in_scale (np_sqrt (variance col)))) <$> col.
Proof.
  intros [Hfit Htr]%fit_transform_Ok Hname.
  destruct (fit_state self X p Hfit)
    as (tn & tc & Htn & Htc & HX & Hnum & Hcat & Hp).
  cbv zeta in Hp.
  destruct (transform_rows p X Xt Htr)
    as (ct & idxn & idxc & Hp' & Hn & Hc & _ & _ & Hrows & Hshape).
  rewrite Hnum, Htn in Hn. injection Hn as <-.
  rewrite Hcat, Htc in Hc. injection Hc as <-.
  rewrite Hp in Hp'. injection Hp' as <-.
  set (Mn := (λ r : nat * list cell, pick tn r.2) <$> rows X) in *.
  set (statsn := (λ j, median (observed (column j Mn)))
                   <$> seq 0 (length (numerical_features self))) in *.
  set (cols := (λ j, observed (column j (impute_row statsn <$> Mn)))
                 <$> seq 0 (n_valid statsn)) in *.
  set (ct := {| numerical_imputer := _ |}) in *.
  destruct (column_positions_lookup _ _ _ _ _ Htn Hname) as (pos & Hpos & Hl).
  assert (length statsn = length (numerical_features p)) as Hlenn.
  { unfold statsn. by rewrite length_fmap, length_seq, Hnum. }
  assert (length (statistics_ (categorical_imputer ct))
          = length (categorical_features p)) as Hlenc.
  { simpl. by rewrite length_fmap, length_seq, Hcat. }
  (* no column was skipped *)
  assert (Forall (λ c : cell, is_Some c) statsn ∧
          ∀ r, r ∈ rows X →
               length (scale_row (mean_ (numerical_scaler ct))
                         (scale_ (numerical_scaler ct))
                         (impute_row statsn (pick tn r.2)))
               = length (numerical_features p)) as [Hvn Hscaled].
  { rewrite Forall_forall in Hshape. split.
    - destruct (rows X) as [|r0 rs] eqn:E; [done|].
      assert (r0 ∈ r0 :: rs) as Hr0 by (by left).
      specialize (Hshape r0 Hr0). rewrite length_app in Hshape.
      by destruct (transform_row_shape ct tn tc r0.2 _ _ Hlenn Hlenc Hshape).
    - intros r Hr. specialize (Hshape r Hr). rewrite length_app in Hshape.
      by destruct (transform_row_shape ct tn tc r.2 _ _ Hlenn Hlenc Hshape)
        as (_ & _ & ?). }
  pose proof (n_valid_of_all _ Hvn) as Hnv.
  assert (j < length statsn)%nat as Hj.
  { rewrite Hlenn, Hnum. by eapply lookup_lt_Some. }
  destruct (lookup_lt_is_Some_2 statsn j Hj) as [s Hs].
  pose proof Hvn as Hvn'. rewrite Forall_lookup in Hvn'.
  destruct (Hvn' j s Hs) as [med ->].
  assert (column j Mn = (λ r : nat * list cell, cell_at pos r.2) <$> rows X)
    as HMn by (by apply column_of_picks).
  assert (observed (column j (impute_row statsn <$> Mn))
          = default med <$> ((λ r : nat * list cell, cell_at pos r.2) <$> rows X))
    as Hcol.
  { rewrite (imputed_column statsn Mn j med), observed_fill, HMn; try done.
    unfold Mn. apply Forall_fmap, Forall_forall. intros r _. simpl.
    rewrite pick_length, Hlenn, Hnum. by apply column_positions_length in Htn. }
  assert (cols !! j = Some (observed (column j (impute_row statsn <$> Mn))))
    as Hcols.
  { unfold cols. rewrite list_lookup_fmap, lookup_seq_lt by lia. reflexivity. }
  set (col := default med <$> _) in *.
  exists pos, med, col, ct. split; [done|]. split.
  { unfold statsn in Hs.
    rewrite list_lookup_fmap, lookup_seq_lt in Hs
      by (rewrite Hlenn, Hnum in Hj; exact Hj).
    simpl in Hs. rewrite HMn in Hs. by injection Hs. }
  split; [done|]. split.
  { unfold col. rewrite <- list_fmap_compose. by destruct (rows X). }
  split; [done|].
  split; [simpl; by rewrite list_lookup_fmap, Hcols, Hcol|].
  split; [simpl; by rewrite list_lookup_fmap, Hcols, Hcol|].
  clear Hvn'.
  rewrite Hcol in Hcols.
  remember (mean col) as m eqn:Hm.
  remember (handle_zeros_in_scale (np_sqrt (variance col))) as sc eqn:Hsc.
  rewrite Hrows. unfold column, col.
  rewrite <- !list_fmap_compose. apply list_fmap_ext. intros k r Hk.
  unfold compose. simpl. unfold cell_at at 1.
  assert (transform_row ct tn tc r.2 !! j =
          Some (scale_cell m sc (fill med (cell_at pos r.2)))) as ->.
  { unfold transform_row. rewrite lookup_app_l.
    2: { rewrite Hscaled by (by eapply list_elem_of_lookup_2).
         rewrite <- Hlenn. exact Hj. }
    apply scale_row_lookup; simpl.
    - by rewrite list_lookup_fmap, Hcols, Hm.
    - by rewrite list_lookup_fmap, Hcols, Hsc.
    - apply impute_row_lookup; [done|done|]. by apply pick_lookup. }
  rewrite fill_default. reflexivity.
Qed.

Lemma observed_Some_fmap {A} (g : A → Q) (l : list A) :
  observed ((λ x, Some (g x)) <$> l) = g <$> l.
Proof.
  unfold observed. induction l as [|x l IH]; [done|].
  rewrite !fmap_cons. simpl. by f_equal.
Qed.

(** X6.  After [fit_transform] on a table, every numerical column of the
    output has one value per row and mean zero. *)
Theorem fit_transform_centres_numerical_columns `{Numpy}
    (self p : HeartDiseasePreprocessor) (X Xt : DataFrame)
    (j : nat) (name : string) :
  fit_transform self X = Ok (p, Xt) →
  numerical_features self !! j = Some name →
  length (observed (column j (rows Xt).*2)) = length (rows X) ∧
  mean (observed (column j (rows Xt).*2)) == 0.
Proof.
  intros Hft Hname.
  destruct (fit_transform_numerical_column self p X Xt j name Hft Hname)
    as (pos & med & col & ct & _ & _ & Hcol & Hne & _ & _ & _ & ->).
  rewrite observed_Some_fmap. split.
  - rewrite length_fmap, Hcol, !length_fmap. reflexivity.
  - by apply standardized_mean.
Qed.

Lemma fit_transform_centres_numerical_columns_witness :
  ∃ p Xt,
    @fit_transform toy_numpy new_preprocessor sample_features = Ok (p, Xt) ∧
    length (observed (column 0 (rows Xt).*2)) = length (rows sample_features) ∧
    mean (observed (column 0 (rows Xt).*2)) == 0.
Proof.
  destruct (@fit_transform toy_numpy new_preprocessor sample_features)
    as [[p Xt]|e] eqn:Hft; [|vm_compute in Hft; discriminate Hft].
  exists p, Xt. split; [reflexivity|].
  apply (@fit_transform_centres_numerical_columns toy_numpy new_preprocessor
           p sample_features Xt 0 "age" Hft).
  reflexivity.
Defined.



(** ** Ranges of the metrics *)

Lemma Qnat_le (a b : nat) : (a ≤ b)%nat → Qnat a <= Qnat b.
Proof. intros Hab. unfold Qnat, Qle, inject_Z. simpl. lia. Qed.

Lemma Qnat_nonneg (a : nat) : 0 <= Qnat a.
Proof. unfold Qnat, Qle, inject_Z. simpl. lia. Qed.

Lemma Qdiv_unit (a b : Q) : 0 <= a → a <= b → unit_interval (a / b).
Proof.
  intros Ha Hab. destruct (Qeq_dec b 0) as [Hb|Hb].
  - assert (a / b == 0) as Hz.
    { assert (a == 0) as -> by lra. unfold Qdiv. ring. }
    unfold unit_interval. rewrite Hz. split; lra.
  - assert (0 < b) by lra. split.
    + apply Qle_shift_div_l; lra.
    + apply Qle_shift_div_r; lra.
Qed.

Lemma safe_div_unit (a b : Q) : 0 <= a → a <= b → unit_interval (safe_div a b).
Proof.
  intros Ha Hab. unfold safe_div. case_decide; [split; lra|by apply Qdiv_unit].
Qed.

Lemma filter_and_length {A} (P R : A → Prop) `{∀ x, Decision (P x)}
    `{∀ x, Decision (R x)} (l : list A) :
  (length (filter (λ x, P x ∧ R x) l) ≤ length (filter R l))%nat ∧
  (length (filter (λ x, P x ∧ R x) l) ≤ length (filter P l))%nat.
Proof.
  split.
  - rewrite <- (list_filter_filter P R). apply length_filter.
  - rewrite (list_filter_iff (λ x, P x ∧ R x) (λ x, R x ∧ P x)) by (intros; tauto).
    rewrite <- (list_filter_filter R P). apply length_filter.
Qed.

Lemma precision_of_unit (pairs : list (Q * Q)) : unit_interval (precision_of pairs).
Proof.
  apply safe_div_unit; [apply Qnat_nonneg|]. apply Qnat_le.
  apply (filter_and_length (λ p : Q * Q, p.1 == 1) (λ p, p.2 == 1)).
Qed.

Lemma recall_of_unit (pairs : list (Q * Q)) : unit_interval (recall_of pairs).
Proof.
  apply safe_div_unit; [apply Qnat_nonneg|]. apply Qnat_le.
  apply (filter_and_length (λ p : Q * Q, p.1 == 1) (λ p, p.2 == 1)).
Qed.

Lemma harmonic_unit (p r : Q) :
  unit_interval p → unit_interval r → unit_interval (safe_div (2 * p * r) (p + r)).
Proof.
  intros [Hp0 Hp1] [Hr0 Hr1].
  assert (0 <= p * r) by (apply Qmult_le_0_compat; lra).
  assert (0 <= p * (1 - r)) by (apply Qmult_le_0_compat; lra).
  assert (0 <= r * (1 - p)) by (apply Qmult_le_0_compat; lra).
  apply safe_div_unit; lra.
Qed.

Lemma Qsum_bounds {A} (f : A → Q) (c : Q) (l : list A) :
  (∀ x, 0 <= f x ∧ f x <= c) →
  0 <= Qsum (f <$> l) ∧ Qsum (f <$> l) <= Qnat (length l) * c.
Proof.
  intros Hf. induction l as [|x l [IH1 IH2]].
  - change (Qsum (f <$> [])) with 0. change (Qnat (length (@nil A))) with 0.
    split; lra.
  - rewrite fmap_cons, Qsum_cons. cbn [length]. rewrite Qnat_S.
    destruct (Hf x). split; lra.
Qed.

Lemma ranked_pairs_unit (pos neg : list Q) :
  unit_interval
    (Qsum ((λ sp, Qsum ((λ sn, if decide (sn < sp) then 1
                               else if decide (sn == sp) then 1 / 2
                               else 0) <$> neg)) <$> pos)
     / (Qnat (length pos) * Qnat (length neg))).
Proof.
  assert (∀ sp, 0 <= Qsum ((λ sn, if decide (sn < sp) then 1
                                  else if decide (sn == sp) then 1 / 2
                                  else 0) <$> neg) ∧
                Qsum ((λ sn, if decide (sn < sp) then 1
                             else if decide (sn == sp) then 1 / 2
                             else 0) <$> neg) <= Qnat (length neg)) as Hinner.
  { intros sp.
    pose proof (Qsum_bounds (λ sn, if decide (sn < sp) then 1
                                   else if decide (sn == sp) then 1 / 2 else 0)
                  1 neg) as [H0 H1].
    { intros sn. repeat case_decide; split;
        first [lra | (unfold Qle; simpl; lia)]. }
    split; [exact H0|lra]. }
  apply Qdiv_unit; by apply (Qsum_bounds _ (Qnat (length neg))).
Qed.

Lemma auc_of_unit (pairs : list (Q * Q)) : unit_interval (auc_of pairs).
Proof. unfold auc_of. apply ranked_pairs_unit. Qed.

Lemma accuracy_unit (pairs : list (Q * Q)) :
  unit_interval (Qnat (length (filter (λ p, p.1 == p.2) pairs))
                 / Qnat (length pairs)).
Proof.
  apply Qdiv_unit; [apply Qnat_nonneg|]. apply Qnat_le, length_filter.
Qed.

(** X8.  On labels that are not of a single class, when
    [_calculate_metrics] returns, the dictionary has exactly the five names
    accuracy, precision, recall, f1_score and roc_auc, and each value lies
    between 0 and 1. *)
Theorem calculate_metrics_range (y_true : list cell)
    (y_pred y_pred_proba : list Q) (metrics : gmap string Q) :
  ¬ single_class y_true →
  _calculate_metrics y_true y_pred y_pred_proba = Ok metrics →
  (∀ name, is_Some (metrics !! name) ↔
           name ∈ ["accuracy"; "precision"; "recall"; "f1_score"; "roc_auc"]) ∧
  (∀ name v, metrics !! name = Some v → 0 <= v ∧ v <= 1).
Proof.
  intros _. unfold _calculate_metrics, precision_score, recall_score, f1_score.
  destruct (accuracy_score y_true y_pred) as [a|] eqn:Ea; simpl; [|discriminate].
  destruct (check_set_wise_labels y_true y_pred) as [pairs|]; simpl;
    [|discriminate].
  destruct (roc_auc_score y_true y_pred_proba) as [auc|] eqn:Eroc; simpl;
    [|discriminate].
  intros [= <-]. split.
  - intros name.
    rewrite !lookup_insert_is_Some, lookup_empty, !elem_of_cons, elem_of_nil.
    split.
    + intros Hn. repeat (destruct Hn as [Hn|[_ Hn]]; [subst; tauto|]).
      destruct (is_Some_None Hn).
    + intros Hn.
      repeat (destruct Hn as [->|Hn];
              [repeat first [left; reflexivity | right; split; [discriminate|]]|]).
      done.
  - intros name v.
    assert (unit_interval (default 0 a)) as Hacc.
    { apply accuracy_score_Ok in Ea as (_ & ys & _ & _ & _ & ->).
      destruct (zip ys y_pred) as [|pr prs] eqn:Hz; [split; simpl; lra|].
      apply accuracy_unit. }
    assert (unit_interval auc) as Hauc.
    { apply roc_auc_score_Ok in Eroc as (ys & _ & _ & _ & _ & ->).
      apply auc_of_unit. }
    pose proof (precision_of_unit pairs). pose proof (recall_of_unit pairs).
    pose proof (harmonic_unit _ _ (precision_of_unit pairs) (recall_of_unit pairs)).
    rewrite !lookup_insert_Some, lookup_empty.
    intros Hv. repeat (destruct Hv as [[_ <-]|[_ Hv]]; [done|]). done.
Qed.

Lemma four_labels_two_classes : ¬ single_class four_labels.
Proof.
  intros (c & _ & Hall). unfold four_labels in Hall.
  apply Forall_cons_1 in Hall as [(v1 & [= <-] & H1) Hall].
  apply Forall_cons_1 in Hall as [(v0 & [= <-] & H0) _].
  rewrite <- H0 in H1. discriminate H1.
Qed.

Lemma calculate_metrics_range_witness :
  ∃ metrics,
    _calculate_metrics four_labels [1; 0; 1; 0] [0.9; 0.2; 0.4; 0.6] = Ok metrics ∧
    (∀ name, is_Some (metrics !! name) ↔
       name ∈ ["accuracy"; "precision"; "recall"; "f1_score"; "roc_auc"]) ∧
    (∀ name v, metrics !! name = Some v → 0 <= v ∧ v <= 1).
Proof.
  destruct (_calculate_metrics four_labels [1; 0; 1; 0] [0.9; 0.2; 0.4; 0.6])
    as [metrics|e] eqn:Hm.
  2: { apply (f_equal is_ok) in Hm. vm_compute in Hm. discriminate Hm. }
  exists metrics. split; [reflexivity|].
  exact (calculate_metrics_range _ _ _ _ four_labels_two_classes Hm).
Defined.

(** ** When the metric evaluation succeeds *)

(** X10.  On labels that are not of a single class, [_calculate_metrics]
    returns a dictionary exactly when the predictions and the
    probabilities have the length of [y_true], [y_true] has no missing
    value and holds exactly two distinct integer labels, [1] being one of
    them, and every prediction is one of these two labels; in every other
    case it raises. *)
Theorem calculate_metrics_succeeds_iff (y_true : list cell)
    (y_pred y_pred_proba : list Q) :
  ¬ single_class y_true →
  (is_Ok (_calculate_metrics y_true y_pred y_pred_proba) ↔
   length y_pred = length y_true ∧
   length y_pred_proba = length y_true ∧
   ∃ ys, y_true = Some <$> ys ∧ Forall is_integral ys ∧
         length (unique_labels ys) = 2%nat ∧
         Exists (λ y, y == 1) ys ∧
         Forall (λ p, Exists (λ y, y == p) ys) y_pred).
Proof.
  intros _. split.
  - intros [m Hm]. unfold _calculate_metrics, precision_score in Hm.
    destruct (accuracy_score y_true y_pred) as [a|]; simpl in Hm; [|discriminate].
    destruct (check_set_wise_labels y_true y_pred) as [pairs|] eqn:Ep;
      simpl in Hm; [|discriminate].
    destruct (recall_score y_true y_pred); simpl in Hm; [|discriminate].
    destruct (f1_score y_true y_pred); simpl in Hm; [|discriminate].
    destruct (roc_auc_score y_true y_pred_proba) as [auc|] eqn:Eroc;
      simpl in Hm; [|discriminate].
    apply roc_auc_score_Ok in Eroc as (ys & -> & Hy & H2 & Hlen & _).
    apply check_set_wise_labels_Ok
      in Ep as (Hlenp & ys' & Heq & _ & _ & Hp & Hle & Hpos).
    apply (inj (fmap Some)) in Heq as <-.
    pose proof (unique_labels_app_l ys y_pred) as Hl.
    assert (Forall (λ p, Exists (λ y, y == p) ys) y_pred) as Hamong.
    { apply unique_labels_app_same. lia. }
    split; [done|]. split; [done|]. exists ys. repeat split; try done.
    destruct Hpos as [H1|Hlt]; [|lia].
    apply one_elem_of_unique_labels, Exists_app in H1 as [H1|H1]; [done|].
    apply Exists_exists in H1 as (p & Hp1 & Hp1').
    rewrite Forall_forall in Hamong.
    eapply Exists_impl; [exact (Hamong p Hp1)|].
    intros y Hyp. simpl in Hyp. by rewrite Hyp.
  - intros (Hlenp & Hlen & ys & -> & Hy & H2 & H1 & Hamong).
    assert (Forall is_integral y_pred) as Hp.
    { rewrite Forall_forall in Hamong, Hy. apply Forall_forall. intros p Hin.
      destruct (proj1 (Exists_exists _ _) (Hamong p Hin)) as (y & Hyin & Hyp).
      eapply is_integral_proper; [exact Hyp|]. by apply Hy. }
    pose proof (proj2 (unique_labels_app_same ys y_pred) Hamong) as Hu.
    assert (check_set_wise_labels (Some <$> ys) y_pred = Ok (zip ys y_pred))
      as Hsw.
    { apply check_set_wise_labels_Ok. split; [done|]. exists ys.
      repeat split; try done; [lia|]. left.
      apply one_elem_of_unique_labels, Exists_app. by left. }
    assert (∃ a, accuracy_score (Some <$> ys) y_pred = Ok a) as [a Ha].
    { eexists. apply accuracy_score_Ok. split; [done|]. exists ys.
      repeat split; done. }
    unfold _calculate_metrics, precision_score, recall_score, f1_score.
    rewrite Ha, Hsw. simpl.
    rewrite (proj2 (roc_auc_score_Ok (Some <$> ys) y_pred_proba
                      (auc_of (zip ys y_pred_proba)))).
    + simpl. by eexists.
    + exists ys. repeat split; done.
Qed.

Lemma calculate_metrics_succeeds_iff_witness :
  is_Ok (_calculate_metrics four_labels [1; 0; 1; 0] [0.9; 0.2; 0.4; 0.6]) ↔
  length [1; 0; 1; 0] = length four_labels ∧
  length [0.9; 0.2; 0.4; 0.6] = length four_labels ∧
  ∃ ys, four_labels = Some <$> ys ∧ Forall is_integral ys ∧
        length (unique_labels ys) = 2%nat ∧
        Exists (λ y, y == 1) ys ∧
        Forall (λ p, Exists (λ y, y == p) ys) [1; 0; 1; 0].
Proof.
  apply (calculate_metrics_succeeds_iff four_labels [1; 0; 1; 0]
           [0.9; 0.2; 0.4; 0.6]).
  exact four_labels_two_classes.
Defined.

(** ** Recording a trained model *)

Lemma dict_get_set_eq {V} (k : string) (v : V) (d : list (string * V)) :
  dict_get k (dict_set k v d) = Ok v.
Proof.
  induction d as [|[k' v'] d IH]; simpl.
  - by rewrite decide_True.
  - case_decide; simpl; [by rewrite decide_True|by rewrite decide_False].
Qed.

Lemma dict_get_set_ne {V} (k k' : string) (v : V) (d : list (string * V)) :
  k' ≠ k → dict_get k' (dict_set k v d) = dict_get k' d.
Proof.
  intros Hne. induction d as [|[k0 v0] d IH]; simpl.
  - by rewrite decide_False.
  - case_decide as Hk; simpl.
    + subst. by rewrite !decide_False by done.
    + case_decide; [done|exact IH].
Qed.

Lemma dict_set_length {V} (k : string) (v : V) (d : list (string * V)) :
  length (dict_set k v d)
  = if decide (k ∈ d.*1) then length d else S (length d).
Proof.
  rewrite <- (length_fmap fst (dict_set k v d)), dict_set_keys.
  case_decide; [by rewrite length_fmap|].
  rewrite length_app, length_fmap. simpl. lia.
Qed.

(** X11.  A successful training records the model and its metrics under
    the run name and touches no other entry: a name trained again keeps a
    single entry holding the last model and metrics, a new name adds one
    entry; the two dictionaries stay aligned; and the recorded metrics are
    exactly the five test metrics and the two cross-validation
    summaries. *)
Theorem training_records_under_its_name `{Numpy} `{Estimators} `{Joblib}
    (run_name : string) (estimator_fit : DataFrame → list cell → result Model)
    (self t : ModelTrainer) (X_train X_test : DataFrame)
    (y_train y_test : list cell) (w : World)
    (model : Model) (metrics : gmap string Q) :
  trainer_wf self →
  (run (train_and_record run_name estimator_fit self
          X_train y_train X_test y_test) w).1 = Ok (t, (model, metrics)) →
  dict_get run_name (models t) = Ok model ∧
  dict_get run_name (results t) = Ok metrics ∧
  (∀ other, other ≠ run_name →
     dict_get other (models t) = dict_get other (models self) ∧
     dict_get other (results t) = dict_get other (results self)) ∧
  trainer_wf t ∧
  length (results t)
    = (if decide (run_name ∈ (results self).*1) then length (results self)
       else S (length (results self))) ∧
  (∀ name, is_Some (metrics !! name) ↔
     name ∈ ["accuracy"; "precision"; "recall"; "f1_score"; "roc_auc";
             "cv_roc_auc_mean"; "cv_roc_auc_std"]).
Proof.
  intros Hwf Hrun.
  pose proof (train_and_record_wf _ _ _ _ _ _ _ _ _ _ Hwf Hrun) as Hwf'.
  rewrite train_outcome in Hrun.
  destruct (fit_and_evaluate estimator_fit X_train y_train X_test y_test)
    as [[model' metrics']|] eqn:Hfe; [|discriminate].
  simpl in Hrun. injection Hrun as <- <- <-.
  split; [apply dict_get_set_eq|]. split; [apply dict_get_set_eq|].
  split; [intros other Hne; split; by apply dict_get_set_ne|].
  split; [done|]. split; [apply dict_set_length|].
  intros name. by eapply fit_and_evaluate_metric_names.
Qed.

Lemma training_records_under_its_name_witness :
  ∃ t model metrics,
    (@run token_joblib _
       (@train_and_record toy_numpy (toy_estimators working_fit working_fit)
          token_joblib "logistic_regression" working_fit new_trainer
          four_scaled four_labels four_scaled four_labels)
       (@world_with token_joblib sample_frame)).1 = Ok (t, (model, metrics)) ∧
    dict_get "logistic_regression" (models t) = Ok model ∧
    dict_get "logistic_regression" (results t) = Ok metrics ∧
    length (results t) = 1%nat.
Proof.
  destruct (@run token_joblib _
       (@train_and_record toy_numpy (toy_estimators working_fit working_fit)
          token_joblib "logistic_regression" working_fit new_trainer
          four_scaled four_labels four_scaled four_labels)
       (@world_with token_joblib sample_frame)).1
    as [[t [model metrics]]|e] eqn:Hrun.
  2: { apply (f_equal is_ok) in Hrun. vm_compute in Hrun. discriminate Hrun. }
  destruct (@training_records_under_its_name toy_numpy
               (toy_estimators working_fit working_fit) token_joblib
               "logistic_regression" working_fit new_trainer t
               four_scaled four_scaled four_labels four_labels
               (@world_with token_joblib sample_frame) model metrics)
    as (R1 & R2 & _ & _ & R3 & _).
  - split; [reflexivity|constructor].
  - exact Hrun.
  - exists t, model, metrics. split; [reflexivity|].
    split; [exact R1|]. split; [exact R2|exact R3].
Defined.

(** ** Outcomes of the training script *)

(** Selection between the two candidates of the script. *)
Lemma select_between_two (metric : string) (m1 m2 : Model)
    (ms1 ms2 : gmap string Q) (a1 a2 : Q) :
  ms1 !! metric = Some a1 → ms2 !! metric = Some a2 →
  select_best_model
    {| models := dict_set "random_forest" m2
                   (dict_set "logistic_regression" m1 []);
       results := dict_set "random_forest" ms2
                    (dict_set "logistic_regression" ms1 []) |} metric
  = Ok (if decide (a1 < a2) then (m2, "random_forest")
        else (m1, "logistic_regression")).
Proof.
  intros H1 H2. unfold select_best_model. cbn [results models dict_set].
  rewrite !decide_False by discriminate. cbn [py_max max_loop fst snd].
  unfold metric_get. rewrite H1. simpl. rewrite H2. simpl.
  case_decide; simpl.
  - by rewrite H2.
  - by rewrite H1.
Qed.

(** A metric that the first candidate lacks cannot be selected on. *)
Lemma select_between_two_missing (metric : string) (m1 m2 : Model)
    (ms1 ms2 : gmap string Q) :
  ms1 !! metric = None →
  select_best_model
    {| models := dict_set "random_forest" m2
                   (dict_set "logistic_regression" m1 []);
       results := dict_set "random_forest" ms2
                    (dict_set "logistic_regression" ms1 []) |} metric
  = Err (KeyError metric).
Proof.
  intros H1. unfold select_best_model. cbn [results models dict_set].
  rewrite !decide_False by discriminate. cbn [py_max max_loop fst snd].
  unfold metric_get. by rewrite H1.
Qed.

Lemma roc_auc_recorded `{Numpy} `{Estimators}
    estimator_fit X_train y_train X_test y_test model metrics :
  fit_and_evaluate estimator_fit X_train y_train X_test y_test
    = Ok (model, metrics) →
  ∃ a, metrics !! "roc_auc" = Some a.
Proof.
  intros Hfe.
  apply (fit_and_evaluate_metric_names _ _ _ _ _ _ _ "roc_auc" Hfe).
  repeat first [by left | right].
Qed.

(** X12.  When the data is read, prepared and split and both candidates
    train, the script succeeds: selection cannot fail, nothing is logged,
    both MLflow runs were started, and the artifacts are the fitted
    preprocessor and the model with the larger test [roc_auc], the
    logistic regression unless the random forest is strictly better. *)
Theorem main_succeeds_with_best_model `{Numpy} `{Estimators} `{Joblib}
    (w : World) (df X : DataFrame) (y : list cell)
    (p : HeartDiseasePreprocessor) (Xt X_train X_test : DataFrame)
    (y_train y_test : list cell) (t1 t2 : ModelTrainer)
    (m1 m2 : Model) (ms1 ms2 : gmap string Q) :
  csv_files w !! raw_data_path = Some df →
  split_features_target (clean_data df) "target" = Ok (X, y) →
  fit_transform new_preprocessor X = Ok (p, Xt) →
  train_test_split Xt y test_size random_state
    = Ok (X_train, X_test, y_train, y_test) →
  (run (train_logistic_regression new_trainer X_train y_train X_test y_test) w).1
    = Ok (t1, (m1, ms1)) →
  (run (train_random_forest t1 X_train y_train X_test y_test) w).1
    = Ok (t2, (m2, ms2)) →
  ∃ a1 a2,
    ms1 !! "roc_auc" = Some a1 ∧ ms2 !! "roc_auc" = Some a2 ∧
    select_best_model t2 "roc_auc"
      = Ok (if decide (a1 < a2) then (m2, "random_forest")
            else (m1, "logistic_regression")) ∧
    run main w =
    (Ok true,
     {| csv_files := csv_files w;
        files := <[model_path := dumps_model (if decide (a1 < a2) then m2 else m1)]>
                   (<[preprocessor_path := dumps_preprocessor p]> (files w));
        mlflow_runs := mlflow_runs w ++ ["logistic_regression"; "random_forest"];
        error_log := error_log w |}).
Proof.
  intros Hcsv Hsplit Hfit Htts Hlr Hrf.
  unfold train_logistic_regression, train_random_forest in *.
  rewrite train_outcome in Hlr.
  destruct (fit_and_evaluate LogisticRegression_fit _ _ _ _)
    as [[m1' ms1']|] eqn:E1; [|discriminate].
  simpl in Hlr. injection Hlr as <- <- <-.
  rewrite train_outcome in Hrf.
  destruct (fit_and_evaluate RandomForestClassifier_fit _ _ _ _)
    as [[m2' ms2']|] eqn:E2; [|discriminate].
  simpl in Hrf. injection Hrf as <- <- <-.
  destruct (roc_auc_recorded _ _ _ _ _ _ _ E1) as [a1 Ha1].
  destruct (roc_auc_recorded _ _ _ _ _ _ _ E2) as [a2 Ha2].
  exists a1, a2. split; [done|]. split; [done|].
  pose proof (select_between_two "roc_auc" m1' m2' ms1' ms2' a1 a2 Ha1 Ha2)
    as Hsel.
  split; [exact Hsel|].
  rewrite run_main, (run_main_body w df X y p Xt) by done.
  rewrite run_split_train_select, Htts. cbn zeta. rewrite E1, E2, Hsel.
  case_decide; simpl; by rewrite <- (assoc_L (++)).
Qed.

Lemma main_succeeds_with_best_model_witness :
  let w := @world_with token_joblib sample_frame in
  let out := @run token_joblib _
               (@main toy_numpy (toy_estimators working_fit working_fit)
                  token_joblib) w in
  out.1 = Ok true ∧
  @mlflow_runs token_joblib out.2 = ["logistic_regression"; "random_forest"] ∧
  @error_log token_joblib out.2 = [] ∧
  @files token_joblib out.2 !! model_path = Some [TModel rule_model].
Proof.
  intros w out.
  set (E := toy_estimators working_fit working_fit).
  destruct (split_features_target (clean_data sample_frame) "target")
    as [[X y]|e] eqn:Hsplit; [|vm_compute in Hsplit; discriminate Hsplit].
  destruct (@fit_transform toy_numpy new_preprocessor X) as [[p Xt]|e] eqn:Hft.
  2: { vm_compute in Hsplit. injection Hsplit as <- <-.
       vm_compute in Hft. discriminate Hft. }
  destruct (@train_test_split E Xt y test_size random_state)
    as [[[[X_train X_test] y_train] y_test]|e] eqn:Htts.
  2: { vm_compute in Hsplit. injection Hsplit as <- <-.
       vm_compute in Hft. injection Hft as <- <-.
       vm_compute in Htts. discriminate Htts. }
  destruct (@fit_and_evaluate toy_numpy E working_fit X_train y_train
              X_test y_test) as [[m ms]|e] eqn:Hfe.
  2: { vm_compute in Hsplit. injection Hsplit as <- <-.
       vm_compute in Hft. injection Hft as <- <-.
       vm_compute in Htts. injection Htts as <- <- <- <-.
       apply (f_equal is_ok) in Hfe. vm_compute in Hfe. discriminate Hfe. }
  assert (m = rule_model) as ->.
  { unfold fit_and_evaluate, working_fit in Hfe. simpl in Hfe.
    destruct (_calculate_metrics _ _ _); simpl in Hfe; [|discriminate Hfe].
    by injection Hfe as <- _. }
  set (t1 := {| models := dict_set "logistic_regression" rule_model [];
                results := dict_set "logistic_regression" ms [] |}).
  set (t2 := {| models := dict_set "random_forest" rule_model (models t1);
                results := dict_set "random_forest" ms (results t1) |}).
  destruct (@main_succeeds_with_best_model toy_numpy E token_joblib w
              sample_frame X y p Xt X_train X_test y_train y_test
              t1 t2 rule_model rule_model ms ms eq_refl Hsplit Hft Htts)
    as (a1 & a2 & _ & _ & _ & Hrun).
  - unfold train_logistic_regression. rewrite train_outcome.
    change (@LogisticRegression_fit E) with working_fit. rewrite Hfe.
    reflexivity.
  - unfold train_random_forest. rewrite train_outcome.
    change (@RandomForestClassifier_fit E) with working_fit. rewrite Hfe.
    reflexivity.
  - subst out E. rewrite Hrun. cbn [fst snd mlflow_runs error_log files].
    split; [reflexivity|]. split; [reflexivity|]. split; [reflexivity|].
    rewrite lookup_insert_eq. by destruct (decide (a1 < a2)).
Defined.

(** X13.  When reading or preparing the data fails (the file is missing,
    the target column is absent, or [fit_transform] raises), the script
    fails with that exception, logs it once, starts no MLflow run and
    writes no artifact. *)
Theorem main_fails_before_training `{Numpy} `{Estimators} `{Joblib}
    (w : World) (e : exn) :
  (csv_files w !! raw_data_path = None ∧ e = FileNotFoundError raw_data_path) ∨
  (∃ df, csv_files w !! raw_data_path = Some df ∧
     split_features_target (clean_data df) "target" = Err e) ∨
  (∃ df X y, csv_files w !! raw_data_path = Some df ∧
     split_features_target (clean_data df) "target" = Ok (X, y) ∧
     fit_transform new_preprocessor X = Err e) →
  run main w =
  (Err e,
   {| csv_files := csv_files w;
      files := files w;
      mlflow_runs := mlflow_runs w;
      error_log := error_log w ++ ["Training failed: " +:+ exn_str e] |}).
Proof.
  intros Hfail. rewrite run_main. unfold main_body.
  rewrite run_bind. unfold load_data at 1. cbn [run].
  destruct Hfail as [[Hcsv ->]|[(df & Hcsv & Hsplit)|(df & X & y & Hcsv & Hsplit & Hfit)]];
    rewrite Hcsv; [reflexivity|..].
  - rewrite run_bind, run_lift, Hsplit. reflexivity.
  - rewrite run_bind, run_lift, Hsplit. rewrite run_bind, run_lift, Hfit.
    reflexivity.
Qed.

Lemma main_fails_before_training_witness :
  let w := {| csv_files := ∅; files := ∅; mlflow_runs := []; error_log := [] |}
           : @World token_joblib in
  @run token_joblib _
    (@main toy_numpy (toy_estimators working_fit working_fit) token_joblib) w
  = (Err (FileNotFoundError raw_data_path),
     {| csv_files := ∅; files := ∅; mlflow_runs := [];
        error_log := ["Training failed: " +:+
                      exn_str (FileNotFoundError raw_data_path)] |}).
Proof.
  intros w.
  apply (@main_fails_before_training toy_numpy
           (toy_estimators working_fit working_fit) token_joblib w).
  left. split; reflexivity.
Defined.

(** The script at the end of train.py, outcome by outcome. *)
Lemma run_train_script `{Numpy} `{Estimators} `{Joblib} (w : World) :
  run train_script w =
  match csv_files w !! raw_data_path with
  | None => (Err (FileNotFoundError raw_data_path), w)
  | Some df =>
      match split_features_target (clean_data df) "target" with
      | Err e => (Err e, w)
      | Ok (X, y) =>
          match fit_transform new_preprocessor X with
          | Err e => (Err e, w)
          | Ok (p, Xt) =>
              match train_test_split Xt y test_size random_state with
              | Err e => (Err e, w)
              | Ok (X_train, X_test, y_train, y_test) =>
                  let w1 := started "logistic_regression" w in
                  match fit_and_evaluate LogisticRegression_fit
                          X_train y_train X_test y_test with
                  | Err e => (Err e, w1)
                  | Ok (m1, ms1) =>
                      let w2 := started "random_forest" w1 in
                      match fit_and_evaluate RandomForestClassifier_fit
                              X_train y_train X_test y_test with
                      | Err e => (Err e, w2)
                      | Ok (m2, ms2) =>
                          match select_best_model
                                  {| models := dict_set "random_forest" m2
                                       (dict_set "logistic_regression" m1 []);
                                     results := dict_set "random_forest" ms2
                                       (dict_set "logistic_regression" ms1 []) |}
                                  "roc_auc" with
                          | Err e => (Err e, w2)
                          | Ok (best_model, _) =>
                              (Ok (),
                               {| csv_files := csv_files w2;
                                  files :=
                                    <[preprocessor_path := dumps_preprocessor p]>
                                      (<[model_path := dumps_model best_model]>
                                         (files w2));
                                  mlflow_runs := mlflow_runs w2;
                                  error_log := error_log w2 |})
                          end
                      end
                  end
              end
          end
      end
  end.
Proof.
  unfold train_script. rewrite run_bind. unfold load_data at 1. cbn [run].
  destruct (csv_files w !! raw_data_path) as [df|]; [|reflexivity].
  rewrite run_bind, run_lift.
  destruct (split_features_target _ _) as [[X y]|]; [|reflexivity].
  rewrite run_bind, run_lift.
  destruct (fit_transform _ _) as [[p Xt]|]; [|reflexivity].
  rewrite run_bind, run_lift.
  destruct (train_test_split _ _ _ _) as [[[[X_train X_test] y_train] y_test]|];
    [|reflexivity].
  rewrite run_bind. unfold train_logistic_regression.
  rewrite run_train_and_record.
  destruct (fit_and_evaluate LogisticRegression_fit _ _ _ _) as [[m1 ms1]|];
    [|reflexivity].
  rewrite run_bind. unfold train_random_forest.
  rewrite run_train_and_record.
  destruct (fit_and_evaluate RandomForestClassifier_fit _ _ _ _) as [[m2 ms2]|];
    [|reflexivity].
  rewrite run_bind, run_lift. cbn [models results new_trainer].
  destruct (select_best_model _ _) as [[best_model best_name]|]; reflexivity.
Qed.

(** [main] without its handler, outcome by outcome. *)
Lemma run_main_body_cases `{Numpy} `{Estimators} `{Joblib} (w : World) :
  run main_body w =
  match csv_files w !! raw_data_path with
  | None => (Err (FileNotFoundError raw_data_path), w)
  | Some df =>
      match split_features_target (clean_data df) "target" with
      | Err e => (Err e, w)
      | Ok (X, y) =>
          match fit_transform new_preprocessor X with
          | Err e => (Err e, w)
          | Ok (p, Xt) => run (split_train_select Xt y) (with_preprocessor p w)
          end
      end
  end.
Proof.
  unfold main_body. rewrite run_bind. unfold load_data at 1. cbn [run].
  destruct (csv_files w !! raw_data_path) as [df|]; [|reflexivity].
  rewrite run_bind, run_lift.
  destruct (split_features_target _ _) as [[X y]|]; [|reflexivity].
  rewrite run_bind, run_lift.
  destruct (fit_transform _ _) as [[p Xt]|]; [|reflexivity].
  rewrite run_bind, run_save. reflexivity.
Qed.

(** X14.  The script at the end of train.py and [main] succeed on the same
    worlds and then leave the same artifact store; when they fail they
    fail with the same exception, but the former has written nothing and
    logged nothing, whereas [main] may already have written the
    preprocessor. *)
Theorem train_script_and_main `{Numpy} `{Estimators} `{Joblib} (w : World) :
  ((run main w).1 = Ok true ↔ (run train_script w).1 = Ok ()) ∧
  ((run main w).1 = Ok true →
   files (run train_script w).2 = files (run main w).2) ∧
  (∀ e, (run main w).1 = Err e ↔ (run train_script w).1 = Err e) ∧
  (∀ e, (run train_script w).1 = Err e → files (run train_script w).2 = files w) ∧
  error_log (run train_script w).2 = error_log w.
Proof.
  rewrite run_main, run_main_body_cases, run_train_script.
  destruct (csv_files w !! raw_data_path) as [df|];
    [|simpl; repeat split; first [done | by intros [= ->]]].
  destruct (split_features_target _ _) as [[X y]|];
    [|simpl; repeat split; first [done | by intros [= ->]]].
  destruct (fit_transform _ _) as [[p Xt]|];
    [|simpl; repeat split; first [done | by intros [= ->]]].
  rewrite run_split_train_select.
  destruct (train_test_split _ _ _ _) as [[[[X_train X_test] y_train] y_test]|];
    [|simpl; repeat split; first [done | by intros [= ->]]].
  cbn zeta.
  destruct (fit_and_evaluate LogisticRegression_fit _ _ _ _) as [[m1 ms1]|];
    [|simpl; repeat split; first [done | by intros [= ->]]].
  destruct (fit_and_evaluate RandomForestClassifier_fit _ _ _ _) as [[m2 ms2]|];
    [|simpl; repeat split; first [done | by intros [= ->]]].
  destruct (select_best_model _ _) as [[best_model best_name]|];
    [|simpl; repeat split; first [done | by intros [= ->]]].
  simpl. repeat split; try done.
  intros _. apply insert_insert_ne. discriminate.
Qed.

(** ** The serving adapter *)

(** The startup load, outcome by outcome. *)
Lemma run_startup `{Joblib} (w : World) :
  run App.startup w =
  let failed e :=
    (Ok {| App.model := None; App.preprocessor := None |},
     {| csv_files := csv_files w;
        files := files w;
        mlflow_runs := mlflow_runs w;
        error_log := error_log w ++ ["Error loading model: " +:+ exn_str e] |}) in
  match files w !! App.MODEL_PATH with
  | None => failed (FileNotFoundError App.MODEL_PATH)
  | Some b =>
      match loads_model b with
      | Err e => failed e
      | Ok m =>
          match files w !! App.PREPROCESSOR_PATH with
          | None => failed (FileNotFoundError App.PREPROCESSOR_PATH)
          | Some b' =>
              match loads_preprocessor b' with
              | Err e => failed e
              | Ok p =>
                  (Ok {| App.model := Some m; App.preprocessor := Some p |}, w)
              end
          end
      end
  end.
Proof.
  unfold App.startup. rewrite run_try_except, run_bind.
  unfold read_file at 1. cbn [run].
  destruct (files w !! App.MODEL_PATH) as [b|]; [|reflexivity].
  rewrite run_bind, run_lift.
  destruct (loads_model b) as [m|e]; [|reflexivity].
  rewrite run_bind. unfold read_file at 1. cbn [run].
  destruct (files w !! App.PREPROCESSOR_PATH) as [b'|]; [|reflexivity].
  rewrite run_bind, run_lift.
  destruct (loads_preprocessor b') as [p|e]; reflexivity.
Qed.

(** X15.  The startup load never fails and never touches the artifact
    store; it loads both artifacts or none.  The health report that
    follows is therefore never mixed: it says [healthy] with both
    statuses [loaded] exactly when both files exist and unpickle (and
    then nothing was logged), and otherwise [unhealthy] with both
    statuses [not loaded], the model included even if its own file was
    read successfully, and one error line was logged. *)
Theorem startup_loads_both_or_none `{Joblib} (w : World) (now : string) :
  ∃ g,
    (run App.startup w).1 = Ok g ∧
    files (run App.startup w).2 = files w ∧
    let report := health_check g now in
    let both_load :=
      ∃ b m b' p,
        files w !! App.MODEL_PATH = Some b ∧ loads_model b = Ok m ∧
        files w !! App.PREPROCESSOR_PATH = Some b' ∧
        loads_preprocessor b' = Ok p ∧
        g = {| App.model := Some m; App.preprocessor := Some p |} in
    (both_load ∧
     report = {| health_status := "healthy"; model_status := "loaded";
                 preprocessor_status := "loaded"; health_timestamp := now |} ∧
     error_log (run App.startup w).2 = error_log w)
    ∨
    (¬ both_load ∧
     g = {| App.model := None; App.preprocessor := None |} ∧
     report = {| health_status := "unhealthy"; model_status := "not loaded";
                 preprocessor_status := "not loaded"; health_timestamp := now |} ∧
     ∃ line, error_log (run App.startup w).2 = error_log w ++ [line]).
Proof.
  rewrite run_startup. cbv zeta.
  destruct (files w !! App.MODEL_PATH) as [b|] eqn:Hb.
  2: { eexists. split; [reflexivity|]. split; [reflexivity|]. right.
       split; [intros (? & ? & ? & ? & [=] & _)|]. by eauto. }
  destruct (loads_model b) as [m|e] eqn:Hm.
  2: { eexists. split; [reflexivity|]. split; [reflexivity|]. right.
       split; [intros (? & ? & ? & ? & [= <-] & ? & _); congruence|].
       by eauto. }
  destruct (files w !! App.PREPROCESSOR_PATH) as [b'|] eqn:Hb'.
  2: { eexists. split; [reflexivity|]. split; [reflexivity|]. right.
       split; [intros (? & ? & ? & ? & _ & _ & [=] & _)|]. by eauto. }
  destruct (loads_preprocessor b') as [p|e] eqn:Hp.
  2: { eexists. split; [reflexivity|]. split; [reflexivity|]. right.
       split; [intros (? & ? & ? & ? & _ & _ & [= <-] & ? & _); congruence|].
       by eauto. }
  eexists. split; [reflexivity|]. split; [reflexivity|]. left.
  split; [|done]. by exists b, m, b', p.
Qed.

Lemma input_frame_has_columns (input_data : App.HeartDiseaseInput)
    (name : string) :
  name ∈ numerical_features new_preprocessor
         ++ categorical_features new_preprocessor →
  is_Some (col_index name (columns (App.input_frame input_data))).
Proof.
  intros Hname. simpl in Hname.
  repeat (apply elem_of_cons in Hname as [->|Hname];
          [eexists; reflexivity|]).
  by apply elem_of_nil in Hname.
Qed.

(** X16.  With a preprocessor fitted with the default feature lists on a
    table in which every feature was observed at least once, and a model
    that answers one label and one probability for a one-row table, the
    endpoint answers every request: the request row is transformed, and
    the response carries the model's label as an integer, its
    probability, the band of that probability, the matching message and
    the current time.  No request then ends in status 500. *)
Theorem predict_answers_every_request `{Numpy}
    (X_train : DataFrame) (p : HeartDiseasePreprocessor) (m : Model)
    (input_data : App.HeartDiseaseInput) (now : string) :
  fit new_preprocessor X_train = Ok p →
  (∀ name, name ∈ numerical_features new_preprocessor
                   ++ categorical_features new_preprocessor →
     ∃ pos, col_index name (columns X_train) = Some pos ∧
       Exists (λ r, is_Some (cell_at pos r.2)) (rows X_train)) →
  (∀ X, length (rows X) = 1%nat →
     ∃ label pr, predict m X = Ok [label] ∧ predict_proba m X = Ok [pr]) →
  ∃ Xt label pr,
    transform p (App.input_frame input_data) = Ok Xt ∧
    length (rows Xt) = 1%nat ∧
    predict m Xt = Ok [label] ∧ predict_proba m Xt = Ok [pr] ∧
    App.predict {| App.model := Some m; App.preprocessor := Some p |}
      input_data now
    = Ok {| App.prediction := App.int label;
            App.probability := pr;
            App.risk_level := App.risk_band pr;
            App.message := if decide (label == 1)
                           then "Heart disease detected"
                           else "Heart disease not detected";
            App.timestamp := now |}.
Proof.
  intros Hfit Hobs Hmodel.
  destruct (transform_returns new_preprocessor X_train p
              (App.input_frame input_data) Hfit Hobs) as [Xt HXt].
  { apply input_frame_has_columns. }
  { discriminate. }
  destruct (transform_rows _ _ _ HXt)
    as (ct & idxn & idxc & _ & _ & _ & _ & _ & Hrows & _).
  assert (length (rows Xt) = 1%nat) as Hlen by (by rewrite Hrows).
  destruct (Hmodel Xt Hlen) as (label & pr & Hl & Hpr).
  exists Xt, label, pr. repeat split; try done.
  unfold App.predict, App.predict_try. cbn [App.model App.preprocessor].
  rewrite HXt. simpl. rewrite Hl. simpl. rewrite Hpr. simpl.
  by case_decide.
Qed.

Lemma predict_answers_every_request_witness :
  ∃ p response,
    @fit toy_numpy new_preprocessor sample_features = Ok p ∧
    App.predict {| App.model := Some rule_model; App.preprocessor := Some p |}
      example_request "2024-01-01T00:00:00" = Ok response ∧
    App.timestamp response = "2024-01-01T00:00:00".
Proof.
  destruct (@fit toy_numpy new_preprocessor sample_features) as [p|e] eqn:Hfit;
    [|vm_compute in Hfit; discriminate Hfit].
  destruct (@predict_answers_every_request toy_numpy sample_features p
              rule_model example_request "2024-01-01T00:00:00" Hfit)
    as (Xt & label & pr & _ & _ & _ & _ & Hresp).
  - apply sample_features_observed.
  - intros X HX. destruct (rows X) as [|r [|r' rs]] eqn:Hrows; try discriminate HX.
    eexists _, _. simpl. rewrite Hrows. split; reflexivity.
  - exists p. eexists. split; [reflexivity|]. split; [exact Hresp|reflexivity].
Defined.

(** ** When the preprocessing step succeeds *)

Lemma statistic_is_Some_inv (s : strategy) (xs : list Q) :
  is_Some (statistic s xs) → xs ≠ [].
Proof. intros Hs ->. destruct s; by destruct Hs. Qed.

Lemma observed_Exists (cs : list cell) :
  observed cs ≠ [] → Exists (λ c : cell, is_Some c) cs.
Proof.
  destruct (observed cs) as [|x xs] eqn:Hobs; [done|]. intros _.
  assert (x ∈ observed cs) as Hx by (rewrite Hobs; apply elem_of_cons; by left).
  apply observed_elem_of in Hx. apply Exists_exists. by exists (Some x).
Qed.

(** A configured column with a statistic was observed in some row. *)
Lemma statistics_come_from_observations (s : strategy) (names : list string)
    (X_train : DataFrame) (idx : list nat) :
  column_positions names X_train = Ok idx →
  Forall (λ c : cell, is_Some c)
    ((λ j, statistic s (observed (column j
        ((λ r : nat * list cell, pick idx r.2) <$> rows X_train))))
     <$> seq 0 (length names)) →
  ∀ name, name ∈ names →
    ∃ pos, col_index name (columns X_train) = Some pos ∧
      Exists (λ r, is_Some (cell_at pos r.2)) (rows X_train).
Proof.
  intros Hidx Hall name Hname.
  apply list_elem_of_lookup in Hname as [j Hj].
  destruct (column_positions_lookup _ _ _ _ _ Hidx Hj) as (pos & Hpos & Hjp).
  exists pos. split; [done|].
  rewrite Forall_lookup in Hall.
  assert (is_Some (statistic s (observed (column j
            ((λ r : nat * list cell, pick idx r.2) <$> rows X_train)))))
    as Hstat.
  { apply (Hall j). rewrite list_lookup_fmap, lookup_seq_lt; [done|].
    by eapply lookup_lt_Some. }
  apply statistic_is_Some_inv, observed_Exists in Hstat.
  rewrite (column_of_picks _ _ _ _ Hjp) in Hstat.
  rewrite !Exists_fmap in Hstat. exact Hstat.
Qed.

(** A configured column has a statistic exactly when it was observed in
    some row. *)
Lemma column_statistic_observed (s : strategy) (names : list string)
    (X : DataFrame) (idx : list nat) (j : nat) (name : string) :
  column_positions names X = Ok idx → names !! j = Some name →
  ∃ pos, col_index name (columns X) = Some pos ∧
    (is_Some (statistic s (observed (column j
        ((λ r : nat * list cell, pick idx r.2) <$> rows X)))) ↔
     Exists (λ r, is_Some (cell_at pos r.2)) (rows X)).
Proof.
  intros Hidx Hj.
  destruct (column_positions_lookup _ _ _ _ _ Hidx Hj) as (pos & Hpos & Hjp).
  exists pos. split; [done|]. rewrite (column_of_picks _ _ _ _ Hjp). split.
  - intros Hstat. apply statistic_is_Some_inv, observed_Exists in Hstat.
    rewrite !Exists_fmap in Hstat. exact Hstat.
  - intros Hobs.
    assert (observed ((λ r : nat * list cell, cell_at pos r.2) <$> rows X) ≠ [])
      as Hne by (apply observed_nonempty; by apply Exists_fmap).
    destruct s; [by apply median_is_Some|by apply most_frequent_is_Some].
Qed.

(** Some configured column has a statistic exactly when some configured
    column was observed. *)
Lemma some_statistic_observed (s : strategy) (names : list string)
    (X : DataFrame) (idx : list nat) :
  column_positions names X = Ok idx →
  Exists (λ c : cell, is_Some c)
    ((λ j, statistic s (observed (column j
        ((λ r : nat * list cell, pick idx r.2) <$> rows X))))
     <$> seq 0 (length names)) ↔
  ∃ name pos, name ∈ names ∧ col_index name (columns X) = Some pos ∧
    Exists (λ r, is_Some (cell_at pos r.2)) (rows X).
Proof.
  intros Hidx. rewrite Exists_exists. split.
  - intros (c & (j & -> & Hj)%list_elem_of_fmap & Hc).
    apply elem_of_seq in Hj as [_ Hj]. simpl in Hj.
    destruct (lookup_lt_is_Some_2 names j Hj) as [name Hname].
    destruct (column_statistic_observed s names X idx j name Hidx Hname)
      as (pos & Hpos & Hiff).
    exists name, pos. split; [by eapply list_elem_of_lookup_2|].
    split; [done|]. by apply Hiff.
  - intros (name & pos & (j & Hj)%list_elem_of_lookup & Hpos & Hobs).
    destruct (column_statistic_observed s names X idx j name Hidx Hj)
      as (pos' & Hpos' & Hiff).
    rewrite Hpos in Hpos'. injection Hpos' as <-.
    eexists. split; [|by apply Hiff].
    apply list_elem_of_fmap. exists j. split; [reflexivity|].
    apply elem_of_seq. apply lookup_lt_Some in Hj. simpl. lia.
Qed.

Lemma n_valid_pos (stats : list cell) :
  (0 < n_valid stats)%nat ↔ Exists (λ c : cell, is_Some c) stats.
Proof.
  induction stats as [|c stats IH].
  - pose proof (n_valid_le []) as Hle. simpl in Hle.
    split; [lia|by intros ?%Exists_nil].
  - rewrite n_valid_cons, Exists_cons. destruct c as [v|].
    + split; [by left|lia].
    + rewrite <- IH. split; [intros; right; lia|].
      intros [[? [=]]|?]. lia.
Qed.

Lemma check_min_features_Ok (names : list string) (stats : list cell) :
  check_min_features names (n_valid stats) = Ok () ↔
  names = [] ∨ Exists (λ c : cell, is_Some c) stats.
Proof.
  rewrite <- n_valid_pos. unfold check_min_features.
  destruct names as [|name names], (n_valid stats) as [|n]; split;
    try done; try (intros; left; done); try (intros; right; lia).
  intros [|]; [done|lia].
Qed.

(** What [fit] requires. *)
Lemma fit_is_Ok `{Numpy} (self : HeartDiseasePreprocessor) (X : DataFrame) :
  is_Ok (fit self X) ↔
  (∀ name, name ∈ numerical_features self ++ categorical_features self →
           name ∈ columns X) ∧
  rows X ≠ [] ∧
  (numerical_features self = [] ∨
   ∃ name pos,
     name ∈ numerical_features self ∧
     col_index name (columns X) = Some pos ∧
     Exists (λ r, is_Some (cell_at pos r.2)) (rows X)).
Proof.
  unfold fit, ColumnTransformer_fit, SimpleImputer_fit.
  cbn [statistics_ imputer_strategy].
  destruct (column_positions (numerical_features self) X) as [tn|] eqn:Htn;
    simpl.
  2: { split; [intros [? [=]]|]. intros (Hcols & _).
       destruct (proj2 (column_positions_Ok_iff (numerical_features self) X))
         as [? ?]; [|congruence].
       intros name Hname. apply Hcols, elem_of_app. by left. }
  destruct (column_positions (categorical_features self) X) as [tc|] eqn:Htc;
    simpl.
  2: { split; [intros [? [=]]|]. intros (Hcols & _).
       destruct (proj2 (column_positions_Ok_iff (categorical_features self) X))
         as [? ?]; [|congruence].
       intros name Hname. apply Hcols, elem_of_app. by right. }
  assert (∀ name, name ∈ numerical_features self ++ categorical_features self →
                  name ∈ columns X) as Hcols.
  { intros name [Hn|Hc]%elem_of_app.
    - apply (proj1 (column_positions_Ok_iff _ X) (ex_intro _ tn Htn) _ Hn).
    - apply (proj1 (column_positions_Ok_iff _ X) (ex_intro _ tc Htc) _ Hc). }
  destruct (decide (rows X = [])) as [Hnil|Hrows].
  { rewrite Hnil. simpl. split; [intros [? [=]]|intros (_ & ? & _); done]. }
  assert (check_min_samples (rows X) = Ok ()) as ->
    by (by destruct (rows X)).
  cbn [mbind result_bind].
  pose proof (some_statistic_observed Median _ X tn Htn) as Hsome.
  simpl in Hsome.
  destruct (check_min_features _ _) as [[]|] eqn:Hmin; simpl.
  - apply check_min_features_Ok in Hmin. split; [|by eexists].
    intros _. split; [done|]. split; [done|].
    destruct Hmin as [|Hmin]; [by left|right]. by apply Hsome.
  - split; [intros [? [=]]|]. intros (_ & _ & Hobs).
    assert (check_min_features (numerical_features self)
              (n_valid ((λ j, median (observed (column j
                  ((λ r : nat * list cell, pick tn r.2) <$> rows X))))
                <$> seq 0 (length (numerical_features self)))) = Ok ()) as Hok.
    { apply check_min_features_Ok.
      destruct Hobs as [|Hobs]; [by left|right]. by apply Hsome. }
    congruence.
Qed.

Lemma fit_returns `{Numpy} (self : HeartDiseasePreprocessor) (X : DataFrame) :
  (∀ name, name ∈ numerical_features self ++ categorical_features self →
     ∃ pos, col_index name (columns X) = Some pos ∧
       Exists (λ r, is_Some (cell_at pos r.2)) (rows X)) →
  rows X ≠ [] → is_Ok (fit self X).
Proof.
  intros Hobs Hrows. apply fit_is_Ok. split; [|split; [done|]].
  - intros name Hname. destruct (Hobs name Hname) as (pos & Hpos & _).
    destruct (decide (name ∈ columns X)) as [|Hout]; [done|].
    apply col_index_None in Hout. congruence.
  - destruct (numerical_features self) as [|name names] eqn:Hnum; [by left|].
    right. destruct (Hobs name) as (pos & Hpos & Hex).
    { simpl. by left. }
    exists name, pos. split; [by left|done].
Qed.

(** X3.  [fit] succeeds exactly when the table has at least one row and
    every configured column, and, unless no numerical column is
    configured, some numerical column is observed in at least one row
    (the scaler refuses a numerical block from which the imputer has
    dropped every column).  The fitted object keeps the feature lists and
    holds a pipeline; every failure of [fit] is a [ValueError]. *)
Theorem fit_succeeds_iff `{Numpy} (self : HeartDiseasePreprocessor)
    (X : DataFrame) :
  (is_Ok (fit self X) ↔
   (∀ name, name ∈ numerical_features self ++ categorical_features self →
            name ∈ columns X) ∧
   rows X ≠ [] ∧
   (numerical_features self = [] ∨
    ∃ name pos,
      name ∈ numerical_features self ∧
      col_index name (columns X) = Some pos ∧
      Exists (λ r, is_Some (cell_at pos r.2)) (rows X))) ∧
  (∀ p, fit self X = Ok p →
     numerical_features p = numerical_features self ∧
     categorical_features p = categorical_features self ∧
     is_Some (pipeline p)) ∧
  (∀ e, fit self X = Err e → ∃ msg, e = ValueError msg).
Proof.
  split; [apply fit_is_Ok|]. split.
  - intros p Hp. destruct (fit_state self X p Hp)
      as (tn & tc & _ & _ & _ & Hnum & Hcat & Hpl).
    split; [done|]. split; [done|]. rewrite Hpl. by eexists.
  - apply fit_raises_ValueError.
Qed.

(** A table whose numerical columns are all entirely missing is refused
    by [fit], although every configured column is present. *)
Example fit_without_observed_numerical_column :
  ∃ msg,
    @fit toy_numpy age_sex_preprocessor
      {| columns := ["age"; "sex"];
         rows := [(0%nat, [None; Some 1]); (1%nat, [None; Some 0])] |}
    = Err (ValueError msg).
Proof. eexists. reflexivity. Qed.

(** X17.  [fit_transform] returns exactly when the table has at least one
    row and every configured column is present and observed in at least
    one row; a configured column that is entirely missing makes it raise,
    as a table without rows or without the column does, and every
    failure is a [ValueError]. *)
Theorem fit_transform_succeeds_iff `{Numpy} (self : HeartDiseasePreprocessor)
    (X : DataFrame) :
  (is_Ok (fit_transform self X) ↔
   rows X ≠ [] ∧
   ∀ name, name ∈ numerical_features self ++ categorical_features self →
     ∃ pos, col_index name (columns X) = Some pos ∧
       Exists (λ r, is_Some (cell_at pos r.2)) (rows X)) ∧
  (∀ e, fit_transform self X = Err e → ∃ msg, e = ValueError msg).
Proof.
  split.
  - split.
    + intros [[p Xt] [Hfit Ht]%fit_transform_Ok].
      destruct (fit_state self X p Hfit)
        as (tn & tc & Htn & Htc & Hrows & Hnum & Hcat & Hp).
      split; [done|]. cbv zeta in Hp.
      destruct (transform_rows p X Xt Ht)
        as (ct & idxn & idxc & Hct & _ & _ & _ & _ & _ & Hshape).
      rewrite Hp in Hct. injection Hct as <-.
      assert (∃ r0, r0 ∈ rows X) as [r0 Hr0].
      { revert Hrows. destruct (rows X) as [|r0 ?]; [done|].
        intros _. exists r0. by left. }
      rewrite Forall_forall in Hshape. specialize (Hshape r0 Hr0).
      rewrite Hnum, Hcat, length_app in Hshape.
      apply transform_row_shape in Hshape as (Hn & Hc & _);
        [|cbn [statistics_ numerical_imputer categorical_imputer];
          rewrite length_fmap; apply length_seq..].
      cbn [statistics_ numerical_imputer categorical_imputer] in Hn, Hc.
      intros name [Hname|Hname]%elem_of_app.
      * exact (statistics_come_from_observations Median _ X tn Htn Hn name Hname).
      * exact (statistics_come_from_observations MostFrequent _ X tc Htc Hc name Hname).
    + intros [Hrows Hobs].
      destruct (fit_returns self X Hobs Hrows) as [p Hfit].
      destruct (transform_returns self X p X Hfit Hobs) as [Xt Ht]; [|done|].
      { intros name Hname. destruct (Hobs name Hname) as (pos & -> & _). done. }
      exists (p, Xt). by apply fit_transform_Ok.
  - intros e. unfold fit_transform.
    destruct (fit self X) as [p|e'] eqn:Hfit; simpl.
    + destruct (transform p X) as [Xt|e''] eqn:Ht; simpl; [discriminate|].
      intros [= <-].
      destruct (fit_state self X p Hfit) as (tn & tc & _ & _ & _ & _ & _ & Hp).
      cbv zeta in Hp.
      apply (transform_raises_ValueError p X); [rewrite Hp; by eexists|done].
    + intros [= <-]. by apply (fit_raises_ValueError self X).
Qed.

(** ** When a fitted preprocessor transforms a batch *)

(** A returned batch shows that every configured column had a statistic,
    that is, was observed in the training table. *)
Lemma transform_Ok_observed `{Numpy} (self p : HeartDiseasePreprocessor)
    (X_train X Xt : DataFrame) (name : string) :
  fit self X_train = Ok p → transform p X = Ok Xt →
  name ∈ numerical_features self ++ categorical_features self →
  ∃ pos, col_index name (columns X_train) = Some pos ∧
    Exists (λ r, is_Some (cell_at pos r.2)) (rows X_train).
Proof.
  intros Hfit Ht.
  destruct (fit_state self X_train p Hfit)
    as (tn & tc & Htn & Htc & _ & Hnum & Hcat & Hp).
  cbv zeta in Hp.
  destruct (transform_rows p X Xt Ht)
    as (ct & idxn & idxc & Hct & _ & _ & Hrows & _ & _ & Hshape).
  rewrite Hp in Hct. injection Hct as <-.
  assert (∃ r0, r0 ∈ rows X) as [r0 Hr0].
  { revert Hrows. destruct (rows X) as [|r0 ?]; [done|].
    intros _. exists r0. by left. }
  rewrite Forall_forall in Hshape. specialize (Hshape r0 Hr0).
  rewrite Hnum, Hcat, length_app in Hshape.
  apply transform_row_shape in Hshape as (Hn & Hc & _);
    [|cbn [statistics_ numerical_imputer categorical_imputer];
      rewrite length_fmap; apply length_seq..].
  cbn [statistics_ numerical_imputer categorical_imputer] in Hn, Hc.
  intros [Hname|Hname]%elem_of_app.
  - exact (statistics_come_from_observations Median _ X_train tn Htn Hn
             name Hname).
  - exact (statistics_come_from_observations MostFrequent _ X_train tc Htc Hc
             name Hname).
Qed.

(** X5.  After [fit] on a training table, [transform] returns for a batch
    exactly when the batch has at least one row and every configured
    column, and every configured column was observed in at least one row
    of the training table: a column that was entirely missing at fit time
    makes every later [transform] raise, whatever the batch.  Every
    failure of [transform] is then a [ValueError]. *)
Theorem transform_succeeds_iff `{Numpy} (self p : HeartDiseasePreprocessor)
    (X_train X : DataFrame) :
  fit self X_train = Ok p →
  (is_Ok (transform p X) ↔
   rows X ≠ [] ∧
   ∀ name, name ∈ numerical_features self ++ categorical_features self →
     name ∈ columns X ∧
     ∃ pos, col_index name (columns X_train) = Some pos ∧
       Exists (λ r, is_Some (cell_at pos r.2)) (rows X_train)) ∧
  (∀ e, transform p X = Err e → ∃ msg, e = ValueError msg).
Proof.
  intros Hfit. split.
  - split.
    + intros [Xt Ht].
      destruct (fit_state self X_train p Hfit)
        as (_ & _ & _ & _ & _ & Hnum & Hcat & _).
      destruct (transform_rows p X Xt Ht)
        as (ct & idxn & idxc & _ & Hidxn & Hidxc & Hrows & _).
      split; [done|]. intros name Hname. split.
      * rewrite <- Hnum, <- Hcat in Hname.
        apply elem_of_app in Hname as [Hn|Hc].
        -- apply (proj1 (column_positions_Ok_iff _ X)
                    (ex_intro _ idxn Hidxn) _ Hn).
        -- apply (proj1 (column_positions_Ok_iff _ X)
                    (ex_intro _ idxc Hidxc) _ Hc).
      * by eapply transform_Ok_observed.
    + intros [Hrows Hall].
      apply (transform_returns self X_train p X Hfit); [| |done].
      * intros name Hname. by apply Hall.
      * intros name Hname. destruct (Hall name Hname) as [Hin _].
        destruct (col_index name (columns X)) eqn:Hidx; [done|].
        apply col_index_None in Hidx. done.
  - intros e.
    destruct (fit_state self X_train p Hfit)
      as (tn & tc & _ & _ & _ & _ & _ & Hp).
    cbv zeta in Hp.
    apply (transform_raises_ValueError p X). rewrite Hp. by eexists.
Qed.

Lemma transform_succeeds_iff_witness :
  ∃ p,
    @fit toy_numpy new_preprocessor sample_features = Ok p ∧
    is_Ok (transform p batch_with_missing) ∧
    ¬ is_Ok (transform p {| columns := columns batch_with_missing; rows := [] |}).
Proof.
  destruct (@fit toy_numpy new_preprocessor sample_features) as [p|e] eqn:Hfit;
    [|vm_compute in Hfit; discriminate Hfit].
  exists p. split; [reflexivity|]. split.
  - apply (@transform_succeeds_iff toy_numpy new_preprocessor p sample_features
             batch_with_missing Hfit).
    split; [discriminate|]. intros name Hname. split.
    + destruct (batch_has_columns name Hname) as [pos Hpos].
      destruct (decide (name ∈ columns batch_with_missing)) as [|Hout]; [done|].
      apply col_index_None in Hout. congruence.
    + by apply sample_features_observed.
  - intros Hok.
    apply (@transform_succeeds_iff toy_numpy new_preprocessor p sample_features
             _ Hfit) in Hok as [Hrows _].
    by apply Hrows.
Defined.

(** ** Columns are read by name *)

Lemma picks_agree (names : list string) (X X' : DataFrame) (idx idx' : list nat) :
  column_positions names X = Ok idx →
  column_positions names X' = Ok idx' →
  (∀ name, name ∈ names → same_column name X X') →
  ∀ k r r', rows X !! k = Some r → rows X' !! k = Some r' →
    pick idx r.2 = pick idx' r'.2.
Proof.
  intros Hidx Hidx' Hsame k r r' Hr Hr'. apply list_eq. intros j.
  destruct (names !! j) as [name|] eqn:Hj.
  - destruct (column_positions_lookup _ _ _ _ _ Hidx Hj) as (pos & Hpos & Hjp).
    destruct (column_positions_lookup _ _ _ _ _ Hidx' Hj) as (pos' & Hpos' & Hjp').
    rewrite (pick_lookup _ _ _ _ Hjp), (pick_lookup _ _ _ _ Hjp').
    destruct (Hsame name) as (q & q' & Hq & Hq' & Hcol);
      [by eapply list_elem_of_lookup_2|].
    rewrite Hpos in Hq. injection Hq as <-.
    rewrite Hpos' in Hq'. injection Hq' as <-.
    apply (f_equal (λ l, l !! k)) in Hcol.
    rewrite !list_lookup_fmap, Hr, Hr' in Hcol. simpl in Hcol. exact Hcol.
  - apply lookup_ge_None in Hj.
    rewrite !(proj2 (lookup_ge_None _ _)); [done|..].
    + rewrite pick_length, (column_positions_length _ _ _ Hidx'). done.
    + rewrite pick_length, (column_positions_length _ _ _ Hidx). done.
Qed.

(** X18.  [transform] reads the configured columns by name: two batches
    with the same index that carry the same cells under every configured
    name get the same result, whatever the order of their columns and
    whatever other columns (a target column, say) they carry. *)
Theorem transform_reads_columns_by_name (p : HeartDiseasePreprocessor)
    (X X' : DataFrame) :
  (rows X).*1 = (rows X').*1 →
  (∀ name, name ∈ numerical_features p ++ categorical_features p →
     same_column name X X') →
  transform p X = transform p X'.
Proof.
  intros Hindex Hsame. unfold transform.
  destruct (pipeline p) as [ct|]; [|reflexivity].
  assert (length (rows X) = length (rows X')) as Hlen.
  { by rewrite <- (length_fmap fst (rows X)), Hindex, length_fmap. }
  unfold ColumnTransformer_transform.
  destruct (column_positions_is_Ok (numerical_features p) X) as [idxn Hn].
  { intros name Hname. destruct (Hsame name) as (? & ? & -> & _); [|done].
    apply elem_of_app. by left. }
  destruct (column_positions_is_Ok (numerical_features p) X') as [idxn' Hn'].
  { intros name Hname. destruct (Hsame name) as (? & ? & _ & -> & _); [|done].
    apply elem_of_app. by left. }
  destruct (column_positions_is_Ok (categorical_features p) X) as [idxc Hc].
  { intros name Hname. destruct (Hsame name) as (? & ? & -> & _); [|done].
    apply elem_of_app. by right. }
  destruct (column_positions_is_Ok (categorical_features p) X') as [idxc' Hc'].
  { intros name Hname. destruct (Hsame name) as (? & ? & _ & -> & _); [|done].
    apply elem_of_app. by right. }
  rewrite Hn, Hn', Hc, Hc'. cbn [mbind result_bind].
  assert (check_min_samples (rows X) = check_min_samples (rows X')) as ->.
  { destruct (rows X), (rows X'); done. }
  destruct (check_min_samples (rows X')); [|reflexivity]. cbn [mbind result_bind].
  rewrite Hindex. f_equal.
  apply list_eq. intros k. rewrite !list_lookup_fmap.
  destruct (rows X !! k) as [r|] eqn:Hr, (rows X' !! k) as [r'|] eqn:Hr'; simpl.
  - unfold transform_row.
    rewrite (picks_agree (numerical_features p) X X' idxn idxn' Hn Hn'
               (λ name Hname, Hsame name (proj2 (elem_of_app _ _ _) (or_introl Hname)))
               k r r' Hr Hr').
    rewrite (picks_agree (categorical_features p) X X' idxc idxc' Hc Hc'
               (λ name Hname, Hsame name (proj2 (elem_of_app _ _ _) (or_intror Hname)))
               k r r' Hr Hr').
    reflexivity.
  - apply lookup_ge_None in Hr'. apply lookup_lt_Some in Hr. lia.
  - apply lookup_ge_None in Hr. apply lookup_lt_Some in Hr'. lia.
  - reflexivity.
Qed.

Lemma transform_reads_columns_by_name_witness :
  ∃ p,
    @fit toy_numpy new_preprocessor sample_features = Ok p ∧
    transform p (clean_data sample_frame) = transform p sample_features.
Proof.
  destruct (@fit toy_numpy new_preprocessor sample_features) as [p|e] eqn:Hfit;
    [|vm_compute in Hfit; discriminate Hfit].
  exists p. split; [reflexivity|].
  apply transform_reads_columns_by_name.
  - vm_compute. reflexivity.
  - destruct (fit_state new_preprocessor sample_features p Hfit)
      as (_ & _ & _ & _ & _ & -> & -> & _).
    intros name Hname. simpl in Hname.
    repeat (apply elem_of_cons in Hname as [->|Hname];
            [eexists _, _; split; [reflexivity|];
             split; [reflexivity|vm_compute; reflexivity]|]).
    by apply elem_of_nil in Hname.
Defined.

(** ** Selection after training *)

(** X19.  After both candidates were trained, [select_best_model] works
    for each of the seven recorded metric names, and returns the random
    forest only if its value is strictly larger than that of the logistic
    regression; for any other metric name it raises [KeyError] with that
    name. *)
Theorem select_best_model_after_training `{Numpy} `{Estimators} `{Joblib}
    (X_train X_test : DataFrame) (y_train y_test : list cell) (w w' : World)
    (t1 t2 : ModelTrainer) (m1 m2 : Model) (ms1 ms2 : gmap string Q)
    (metric : string) :
  (run (train_logistic_regression new_trainer X_train y_train X_test y_test) w).1
    = Ok (t1, (m1, ms1)) →
  (run (train_random_forest t1 X_train y_train X_test y_test) w').1
    = Ok (t2, (m2, ms2)) →
  (metric ∈ ["accuracy"; "precision"; "recall"; "f1_score"; "roc_auc";
             "cv_roc_auc_mean"; "cv_roc_auc_std"] →
   ∃ a1 a2,
     ms1 !! metric = Some a1 ∧ ms2 !! metric = Some a2 ∧
     select_best_model t2 metric
       = Ok (if decide (a1 < a2) then (m2, "random_forest")
             else (m1, "logistic_regression"))) ∧
  (metric ∉ ["accuracy"; "precision"; "recall"; "f1_score"; "roc_auc";
             "cv_roc_auc_mean"; "cv_roc_auc_std"] →
   select_best_model t2 metric = Err (KeyError metric)).
Proof.
  intros Hlr Hrf.
  unfold train_logistic_regression, train_random_forest in *.
  rewrite train_outcome in Hlr.
  destruct (fit_and_evaluate LogisticRegression_fit _ _ _ _)
    as [[m1' ms1']|] eqn:E1; [|discriminate].
  simpl in Hlr. injection Hlr as <- <- <-.
  rewrite train_outcome in Hrf.
  destruct (fit_and_evaluate RandomForestClassifier_fit _ _ _ _)
    as [[m2' ms2']|] eqn:E2; [|discriminate].
  simpl in Hrf. injection Hrf as <- <- <-.
  pose proof (fit_and_evaluate_metric_names _ _ _ _ _ _ _ metric E1) as Hn1.
  pose proof (fit_and_evaluate_metric_names _ _ _ _ _ _ _ metric E2) as Hn2.
  split.
  - intros Hin.
    destruct (proj2 Hn1 Hin) as [a1 Ha1]. destruct (proj2 Hn2 Hin) as [a2 Ha2].
    exists a1, a2. split; [done|]. split; [done|].
    by apply select_between_two.
  - intros Hout. apply select_between_two_missing.
    destruct (ms1' !! metric) eqn:Hm; [|done].
    destruct Hout. apply Hn1. by eexists.
Qed.

Lemma select_best_model_after_training_witness :
  let w := @world_with token_joblib sample_frame in
  ∃ t1 t2 m1 m2 ms1 ms2,
    (@run token_joblib _
       (@train_logistic_regression toy_numpy
          (toy_estimators working_fit (λ _ _, Ok (constant_model 1 0.9)))
          token_joblib new_trainer four_scaled four_labels four_scaled four_labels)
       w).1 = Ok (t1, (m1, ms1)) ∧
    (@run token_joblib _
       (@train_random_forest toy_numpy
          (toy_estimators working_fit (λ _ _, Ok (constant_model 1 0.9)))
          token_joblib t1 four_scaled four_labels four_scaled four_labels)
       w).1 = Ok (t2, (m2, ms2)) ∧
    select_best_model t2 "accuracy" = Ok (m1, "logistic_regression") ∧
    select_best_model t2 "auc" = Err (KeyError "auc").
Proof.
  intros w.
  set (E := toy_estimators working_fit (λ _ _, Ok (constant_model 1 0.9))).
  assert (match @fit_and_evaluate toy_numpy E working_fit
                  four_scaled four_labels four_scaled four_labels,
                @fit_and_evaluate toy_numpy E (λ _ _, Ok (constant_model 1 0.9))
                  four_scaled four_labels four_scaled four_labels with
          | Ok (_, ms1), Ok (_, ms2) =>
              bool_decide (default 0 (ms1 !! "accuracy")
                           < default 0 (ms2 !! "accuracy"))
          | _, _ => true
          end = false) as Hcmp by (vm_compute; reflexivity).
  destruct (@fit_and_evaluate toy_numpy E working_fit
              four_scaled four_labels four_scaled four_labels)
    as [[m1 ms1]|e] eqn:E1; [|discriminate Hcmp].
  destruct (@fit_and_evaluate toy_numpy E (λ _ _, Ok (constant_model 1 0.9))
              four_scaled four_labels four_scaled four_labels)
    as [[m2 ms2]|e] eqn:E2; [|discriminate Hcmp].
  assert ((@run token_joblib _
             (@train_logistic_regression toy_numpy E token_joblib new_trainer
                four_scaled four_labels four_scaled four_labels) w).1
          = Ok ({| models := dict_set "logistic_regression" m1 [];
                   results := dict_set "logistic_regression" ms1 [] |},
                (m1, ms1))) as Hlr.
  { unfold train_logistic_regression. rewrite train_outcome.
    change (@LogisticRegression_fit E) with working_fit. by rewrite E1. }
  eexists _, _, m1, m2, ms1, ms2. split; [exact Hlr|].
  assert (∀ t1,
            (@run token_joblib _
               (@train_random_forest toy_numpy E token_joblib t1
                  four_scaled four_labels four_scaled four_labels) w).1
            = Ok ({| models := dict_set "random_forest" m2 (models t1);
                     results := dict_set "random_forest" ms2 (results t1) |},
                  (m2, ms2))) as Hrf.
  { intros t1. unfold train_random_forest. rewrite train_outcome.
    change (@RandomForestClassifier_fit E)
      with (λ (_ : DataFrame) (_ : list cell), Ok (constant_model 1 0.9)).
    by rewrite E2. }
  split; [apply Hrf|].
  destruct (@select_best_model_after_training toy_numpy E token_joblib
              four_scaled four_scaled four_labels four_labels w w
              _ _ m1 m2 ms1 ms2 "accuracy" Hlr (Hrf _)) as [Hknown _].
  destruct (@select_best_model_after_training toy_numpy E token_joblib
              four_scaled four_scaled four_labels four_labels w w
              _ _ m1 m2 ms1 ms2 "auc" Hlr (Hrf _)) as [_ Hunknown].
  split.
  - destruct Hknown as (a1 & a2 & Ha1 & Ha2 & ->);
      [repeat first [by left | right]|].
    rewrite Ha1, Ha2 in Hcmp. simpl in Hcmp.
    apply bool_decide_eq_false in Hcmp. by rewrite decide_False.
  - apply Hunknown. intros Hin.
    repeat (apply elem_of_cons in Hin as [Hin|Hin]; [discriminate Hin|]).
    by apply elem_of_nil in Hin.
Defined.
